(** * Verification of the LostMind AI documentation pipeline

    A shallow embedding of the documentation scanner
    ([scripts/docs-automation-v2/enhanced-scan-projects.js], both the
    directory-walking scanner and the selective scanner), of the selective
    project configuration and of the documentation validator, together with
    the properties the specification states about them. *)

From Stdlib Require Import List Bool Arith Lia NArith ZArith Ascii String.
From Stdlib Require DecimalString.
Import ListNotations.

Set Implicit Arguments.

(** * JavaScript strings

    A JavaScript string is a sequence of UTF-16 code units.  The regular
    expressions of the scanner carry no [u] flag, so they see one code unit
    at a time; the model does the same. *)

Module JS.

Definition char := N.
Definition jstring := list char.

Definition ch (a : ascii) : char := N_of_ascii a.

(** [js "text"] is the string literal ['text']. *)
Definition js (s : string) : jstring := map ch (list_ascii_of_string s).

Definition nl : char := 10%N.
Definition dquote : jstring := [34%N].

Definition ch_eqb (a b : char) : bool := N.eqb a b.

Fixpoint str_eqb (a b : jstring) : bool :=
  match a, b with
  | [], [] => true
  | x :: a', y :: b' => ch_eqb x y && str_eqb a' b'
  | _, _ => false
  end.

(** [s.startsWith(p)] *)
Fixpoint startsWith (s p : jstring) : bool :=
  match p, s with
  | [], _ => true
  | x :: p', y :: s' => ch_eqb x y && startsWith s' p'
  | _ :: _, [] => false
  end.

(** [s.includes(p)] *)
Fixpoint includes (s p : jstring) : bool :=
  startsWith s p ||
  match s with
  | [] => false
  | _ :: s' => includes s' p
  end.

(** [s.split(sep)] for a one-character separator. *)
Fixpoint split (sep : char) (s : jstring) : list jstring :=
  match s with
  | [] => [[]]
  | c :: s' =>
      if ch_eqb c sep then [] :: split sep s'
      else match split sep s' with
           | l :: ls => (c :: l) :: ls
           | [] => [[c]]
           end
  end.

(** [lines.join(sep)] *)
Fixpoint join (sep : jstring) (l : list jstring) : jstring :=
  match l with
  | [] => []
  | [x] => x
  | x :: l' => x ++ sep ++ join sep l'
  end.

(** [s.replace(p, r)] with a string pattern: the first occurrence only. *)
Fixpoint replaceStr (s p r : jstring) : jstring :=
  if startsWith s p then r ++ skipn (List.length p) s
  else match s with
       | [] => []
       | c :: s' => c :: replaceStr s' p r
       end.

(** Line terminators of ECMAScript: LF, CR, LS, PS. *)
Definition isLineTerminator (c : char) : bool :=
  (c =? 10)%N || (c =? 13)%N || (c =? 8232)%N || (c =? 8233)%N.

(** The class [\s], which is also what [trim] strips: white space and line
    terminators. *)
Definition isSpace (c : char) : bool :=
  (c =? 9)%N || (c =? 11)%N || (c =? 12)%N || (c =? 32)%N || (c =? 160)%N ||
  (c =? 5760)%N || ((8192 <=? c)%N && (c <=? 8202)%N) || (c =? 8239)%N ||
  (c =? 8287)%N || (c =? 12288)%N || (c =? 65279)%N || isLineTerminator c.

Fixpoint trimStart (s : jstring) : jstring :=
  match s with
  | c :: s' => if isSpace c then trimStart s' else s
  | [] => []
  end.

Definition trimEnd (s : jstring) : jstring := rev (trimStart (rev s)).

(** [s.trim()] *)
Definition trim (s : jstring) : jstring := trimEnd (trimStart s).

Definition isDigit (c : char) : bool := (48 <=? c)%N && (c <=? 57)%N.
Definition isUpper (c : char) : bool := (65 <=? c)%N && (c <=? 90)%N.
Definition isLower (c : char) : bool := (97 <=? c)%N && (c <=? 122)%N.
Definition isAlpha (c : char) : bool := isUpper c || isLower c.
Definition isAlnum (c : char) : bool := isAlpha c || isDigit c.

(** [s.charAt(0)] and [s.slice(1)] *)
Definition charAt0 (s : jstring) : jstring :=
  match s with
  | [] => []
  | c :: _ => [c]
  end.

Definition slice1 (s : jstring) : jstring := tl s.

(** Values that reach a template literal [`${v}`]. *)
Inductive value :=
| VStr (s : jstring)
| VNum (z : Z)
| VArr (l : list jstring)
| VUndefined.

Definition decimal (z : Z) : jstring :=
  js (DecimalString.NilZero.string_of_int (Z.to_int z)).

(** String conversion as a template literal performs it. *)
Definition toStr (v : value) : jstring :=
  match v with
  | VStr s => s
  | VNum z => decimal z
  | VArr l => join (js ",") l
  | VUndefined => js "undefined"
  end.

End JS.
Import JS.

(** * Regular expressions

    The backtracking matcher of ECMAScript, restricted to the constructs the
    scanner's patterns use: character classes, sequence, alternation, greedy
    and lazy repetition of a character class, line anchors, negative
    lookahead and capture groups. *)

Module Regex.

Inductive regex :=
| REps
| RChar (p : char -> bool)
| RSeq (r1 r2 : regex)
| RAlt (r1 r2 : regex)
| RStar (greedy : bool) (p : char -> bool)
| RBol (multiline : bool)
| REol (multiline : bool)
| RNegAhead (r : regex)
| RGroup (i : nat) (r : regex).

(** A matcher state: the code unit before the current position, the input
    still to be read, and the captures made so far. *)
Record mstate := MState {
  prev : option char;
  rest : jstring;
  caps : list (nat * jstring)
}.

Definition cont := mstate -> option mstate.

Definition at_bol (m : bool) (st : mstate) : bool :=
  match prev st with
  | None => true
  | Some c => m && isLineTerminator c
  end.

Definition at_eol (m : bool) (st : mstate) : bool :=
  match rest st with
  | [] => true
  | c :: _ => m && isLineTerminator c
  end.

(** [p*]: as many as possible first, giving back one at a time. *)
Fixpoint star_greedy (p : char -> bool) (k : cont)
    (pv : option char) (s : jstring) (cs : list (nat * jstring)) : option mstate :=
  match s with
  | c :: s' =>
      if p c then
        match star_greedy p k (Some c) s' cs with
        | Some r => Some r
        | None => k (MState pv s cs)
        end
      else k (MState pv s cs)
  | [] => k (MState pv [] cs)
  end.

(** [p*?]: as few as possible first, taking one more at a time. *)
Fixpoint star_lazy (p : char -> bool) (k : cont)
    (pv : option char) (s : jstring) (cs : list (nat * jstring)) : option mstate :=
  match k (MState pv s cs) with
  | Some r => Some r
  | None =>
      match s with
      | c :: s' => if p c then star_lazy p k (Some c) s' cs else None
      | [] => None
      end
  end.

(** The text consumed between two states of one run. *)
Definition consumed (st st' : mstate) : jstring :=
  firstn (List.length (rest st) - List.length (rest st')) (rest st).

Definition set_cap (i : nat) (s : jstring) (st : mstate) : mstate :=
  MState (prev st) (rest st) ((i, s) :: caps st).

Fixpoint rmatch (r : regex) (k : cont) (st : mstate) : option mstate :=
  match r with
  | REps => k st
  | RChar p =>
      match rest st with
      | c :: s' => if p c then k (MState (Some c) s' (caps st)) else None
      | [] => None
      end
  | RSeq a b => rmatch a (rmatch b k) st
  | RAlt a b =>
      match rmatch a k st with
      | Some r => Some r
      | None => rmatch b k st
      end
  | RStar true p => star_greedy p k (prev st) (rest st) (caps st)
  | RStar false p => star_lazy p k (prev st) (rest st) (caps st)
  | RBol m => if at_bol m st then k st else None
  | REol m => if at_eol m st then k st else None
  | RNegAhead a =>
      match rmatch a Some st with
      | Some _ => None
      | None => k st
      end
  | RGroup i a => rmatch a (fun st' => k (set_cap i (consumed st st') st')) st
  end.

(** Capture [i] of a finished match ([undefined] is rendered as the empty
    string; every group of the scanner's patterns takes part in each match). *)
Fixpoint cap (i : nat) (cs : list (nat * jstring)) : jstring :=
  match cs with
  | [] => []
  | (j, s) :: cs' => if Nat.eqb i j then s else cap i cs'
  end.

(** One attempt at the current position: the length of the match and its
    captures. *)
Definition rexec (r : regex) (pv : option char) (s : jstring)
  : option (nat * list (nat * jstring)) :=
  match rmatch r Some (MState pv s []) with
  | Some st' => Some (List.length s - List.length (rest st'), caps st')
  | None => None
  end.

(** A replacement callback receives the matched text and the captures. *)
Definition replacer := jstring -> list (nat * jstring) -> jstring.

(** [s.replace(/r/g, f)]: every match, left to right, none overlapping.
    [skip] counts the code units of the last match still to be passed. *)
Fixpoint replace_from (r : regex) (f : replacer)
    (pv : option char) (s : jstring) (skip : nat) : jstring :=
  match s with
  | [] =>
      match skip with
      | O => match rexec r pv [] with
             | Some (_, cs) => f [] cs
             | None => []
             end
      | S _ => []
      end
  | c :: s' =>
      match skip with
      | S n => replace_from r f (Some c) s' n
      | O =>
          match rexec r pv s with
          | Some (O, cs) => f [] cs ++ c :: replace_from r f (Some c) s' 0
          | Some (S n, cs) => f (firstn (S n) s) cs ++ replace_from r f (Some c) s' n
          | None => c :: replace_from r f (Some c) s' 0
          end
      end
  end.

Definition replaceAll (r : regex) (f : replacer) (s : jstring) : jstring :=
  replace_from r f None s 0.

(** [s.replace(/r/, f)] without the [g] flag: the leftmost match only. *)
Fixpoint replace_first_from (r : regex) (f : replacer)
    (pv : option char) (s : jstring) : jstring :=
  match rexec r pv s with
  | Some (n, cs) => f (firstn n s) cs ++ skipn n s
  | None =>
      match s with
      | [] => []
      | c :: s' => c :: replace_first_from r f (Some c) s'
      end
  end.

Definition replaceFirst (r : regex) (f : replacer) (s : jstring) : jstring :=
  replace_first_from r f None s.

(** [s.match(/r/)] without the [g] flag: the captures of the leftmost
    match, or [None] for [null]. *)
Fixpoint search_from (r : regex) (pv : option char) (s : jstring)
  : option (list (nat * jstring)) :=
  match rexec r pv s with
  | Some (_, cs) => Some cs
  | None =>
      match s with
      | [] => None
      | c :: s' => search_from r (Some c) s'
      end
  end.

Definition rsearch (r : regex) (s : jstring) : option (list (nat * jstring)) :=
  search_from r None s.

(** [s.match(/r/g)]: the texts of all matches, left to right. *)
Fixpoint match_all_from (r : regex) (pv : option char) (s : jstring) (skip : nat)
  : list jstring :=
  match s with
  | [] =>
      match skip with
      | O => match rexec r pv [] with
             | Some _ => [[]]
             | None => []
             end
      | S _ => []
      end
  | c :: s' =>
      match skip with
      | S n => match_all_from r (Some c) s' n
      | O =>
          match rexec r pv s with
          | Some (O, _) => [] :: match_all_from r (Some c) s' 0
          | Some (S n, _) => firstn (S n) s :: match_all_from r (Some c) s' n
          | None => match_all_from r (Some c) s' 0
          end
      end
  end.

Definition matchAll (r : regex) (s : jstring) : list jstring :=
  match_all_from r None s 0.

(** [/r/.test(s)] *)
Definition rtest (r : regex) (s : jstring) : bool :=
  match rsearch r s with Some _ => true | None => false end.

(** Pattern-building shorthands. *)
Definition only (a : ascii) : char -> bool := ch_eqb (ch a).
Definition except (a : ascii) : char -> bool := fun c => negb (ch_eqb (ch a) c).
Definition anychar : char -> bool := fun _ => true.

Fixpoint RLit (s : jstring) : regex :=
  match s with
  | [] => REps
  | c :: s' => RSeq (RChar (ch_eqb c)) (RLit s')
  end.

Definition ROpt (r : regex) : regex := RAlt r REps.
Definition RPlus (p : char -> bool) : regex := RSeq (RChar p) (RStar true p).

End Regex.
Import Regex.

Notation "a >> b" := (RSeq a b) (at level 61, right associativity).

(** * The sanitizer ([EnhancedProjectScanner.sanitizeMDXContent]) *)

Module Sanitizer.

(** [/<!DOCTYPE[^>]*>/g] *)
Definition re_doctype : regex :=
  RLit (js "<!DOCTYPE") >> RStar true (except ">"%char) >> RChar (only ">"%char).

(** [/<br\s*\/?>/g] *)
Definition re_br : regex :=
  RLit (js "<br") >> RStar true isSpace >> ROpt (RChar (only "/"%char)) >> RChar (only ">"%char).

(** The pattern [< ( [a-zA-Z] [a-zA-Z0-9]* ) \s* (?! [^>]* \/> ) [^>]* >] with
    flag [g] (written here with its parts spaced out). *)
Definition re_tag : regex :=
  RChar (only "<"%char) >> RGroup 1 (RChar isAlpha >> RStar true isAlnum) >>
  RStar true isSpace >>
  RNegAhead (RStar true (except ">"%char) >> RLit (js "/>")) >>
  RStar true (except ">"%char) >> RChar (only ">"%char).

(** The pattern [\{ ( [^}]* [0-9]+ [^}]* ) \}] with flag [g]. *)
Definition re_numbered : regex :=
  RChar (only "{"%char) >>
  RGroup 1 (RStar true (except "}"%char) >> RPlus isDigit >> RStar true (except "}"%char)) >>
  RChar (only "}"%char).

(** [/\{[^}]*$/gm] *)
Definition re_unclosed : regex :=
  RChar (only "{"%char) >> RStar true (except "}"%char) >> REol true.

(** The pattern [^--- \s* \n ( [\s\S]*? ) \n---] with flag [m]. *)
Definition re_frontmatter : regex :=
  RBol true >> RLit (js "---") >> RStar true isSpace >> RChar (ch_eqb nl) >>
  RGroup 1 (RStar false anychar) >> RLit (nl :: js "---").

(** Remove problematic HTML/XML patterns. *)
Definition stripDoctype (s : jstring) : jstring :=
  replaceAll re_doctype (fun _ _ => []) s.

Definition normalizeBr (s : jstring) : jstring :=
  replaceAll re_br (fun _ _ => js "<br/>") s.

(** Ensure tags are properly closed. *)
Definition closeTags (s : jstring) : jstring :=
  replaceAll re_tag
    (fun m cs => if includes m (js "/") then m
                 else m ++ js "</" ++ cap 1 cs ++ js ">") s.

(** Replace numbered variables with safe alternatives. *)
Definition commentNumbered (s : jstring) : jstring :=
  replaceAll re_numbered (fun _ cs => js "{/* " ++ cap 1 cs ++ js " */}") s.

(** Remove unclosed expressions. *)
Definition dropUnclosed (s : jstring) : jstring :=
  replaceAll re_unclosed (fun _ _ => []) s.

(** Basic YAML validation: remove problematic lines. *)
Definition cleanYaml (yaml : jstring) : jstring :=
  join [nl]
    (filter (fun line => negb (includes line (js "{{")) && negb (includes line (js "}}")))
       (split nl yaml)).

(** Clean frontmatter issues. *)
Definition cleanFrontmatter (s : jstring) : jstring :=
  replaceFirst re_frontmatter
    (fun _ cs => js "---" ++ [nl] ++ cleanYaml (cap 1 cs) ++ [nl] ++ js "---") s.

(** Sanitize content to prevent MDX parsing errors. *)
Definition sanitizeMDXContent (content : jstring) : jstring :=
  match content with
  | [] => []
  | _ =>
      trim (cleanFrontmatter (dropUnclosed (commentNumbered
        (closeTags (normalizeBr (stripDoctype content))))))
  end.

End Sanitizer.

(** * Inline-expression delimiters *)

Module Braces.

Definition lbrace : char := ch "{".
Definition rbrace : char := ch "}".

(** A closing brace occurs in [s] before any line terminator. *)
Fixpoint closes (s : jstring) : bool :=
  match s with
  | [] => false
  | c :: s' =>
      if ch_eqb rbrace c then true
      else if isLineTerminator c then false
      else closes s'
  end.

(** Every opening brace of [s] is followed, on its own line, by a closing
    brace. *)
Fixpoint opens_closed (s : jstring) : bool :=
  match s with
  | [] => true
  | c :: s' => (if ch_eqb lbrace c then closes s' else true) && opens_closed s'
  end.

(** Balance in the usual sense: every closing brace closes the nearest open
    one and none stays open. *)
Fixpoint balanced_from (depth : nat) (s : jstring) : bool :=
  match s with
  | [] => Nat.eqb depth 0
  | c :: s' =>
      if ch_eqb lbrace c then balanced_from (S depth) s'
      else if ch_eqb rbrace c then
        match depth with
        | O => false
        | S d => balanced_from d s'
        end
      else balanced_from depth s'
  end.

Definition balanced (s : jstring) : bool := balanced_from 0 s.

(** The farthest end of line that [[^}]*] can reach from the start of [s],
    as a number of code units; [None] when a closing brace comes first. *)
Fixpoint last_eol (s : jstring) : option nat :=
  match s with
  | [] => Some 0
  | c :: s' =>
      if except "}"%char c then
        match last_eol s' with
        | Some n => Some (S n)
        | None => if isLineTerminator c then Some 0 else None
        end
      else if isLineTerminator c then Some 0 else None
  end.

(** What one attempt of the unclosed-expression pattern yields. *)
Definition unclosed_match (s : jstring) : option (nat * list (nat * jstring)) :=
  match s with
  | c :: s' =>
      if only "{"%char c then
        match last_eol s' with
        | Some n => Some (S n, [])
        | None => None
        end
      else None
  | [] => None
  end.

(** [pre] is what has been read so far and [pv] its last code unit. *)
Definition after (pre : jstring) (pv : option char) : Prop :=
  match pv with
  | None => pre = []
  | Some c => exists p, pre = p ++ [c]
  end.

End Braces.

(** * The platform

    What the scripts take from Node.js and the operating system: Unicode
    case mapping, the [path] module, the clock, [JSON.stringify] and the
    file system.  The model is parametric in them. *)

Module Platform.

(** A failed operation carries the message of its exception. *)
Inductive result (A : Type) :=
| Ok (a : A)
| Err (message : jstring).
Arguments Ok {A} a.
Arguments Err {A} message.

(** JSON documents handed to [JSON.stringify]. *)
#[local] Unset Elimination Schemes.
Inductive json :=
| JStr (s : jstring)
| JNum (z : Z)
| JArr (l : list json)
| JObj (fields : list (jstring * json)).
#[local] Set Elimination Schemes.

(** What [fs.stat] reports and the scanner reads. *)
Record stats := Stats {
  st_isFile : bool;
  st_size : N;
  st_mtime : jstring
}.

Class platform := {
  toLowerCase : jstring -> jstring;
  toUpperCase : jstring -> jstring;
  path_basename : jstring -> jstring;
  (** [path.basename(p, ext)] *)
  path_basename_ext : jstring -> jstring -> jstring;
  path_extname : jstring -> jstring;
  path_join : jstring -> jstring -> jstring;
  path_relative : jstring -> jstring -> jstring;
  JSON_stringify : json -> jstring;
  (** the state of the file system and the operations on it *)
  FS : Type;
  fs_access : FS -> jstring -> bool;
  fs_stat : FS -> jstring -> result stats;
  fs_readFile : FS -> jstring -> result jstring;
  fs_mkdir : FS -> jstring -> result unit * FS;
  fs_writeFile : FS -> jstring -> jstring -> result unit * FS
}.

End Platform.
Import Platform.

(** * The classifier ([FileClassifier]) *)

Module FileClassifier.
Section Classifier.
Context {P : platform}.

Definition label := jstring.

Definition oneOf (x : jstring) (l : list jstring) : bool := existsb (str_eqb x) l.

(** [classify(filePath, content = '')] *)
Definition classify (filePath content : jstring) : label :=
  let filename := toLowerCase (path_basename filePath) in
  let ext := toLowerCase (path_extname filePath) in
  (* Check filename patterns *)
  if includes filename (js "readme") then js "readme"
  else if includes filename (js "claude") then js "ai-context"
  else if includes filename (js "changelog") || includes filename (js "changes")
    then js "changelog"
  else if includes filename (js "api") || includes filename (js "reference")
    then js "api-reference"
  else if includes filename (js "guide") || includes filename (js "tutorial")
    then js "guide"
  else if includes filename (js "quickstart") || includes filename (js "getting-started")
    then js "quickstart"
  else if includes filename (js "architecture") || includes filename (js "design")
    then js "architecture"
  else if includes filename (js "deployment") || includes filename (js "deploy")
    then js "deployment"
  else if includes filename (js "development") || includes filename (js "dev")
    then js "development"
  else if includes filename (js "security") || includes filename (js "auth")
    then js "security"
  else if includes filename (js "migration") || includes filename (js "upgrade")
    then js "migration"
  else
  (* Check content for classification hints *)
  let contentLower := toLowerCase content in
  if includes contentLower (js "# api") || includes contentLower (js "## endpoints")
    then js "api-reference"
  else if includes contentLower (js "# quick start") ||
          includes contentLower (js "## getting started")
    then js "quickstart"
  else if includes contentLower (js "# architecture") ||
          includes contentLower (js "## system design")
    then js "architecture"
  (* Default classification by extension *)
  else if oneOf ext [js ".md"; js ".mdx"] then js "documentation"
  else if oneOf ext [js ".js"; js ".ts"; js ".py"; js ".java"] then js "code"
  else if str_eqb filename (js "package.json") then js "config"
  else if oneOf ext [js ".json"; js ".yaml"; js ".yml"] && includes filename (js "api")
    then js "api-spec"
  else js "misc".

End Classifier.

(** The closed set of labels. *)
Definition labels : list label :=
  map js ["readme"; "ai-context"; "changelog"; "api-reference"; "guide";
          "quickstart"; "architecture"; "deployment"; "development"; "security";
          "migration"; "documentation"; "code"; "config"; "api-spec"; "misc"]%string.

(** The object literal [order] of [getNavigationOrder]. *)
Definition order : list (jstring * Z) :=
  [ (js "readme", 1); (js "quickstart", 2); (js "guide", 3);
    (js "api-reference", 4); (js "architecture", 5); (js "development", 6);
    (js "deployment", 7); (js "security", 8); (js "migration", 9);
    (js "changelog", 10); (js "ai-context", 11); (js "documentation", 12);
    (js "misc", 99) ]%Z.

Fixpoint lookup (A : Type) (k : jstring) (l : list (jstring * A)) : option A :=
  match l with
  | [] => None
  | (k', v) :: l' => if str_eqb k k' then Some v else lookup k l'
  end.

(** The properties every object literal inherits from [Object.prototype]:
    reading one of them from [order] yields a function or an object, which
    is truthy. *)
Definition inherited : list jstring :=
  map js ["constructor"; "hasOwnProperty"; "isPrototypeOf";
          "propertyIsEnumerable"; "toLocaleString"; "toString"; "valueOf";
          "__proto__"; "__defineGetter__"; "__defineSetter__";
          "__lookupGetter__"; "__lookupSetter__"]%string.

(** What [getNavigationOrder] returns: a number, or the inherited member. *)
Inductive nav_order :=
| Order (z : Z)
| Member (key : jstring).

(** [getNavigationOrder(type)]: [order[type] || 50] *)
Definition getNavigationOrder (type : label) : nav_order :=
  match lookup type order with
  | Some z => if (z =? 0)%Z then Order 50 else Order z
  | None => if oneOf type inherited then Member type else Order 50
  end.

(** [orderA - orderB < 0]; a difference with a non-number is [NaN], which
    the sort takes for "equal". *)
Definition sortsBefore (a b : nav_order) : bool :=
  match a, b with
  | Order x, Order y => (x <? y)%Z
  | _, _ => false
  end.

End FileClassifier.

(** * The scanners ([EnhancedProjectScanner])

    Scripts run in a world made of the file system, the console, the
    logger's counters, the navigation under construction and the clock.
    A computation changes the world and returns a value or throws. *)

Module Scanner.
Import FileClassifier Sanitizer.

Section World.
Context {P : platform}.

(** A call that changes the file system. *)
Inductive fsop :=
| OpMkdir (path : jstring)
| OpWriteFile (path content : jstring).

(** [Logger.stats] *)
Record LoggerStats := MkStats {
  projectsFound : Z;
  filesProcessed : Z;
  errorsEncountered : Z;
  assetscopied : Z
}.

(** One entry of [NavigationBuilder.navigation[project].files]. *)
Record nav_entry := NavEntry {
  ne_title : value;
  ne_path : value;
  ne_category : label
}.

Record World := MkWorld {
  w_fs : FS;
  (** the calls that changed the file system, oldest first *)
  w_writes : list fsop;
  (** the lines printed, oldest first *)
  w_console : list jstring;
  w_stats : LoggerStats;
  (** [navigationBuilder.navigation], in insertion order *)
  w_navigation : list (jstring * list nav_entry);
  (** the value of [new Date().toISOString()] at each reading of the clock *)
  w_clock : nat -> jstring;
  w_tick : nat
}.

(** The world of a scanner just constructed: nothing written or printed,
    the counters at zero, no navigation. *)
Definition initial (fs : FS) (clock : nat -> jstring) : World :=
  MkWorld fs [] [] (MkStats 0 0 0 0) [] clock 0.

Definition M (A : Type) : Type := World -> result A * World.

Definition ret {A : Type} (a : A) : M A := fun w => (Ok a, w).

Definition bind {A B : Type} (m : M A) (k : A -> M B) : M B :=
  fun w =>
    match m w with
    | (Ok a, w') => k a w'
    | (Err e, w') => (Err e, w')
    end.

Definition throw {A : Type} (message : jstring) : M A := fun w => (Err message, w).

(** [try { m } catch (error) { handler(error.message) }] *)
Definition try_catch {A : Type} (m : M A) (handler : jstring -> M A) : M A :=
  fun w =>
    match m w with
    | (Ok a, w') => (Ok a, w')
    | (Err e, w') => handler e w'
    end.

End World.

Notation "x <- m ;; k" := (bind m (fun x => k))
  (at level 100, m at next level, right associativity).
Notation "m ;;; k" := (bind m (fun _ => k))
  (at level 100, right associativity).

Section Shared.
Context {P : platform}.

(** [for (const x of xs) body(x)] *)
Fixpoint forEach {A : Type} (xs : list A) (body : A -> M unit) : M unit :=
  match xs with
  | [] => ret tt
  | x :: xs' => body x ;;; forEach xs' body
  end.

Definition when (b : bool) (m : M unit) : M unit := if b then m else ret tt.

(** ** The world's primitives *)

(** [new Date().toISOString()] *)
Definition now : M jstring :=
  fun w => (Ok (w_clock w (w_tick w)),
            MkWorld (w_fs w) (w_writes w) (w_console w) (w_stats w)
                    (w_navigation w) (w_clock w) (S (w_tick w))).

(** [isoString.split('T')[0]] *)
Fixpoint beforeT (s : jstring) : jstring :=
  match s with
  | [] => []
  | c :: s' => if ch_eqb c (ch "T") then [] else c :: beforeT s'
  end.

(** [new Date().toISOString().split('T')[0]] *)
Definition today : M jstring := t <- now ;; ret (beforeT t).

Definition console_log (line : jstring) : M unit :=
  fun w => (Ok tt,
            MkWorld (w_fs w) (w_writes w) (w_console w ++ [line]) (w_stats w)
                    (w_navigation w) (w_clock w) (w_tick w)).

Definition get_stats : M LoggerStats := fun w => (Ok (w_stats w), w).

Definition set_stats (s : LoggerStats) : M unit :=
  fun w => (Ok tt,
            MkWorld (w_fs w) (w_writes w) (w_console w) s
                    (w_navigation w) (w_clock w) (w_tick w)).

Definition get_navigation : M (list (jstring * list nav_entry)) :=
  fun w => (Ok (w_navigation w), w).

Definition set_navigation (n : list (jstring * list nav_entry)) : M unit :=
  fun w => (Ok tt,
            MkWorld (w_fs w) (w_writes w) (w_console w) (w_stats w)
                    n (w_clock w) (w_tick w)).

Definition lift {A : Type} (r : result A) : M A := fun w => (r, w).

(** [await fs.access(p)], [fs.stat], [fs.readFile(p, 'utf-8')] *)
Definition access (p : jstring) : M unit :=
  fun w => (if fs_access (w_fs w) p then Ok tt else Err (js "ENOENT"), w).
Definition stat (p : jstring) : M stats := fun w => (fs_stat (w_fs w) p, w).
Definition readFile (p : jstring) : M jstring := fun w => (fs_readFile (w_fs w) p, w).

(** [await fs.mkdir(p, { recursive: true })] *)
Definition mkdir (p : jstring) : M unit :=
  fun w =>
    let (r, fs') := fs_mkdir (w_fs w) p in
    (r, MkWorld fs' (w_writes w ++ [OpMkdir p]) (w_console w) (w_stats w)
                (w_navigation w) (w_clock w) (w_tick w)).

(** [await fs.writeFile(p, content, 'utf-8')] *)
Definition writeFile (p content : jstring) : M unit :=
  fun w =>
    let (r, fs') := fs_writeFile (w_fs w) p content in
    (r, MkWorld fs' (w_writes w ++ [OpWriteFile p content]) (w_console w) (w_stats w)
                (w_navigation w) (w_clock w) (w_tick w)).

(** ** [Logger] *)

Inductive level := Debug | Info | Error.

Definition level_name (l : level) : jstring :=
  match l with
  | Debug => js "debug"
  | Info => js "info"
  | Error => js "error"
  end.

Section Logger.
Variable verbose : bool.

(** [log(message, level)] *)
Definition log (message : jstring) (l : level) : M unit :=
  timestamp <- now ;;
  let prefix := js "[" ++ timestamp ++ js "] [" ++ toUpperCase (level_name l) ++ js "]" in
  when (match l with Error | Info => true | Debug => verbose end)
       (console_log (prefix ++ js " " ++ message)) ;;;
  match l with
  | Error =>
      s <- get_stats ;;
      set_stats (MkStats (projectsFound s) (filesProcessed s)
                         (errorsEncountered s + 1) (assetscopied s))
  | _ => ret tt
  end.

Definition debug (message : jstring) : M unit := log message Debug.
Definition info (message : jstring) : M unit := log message Info.
Definition error (message : jstring) : M unit := log message Error.

(** [printStats()] *)
Definition printStats : M unit :=
  console_log (nl :: js "=== PROCESSING STATISTICS ===") ;;;
  s <- get_stats ;;
  console_log (js "projectsFound: " ++ decimal (projectsFound s)) ;;;
  console_log (js "filesProcessed: " ++ decimal (filesProcessed s)) ;;;
  console_log (js "errorsEncountered: " ++ decimal (errorsEncountered s)) ;;;
  console_log (js "assetscopied: " ++ decimal (assetscopied s)).

End Logger.

(** ** Configuration and records *)

(** [this.options]: the command-line flags over [CONFIG]. *)
Record Options := MkOptions {
  opt_verbose : bool;
  opt_dryRun : bool;
  opt_outputDir : jstring
}.

(** One entry of [PROJECT_CONFIG] (the project descriptor). *)
Record ProjectConfig := MkConfig {
  cfg_id : jstring;
  cfg_displayName : jstring;
  cfg_sourcePath : jstring;
  cfg_outputPath : jstring;
  cfg_category : jstring;
  cfg_priority : Z;
  cfg_documentTypes : list jstring;
  cfg_scanStrategy : jstring;
  cfg_primaryFiles : list jstring;
  cfg_skipPatterns : list jstring
}.

(** The project object the selective [scan] builds from a descriptor. *)
Record Project := MkProject {
  p_name : jstring;
  p_path : jstring;
  p_displayName : jstring;
  p_category : jstring;
  p_priority : Z;
  p_documentTypes : list jstring;
  p_scanStrategy : jstring;
  p_outputPath : jstring;
  p_primaryFiles : list jstring;
  p_skipPatterns : list jstring
}.

(** The own properties of that object, as its literal lists them. *)
Definition project_properties (project : Project) : list (jstring * value) :=
  [ (js "name", VStr (p_name project));
    (js "path", VStr (p_path project));
    (js "displayName", VStr (p_displayName project));
    (js "category", VStr (p_category project));
    (js "priority", VNum (p_priority project));
    (js "documentTypes", VArr (p_documentTypes project));
    (js "scanStrategy", VStr (p_scanStrategy project));
    (js "outputPath", VStr (p_outputPath project));
    (js "primaryFiles", VArr (p_primaryFiles project));
    (js "skipPatterns", VArr (p_skipPatterns project)) ].

(** [project[key]]: a property the object does not have reads as
    [undefined]. *)
Definition property (project : Project) (key : jstring) : value :=
  match lookup key (project_properties project) with
  | Some v => v
  | None => VUndefined
  end.

(** A file found by [scanSelectiveProjectFiles]. *)
Record SourceFile := MkSourceFile {
  sf_path : jstring;
  sf_relativePath : jstring;
  sf_content : jstring;
  sf_classification : label;
  sf_size : N;
  sf_modified : jstring
}.

(** What [generateSelectiveDocument] returns for a generated document. *)
Record GeneratedDoc := MkDoc {
  gd_type : jstring;
  gd_classification : label;
  gd_path : jstring;
  gd_relativePath : jstring
}.

(** A processed file as [NavigationBuilder.addProject] reads it: its
    [title], [outputPath] and [classification] properties. *)
Record nav_file := NavFile {
  nf_title : value;
  nf_outputPath : value;
  nf_classification : label
}.

(** A generated document has neither a [title] nor an [outputPath]. *)
Definition nav_file_of_doc (d : GeneratedDoc) : nav_file :=
  NavFile VUndefined VUndefined (gd_classification d).

(** ** [NavigationBuilder] *)

(** [Array.prototype.sort] is stable: an element goes behind those that do
    not sort after it. *)
Fixpoint insert_sorted (x : nav_file) (l : list nav_file) : list nav_file :=
  match l with
  | [] => [x]
  | y :: l' =>
      if sortsBefore (getNavigationOrder (nf_classification x))
                     (getNavigationOrder (nf_classification y))
      then x :: y :: l'
      else y :: insert_sorted x l'
  end.

Definition sort_files (files : list nav_file) : list nav_file :=
  fold_left (fun acc x => insert_sorted x acc) files [].

(** [object[key] = v] on an object used as a map. *)
Fixpoint assign (A : Type) (key : jstring) (v : A) (o : list (jstring * A))
  : list (jstring * A) :=
  match o with
  | [] => [(key, v)]
  | (k, x) :: o' => if str_eqb key k then (k, v) :: o' else (k, x) :: assign key v o'
  end.

(** [addProject(projectName, files)] *)
Definition addProject (projectName : jstring) (files : list nav_file) : M unit :=
  let sortedFiles :=
    sort_files
      (filter (fun file => negb (str_eqb (nf_classification file) (js "code")) &&
                           negb (str_eqb (nf_classification file) (js "misc")))
              files) in
  navigation <- get_navigation ;;
  set_navigation
    (assign projectName
       (map (fun file => NavEntry (nf_title file) (nf_outputPath file)
                                  (nf_classification file)) sortedFiles)
       navigation).

(** [file.path.replace('.mdx', '').replace('./apps/docs/', '')] *)
Definition page_of (file : nav_entry) : result json :=
  match ne_path file with
  | VStr s => Ok (JStr (replaceStr (replaceStr s (js ".mdx") []) (js "./apps/docs/") []))
  | VUndefined => Err (js "Cannot read properties of undefined (reading 'replace')")
  | _ => Err (js "file.path.replace is not a function")
  end.

Fixpoint collect (A B : Type) (f : A -> result B) (l : list A) : result (list B) :=
  match l with
  | [] => Ok []
  | x :: l' =>
      match f x with
      | Err e => Err e
      | Ok y => match collect f l' with
                | Err e => Err e
                | Ok ys => Ok (y :: ys)
                end
      end
  end.

(** [generateMintlifyConfig()] *)
Definition generateMintlifyConfig (navigation : list (jstring * list nav_entry))
  : result json :=
  match collect (fun entry : jstring * list nav_entry =>
                   match collect page_of (snd entry) with
                   | Err e => Err e
                   | Ok pages => Ok (JObj [(js "group", JStr (fst entry));
                                           (js "pages", JArr pages)])
                   end) navigation with
  | Err e => Err e
  | Ok groups => Ok (JObj [(js "navigation", JArr groups)])
  end.

(** [save(outputPath)] *)
Definition save (outputPath : jstring) : M unit :=
  navigation <- get_navigation ;;
  config <- lift (generateMintlifyConfig navigation) ;;
  writeFile outputPath (JSON_stringify config).

(** [pathExists(path)] *)
Definition pathExists (path : jstring) : M bool :=
  try_catch (access path ;;; ret true) (fun _ => ret false).

(** A loop whose body updates a local variable and may throw before it
    does: the loop stops at the first exception, the variable keeps what
    the earlier rounds gave it. *)
Fixpoint loopTry (A S : Type) (xs : list A) (body : A -> S -> M S) (s : S)
  : M (S * option jstring) :=
  match xs with
  | [] => ret (s, None)
  | x :: xs' =>
      fun w =>
        match body x s w with
        | (Ok s', w') => loopTry xs' body s' w'
        | (Err e, w') => (Ok (s, Some e), w')
        end
  end.

(** A loop whose body updates a local variable. *)
Fixpoint foldM (A S : Type) (xs : list A) (body : A -> S -> M S) (s : S) : M S :=
  match xs with
  | [] => ret s
  | x :: xs' => s' <- body x s ;; foldM xs' body s'
  end.

(** [categories[c] = (categories[c] || 0) + 1] *)
Definition countCategory (c : jstring) (categories : list (jstring * Z))
  : list (jstring * Z) :=
  assign c (match lookup c categories with Some n => n + 1 | None => 1 end)%Z categories.

(** [getCategoryBreakdown(projects)] *)
Definition getCategoryBreakdown (A : Type) (category : A -> jstring) (projects : list A)
  : list (jstring * Z) :=
  fold_left (fun categories p => countCategory (category p) categories) projects [].

Definition stats_json (s : LoggerStats) : json :=
  JObj [ (js "projectsFound", JNum (projectsFound s));
         (js "filesProcessed", JNum (filesProcessed s));
         (js "errorsEncountered", JNum (errorsEncountered s));
         (js "assetscopied", JNum (assetscopied s)) ].

(** [generateSummary(projects)]; [row] is the object built for one
    project, whose construction may throw. *)
Definition generateSummary (options : Options) (A : Type) (category : A -> jstring)
    (row : A -> result json) (projects : list A) : M unit :=
  let summaryPath := path_join (opt_outputDir options) (js "../project-summary.json") in
  generatedAt <- now ;;
  rows <- lift (collect row projects) ;;
  statistics <- get_stats ;;
  let summary :=
    JObj [ (js "generatedAt", JStr generatedAt);
           (js "totalProjects", JNum (Z.of_nat (List.length projects)));
           (js "categories",
            JObj (map (fun kv => (fst kv, JNum (snd kv)))
                      (getCategoryBreakdown category projects)));
           (js "projects", JArr rows);
           (js "statistics", stats_json statistics) ] in
  writeFile summaryPath (JSON_stringify summary).


(** [this.logger.stats.projectsFound = n] *)
Definition set_projectsFound (n : Z) : M unit :=
  s <- get_stats ;;
  set_stats (MkStats n (filesProcessed s) (errorsEncountered s) (assetscopied s)).

End Shared.
End Scanner.

(** * The selective project configuration ([selective-project-config.cjs]) *)

Module SelectiveConfig.
Import Scanner.

(** [PROJECT_CONFIG]: the five target projects. *)
Definition PROJECT_CONFIG : list ProjectConfig :=
  [ MkConfig
      (js "lostmind-ai-saas-platform-development")
      (js "LostMind AI - SaaS Platform Development")
      (js "/Users/sumitm1/Documents/New Ongoing Projects/LostMindAI-TurboRepo")
      (js "./apps/docs/projects/lostmind-ai-saas-platform-development")
      (js "core-platforms") 1
      [js "introduction"; js "readme"; js "architecture"; js "development"]
      (js "comprehensive")
      [js "README.md"; js "CLAUDE.md"; js "docs/**/*.md"; js "packages/**/README.md"]
      [js "node_modules"; js ".next"; js "dist"; js "build"; js ".turbo"];
    MkConfig
      (js "lostmind-ai-proptech-variance-commentary-tool")
      (js "LostMind AI - PropTech Variance Commentary Tool")
      (js "/Users/sumitm1/Documents/New Ongoing Projects/Back End Architecture for Turborepo from OLD Project Directory/Variance Commentary - PropertyFinAI")
      (js "./apps/docs/projects/lostmind-ai-proptech-variance-commentary-tool")
      (js "proptech-solutions") 2
      [js "introduction"; js "readme"; js "architecture"]
      (js "selective")
      [js "*.md"; js "Testing Random Quick Demos/**/*.md"]
      [js ".DS_Store"];
    MkConfig
      (js "lostmind-ai-project-analyser-with-rag-gemini")
      (js "LostMind AI - Project Analyser with RAG (Gemini)")
      (js "/Users/sumitm1/Documents/myproject/Ongoing Projects/Completed Projects/Advance File Combiner with Analyser/Gemini_Magic")
      (js "./apps/docs/projects/lostmind-ai-project-analyser-with-rag-gemini")
      (js "ai-development-tools") 3
      [js "introduction"; js "readme"; js "architecture"]
      (js "comprehensive")
      [js "README.md"; js "docs/**/*.md"; js ".claude/**/*.md"; js "CHANGELOG.md"]
      [js "node_modules"; js ".git"; js "__pycache__"; js "venv"];
    MkConfig
      (js "lostmind-ai-contextkeeper")
      (js "LostMind AI - ContextKeeper")
      (js "/Users/sumitm1/Documents/myproject/Ongoing Projects/Completed Projects/Advance Project Analyser/contextkeeper")
      (js "./apps/docs/projects/lostmind-ai-contextkeeper")
      (js "ai-development-tools") 4
      [js "introduction"; js "readme"; js "architecture"]
      (js "comprehensive")
      [js "README.md"; js "CLAUDE.md"; js "CHANGELOG.md"; js "docs/**/*.md"]
      [js ".git"; js ".DS_Store"; js "venv"; js "__pycache__"];
    MkConfig
      (js "proptech-x-all-in-one-pam-tools")
      (js "PropTech X - Your All-in-on PAM Tools")
      (js "/Users/sumitm1/Documents/New Ongoing Projects/XLSM Core App/PropTech Finance Tools")
      (js "./apps/docs/projects/proptech-x-all-in-one-pam-tools")
      (js "proptech-solutions") 5
      [js "introduction"; js "readme"; js "architecture"]
      (js "selective")
      [js "README.md"; js "ai_integration/**/*.md"; js ".claude/**/*.md"]
      [js "node_modules"; js ".git"; js "*.xlsx"; js "*.xlsm"; js "backup.*"] ].

(** [CONFIG.outputDir] *)
Definition outputDir : jstring := js "./apps/docs/projects".

End SelectiveConfig.

(** * The selective scanner *)

Module Selective.
Import FileClassifier Sanitizer Scanner.

Section Selective.
Context {P : platform}.
Variable options : Options.

Let dbg := debug (opt_verbose options).
Let inf := info (opt_verbose options).
Let err := error (opt_verbose options).

(** [glob(pattern)]: "for now, just check if the exact file exists" *)
Definition glob (pattern : jstring) : M (list jstring) :=
  try_catch
    (e <- pathExists pattern ;;
     if e then ret [pattern] else ret [])
    (fun _ => ret []).

(** [files.find(predicate)] *)
Definition find_file (pred : SourceFile -> bool) (files : list SourceFile)
  : option SourceFile := find pred files.

(** The body of the loop over [matchedFiles]. *)
Definition scanMatchedFile (project : Project) (filePath : jstring)
    (files : list SourceFile) : M (list SourceFile) :=
  (* Skip if matches skip patterns *)
  if existsb (fun skipPattern => includes filePath skipPattern) (p_skipPatterns project)
  then ret files
  else
    st <- stat filePath ;;
    if st_isFile st then
      content <- readFile filePath ;;
      let classification := classify filePath content in
      ret (files ++ [MkSourceFile filePath (path_relative (p_path project) filePath)
                                  content classification (st_size st) (st_mtime st)])
    else ret files.

(** The body of the loop over [project.primaryFiles]. *)
Definition scanPattern (project : Project) (pattern : jstring)
    (files : list SourceFile) : M (list SourceFile) :=
  let globPattern := path_join (p_path project) pattern in
  matchedFiles <- glob globPattern ;;
  r <- loopTry matchedFiles (scanMatchedFile project) files ;;
  match snd r with
  | Some message =>
      dbg (js "Pattern " ++ pattern ++ js " failed: " ++ message) ;;;
      ret (fst r)
  | None => ret (fst r)
  end.

(** [scanSelectiveProjectFiles(project)] *)
Definition scanSelectiveProjectFiles (project : Project) : M (list SourceFile) :=
  dbg (js "Scanning files for project: " ++ p_displayName project) ;;;
  files <- foldM (p_primaryFiles project) (scanPattern project) [] ;;
  dbg (js "Found " ++ decimal (Z.of_nat (List.length files)) ++ js " files for " ++
       p_displayName project) ;;;
  ret files.

(** The text [generateCleanFrontmatter] builds once the date is read. *)
Definition frontmatterText (project : Project) (documentType : jstring)
    (source : option SourceFile) (lastUpdated : jstring) : jstring :=
  let frontmatter :=
    [ (js "title",
       VStr (p_displayName project ++ js " - " ++
             toUpperCase (charAt0 documentType) ++ slice1 documentType));
      (js "description",
       VStr (documentType ++ js " documentation for " ++ p_displayName project));
      (js "category", VStr (p_category project));
      (js "lastUpdated", VStr lastUpdated);
      (js "project", property project (js "id")) ] ++
    match source with
    | Some s => [(js "sourceFile", VStr (sf_relativePath s))]
    | None => []
    end in
  js "---" ++ [nl] ++
  join [nl] (map (fun kv => fst kv ++ js ": " ++ dquote ++ toStr (snd kv) ++ dquote)
                 frontmatter) ++
  [nl] ++ js "---".

(** [generateCleanFrontmatter(project, documentType, source)] *)
Definition generateCleanFrontmatter (project : Project) (documentType : jstring)
    (source : option SourceFile) : M jstring :=
  lastUpdated <- today ;;
  ret (frontmatterText project documentType source lastUpdated).

(** The text [generateIntroductionContent] builds once the date is read. *)
Definition introductionText (project : Project) (files : list SourceFile)
    (date : jstring) : jstring :=
  let readmeFile :=
    find_file (fun f => includes (toLowerCase (sf_relativePath f)) (js "readme")) files in
  let description :=
    match readmeFile with
    | Some f => join [nl] (firstn 3 (split nl (sf_content f)))
    | None => p_displayName project ++ js " is a professional project in the " ++
              p_category project ++ js " category."
    end in
  js "# " ++
  p_displayName project ++
  js "

" ++
  sanitizeMDXContent description ++
  js "

## Overview

This project is part of the LostMind AI ecosystem and represents our work in " ++
  replaceStr (p_category project) (js "-") (js " ") ++
  js ".

## Navigation

- [README](./readme) - Complete project documentation
- [Architecture](./architecture) - Technical architecture details
" ++
  (if oneOf (js "development") (p_documentTypes project)
   then js "- [Development](./development) - Development setup and guidelines"
   else []) ++
  js "

## Project Details

- **Category**: " ++
  p_category project ++
  js "
- **Priority**: " ++
  decimal (p_priority project) ++
  js "
- **Scan Strategy**: " ++
  p_scanStrategy project ++
  js "
- **Last Updated**: " ++
  date ++
  js "

---

*This documentation was automatically generated from project sources.*".

(** [generateIntroductionContent(project, files)] *)
Definition generateIntroductionContent (project : Project) (files : list SourceFile)
  : M jstring :=
  date <- today ;;
  ret (introductionText project files date).

(** Default content when source files are not found. *)
Definition generateDefaultReadme (project : Project) : jstring :=
  js "# " ++
  p_displayName project ++
  js "

Welcome to " ++
  p_displayName project ++
  js ", a key component of the LostMind AI ecosystem.

## About

This project focuses on " ++
  replaceStr (p_category project) (js "-") (js " ") ++
  js " and is maintained as part of our professional development infrastructure.

## Status

- **Project Category**: " ++
  p_category project ++
  js "
- **Priority Level**: " ++
  decimal (p_priority project) ++
  js "
- **Documentation Strategy**: " ++
  p_scanStrategy project ++
  js "

## Getting Started

Please refer to the source project for detailed setup and usage instructions.

## Support

For questions and support, please contact the LostMind AI team.

---

*Note: This is auto-generated documentation. Source README file was not found at the expected location.*".

Definition generateDefaultArchitecture (project : Project) : jstring :=
  js "# Architecture Overview

## " ++
  p_displayName project ++
  js " Architecture

This document outlines the architectural design and technical decisions for " ++
  p_displayName project ++
  js ".

## System Overview

" ++
  p_displayName project ++
  js " is designed as a " ++
  replaceStr (p_category project) (js "-") (js " ") ++
  js " solution with focus on scalability and maintainability.

## Key Components

- **Core Infrastructure**: Primary application logic
- **Data Layer**: Information processing and storage
- **Integration Layer**: External service connections
- **Presentation Layer**: User interface and API endpoints

## Technical Stack

Details about the technical implementation are available in the source project documentation.

## Design Decisions

Architecture decisions are driven by:
- Performance requirements
- Scalability needs
- Maintainability goals
- Integration capabilities

---

*Note: This is auto-generated architecture documentation. Source architecture files were not found.*".

Definition generateDefaultDevelopment (project : Project) : jstring :=
  js "# Development Guide

## " ++
  p_displayName project ++
  js " Development

This guide covers development setup and workflow for " ++
  p_displayName project ++
  js ".

## Prerequisites

Please refer to the source project for specific prerequisites and requirements.

## Setup

1. Clone the repository
2. Install dependencies
3. Configure environment
4. Run development server

## Development Workflow

Standard development practices apply:
- Feature branch workflow
- Code review process
- Testing requirements
- Documentation updates

## Contributing

Contributions are welcome. Please follow the established coding standards and testing procedures.

---

*Note: This is auto-generated development documentation. Source development files were not found.*".

(** The pattern [< ( [a-zA-Z] [a-zA-Z0-9]* ) [^>]* >] with flag [g]. *)
Definition re_openTag : regex :=
  RChar (only "<"%char) >> RGroup 1 (RChar isAlpha >> RStar true isAlnum) >>
  RStar true (except ">"%char) >> RChar (only ">"%char).

(** The pattern [<\/ ( [a-zA-Z] [a-zA-Z0-9]* ) \s* >] with flag [g]. *)
Definition re_closeTag : regex :=
  RLit (js "</") >> RGroup 1 (RChar isAlpha >> RStar true isAlnum) >>
  RStar true isSpace >> RChar (only ">"%char).

(** The pattern [^--- \s* \n ( [\s\S]*? ) \n---] without flags. *)
Definition re_leadingFrontmatter : regex :=
  RBol false >> RLit (js "---") >> RStar true isSpace >> RChar (ch_eqb nl) >>
  RGroup 1 (RStar false anychar) >> RLit (nl :: js "---").

(** The issues [validateMDXSyntax] collects. *)
Definition mdxIssues (content : jstring) : list jstring :=
  (* Check for unclosed JSX expressions *)
  (if includes content (js "{") && negb (includes content (js "}"))
   then [js "Unclosed JSX expression"] else []) ++
  (* Check for DOCTYPE declarations *)
  (if includes content (js "<!DOCTYPE")
   then [js "DOCTYPE declaration found"] else []) ++
  (* Check frontmatter *)
  match rsearch re_leadingFrontmatter content with
  | Some cs =>
      let yamlContent := cap 1 cs in
      if includes yamlContent (js "{{") || includes yamlContent (js "}}")
      then [js "Template syntax in frontmatter"] else []
  | None => []
  end.

(** [validateMDXSyntax(content)]: basic MDX syntax validation. *)
Definition validateMDXSyntax (content : jstring) : M bool :=
  try_catch
    (let issues := mdxIssues content in
     (* Check for unclosed HTML tags *)
     let openTags := matchAll re_openTag content in
     let closeTags := matchAll re_closeTag content in
     when (negb (Nat.eqb (List.length openTags) (List.length closeTags)))
          (dbg (js "Potential unclosed HTML tags detected")) ;;;
     match issues with
     | _ :: _ =>
         dbg (js "MDX validation issues: " ++ join (js ", ") issues) ;;;
         ret false
     | [] => ret true
     end)
    (fun message => err (js "MDX validation error: " ++ message) ;;; ret false).

(** The [switch] of [generateSelectiveDocument]: the content and the
    primary source for a document type. *)
Definition selectContent (project : Project) (files : list SourceFile)
    (documentType : jstring) : M (jstring * option SourceFile) :=
  if str_eqb documentType (js "introduction") then
    content <- generateIntroductionContent project files ;;
    ret (content, None)
  else if str_eqb documentType (js "readme") then
    let primarySource :=
      find_file (fun f => includes (toLowerCase (sf_relativePath f)) (js "readme")) files in
    ret (match primarySource with
         | Some f => sanitizeMDXContent (sf_content f)
         | None => generateDefaultReadme project
         end, primarySource)
  else if str_eqb documentType (js "architecture") then
    let primarySource :=
      find_file (fun f => str_eqb (sf_classification f) (js "architecture") ||
                          includes (toLowerCase (sf_relativePath f)) (js "architecture"))
                files in
    ret (match primarySource with
         | Some f => sanitizeMDXContent (sf_content f)
         | None => generateDefaultArchitecture project
         end, primarySource)
  else if str_eqb documentType (js "development") then
    let primarySource :=
      find_file (fun f => str_eqb (sf_classification f) (js "development") ||
                          includes (toLowerCase (sf_relativePath f)) (js "development"))
                files in
    ret (match primarySource with
         | Some f => sanitizeMDXContent (sf_content f)
         | None => generateDefaultDevelopment project
         end, primarySource)
  else
    (* [this.logger.warn(...)]: the logger has no method [warn] *)
    throw (js "this.logger.warn is not a function").

(** [generateSelectiveDocument(project, files, documentType, outputDir)];
    [None] is [null]. *)
Definition generateSelectiveDocument (project : Project) (files : list SourceFile)
    (documentType outputDir : jstring) : M (option GeneratedDoc) :=
  dbg (js "Generating " ++ documentType ++ js " for " ++ p_displayName project) ;;;
  let fileName := documentType ++ js ".mdx" in
  let filePath := path_join outputDir fileName in
  (* Find relevant files for this document type *)
  selected <- selectContent project files documentType ;;
  let content := fst selected in
  let primarySource := snd selected in
  (* Generate frontmatter *)
  frontmatter <- generateCleanFrontmatter project documentType primarySource ;;
  (* Combine frontmatter and content *)
  let finalContent := frontmatter ++ [nl; nl] ++ content in
  (* Validate MDX before writing *)
  valid <- validateMDXSyntax finalContent ;;
  if valid then
    (* Only write files if not in dry run mode *)
    when (negb (opt_dryRun options)) (writeFile filePath finalContent) ;;;
    dbg (js "Generated " ++ fileName ++ js " for " ++ p_displayName project) ;;;
    ret (Some (MkDoc documentType documentType
                     (path_relative (js "./apps/docs") filePath)
                     (path_relative (opt_outputDir options) filePath)))
  else
    err (js "MDX validation failed for " ++ fileName ++ js " in " ++
         p_displayName project) ;;;
    ret None.

(** The body of the loop over [project.documentTypes]. *)
Definition generateOne (project : Project) (files : list SourceFile)
    (outputDir documentType : jstring) (processedFiles : list GeneratedDoc)
  : M (list GeneratedDoc) :=
  try_catch
    (processed <- generateSelectiveDocument project files documentType outputDir ;;
     match processed with
     | Some d => ret (processedFiles ++ [d])
     | None => ret processedFiles
     end)
    (fun message =>
       err (js "Failed to generate " ++ documentType ++ js " for " ++
            p_displayName project ++ js ": " ++ message) ;;;
       ret processedFiles).

(** [processSelectiveProject(project)] *)
Definition processSelectiveProject (project : Project) : M (list GeneratedDoc) :=
  inf (js "Processing selective project: " ++ p_displayName project) ;;;
  (* Create output directory using project.outputPath *)
  let outputDir := p_outputPath project in
  when (negb (opt_dryRun options)) (mkdir outputDir) ;;;
  (* Scan project files based on strategy *)
  files <- scanSelectiveProjectFiles project ;;
  (* Process documentation files *)
  processedFiles <-
    foldM (p_documentTypes project) (generateOne project files outputDir) [] ;;
  (* Add to navigation *)
  addProject (p_name project) (map nav_file_of_doc processedFiles) ;;;
  ret processedFiles.

(** The summary row of a project of the selective scanner: the object has
    no [files], so [p.files.length] throws. *)
Definition selectiveRow (project : Project) : result json :=
  Err (js "Cannot read properties of undefined (reading 'length')").

(** The project object of lines 1218-1229. *)
Definition projectOf (projectConfig : ProjectConfig) : Project :=
  MkProject (cfg_id projectConfig) (cfg_sourcePath projectConfig)
            (cfg_displayName projectConfig) (cfg_category projectConfig)
            (cfg_priority projectConfig) (cfg_documentTypes projectConfig)
            (cfg_scanStrategy projectConfig) (cfg_outputPath projectConfig)
            (cfg_primaryFiles projectConfig) (cfg_skipPatterns projectConfig).

(** The body of the loop over [CONFIG.projects]. *)
Definition selectProject (projectConfig : ProjectConfig) (selectedProjects : list Project)
  : M (list Project) :=
  e <- pathExists (cfg_sourcePath projectConfig) ;;
  if e then
    inf (js "Processing configured project: " ++ cfg_displayName projectConfig) ;;;
    ret (selectedProjects ++ [projectOf projectConfig])
  else
    err (js "Project path not found: " ++ cfg_sourcePath projectConfig) ;;;
    ret selectedProjects.

(** [scan()] of the selective scanner; [projects] is [CONFIG.projects]. *)
Definition scan (projects : list ProjectConfig) : M (list Project) :=
  inf (js "Starting selective project scan for 5 target projects...") ;;;
  (* Use selective project configuration instead of scanning directories *)
  selectedProjects <- foldM projects selectProject [] ;;
  inf (js "Processing " ++ decimal (Z.of_nat (List.length selectedProjects)) ++
       js " configured projects") ;;;
  set_projectsFound (Z.of_nat (List.length selectedProjects)) ;;;
  (* Process each configured project *)
  forEach selectedProjects (fun project => processSelectiveProject project ;;; ret tt) ;;;
  (* Generate navigation *)
  when (negb (opt_dryRun options))
       (save (path_join (opt_outputDir options) (js "../navigation.json"))) ;;;
  (* Generate summary *)
  when (negb (opt_dryRun options))
       (generateSummary options p_category selectiveRow selectedProjects) ;;;
  printStats ;;;
  ret selectedProjects.


End Selective.

Import SelectiveConfig.

(** [args.find(arg => arg.startsWith('--base-path='))?.split('=')[1]];
    [None] is [undefined]. *)
Definition basePathArg (args : list jstring) : option jstring :=
  match find (fun arg => startsWith arg (js "--base-path=")) args with
  | Some arg => nth_error (split (ch "=") arg) 1
  | None => None
  end.

(** The options [main] reads from [process.argv.slice(2)]. *)
Definition optionsOf (args : list jstring) : Options :=
  MkOptions (oneOf (js "--verbose") args || oneOf (js "-v") args)
            (oneOf (js "--dry-run") args)
            SelectiveConfig.outputDir.

(** [main()]: the exit status of the process, 1 when the scan throws.  The
    glyphs that open some lines are given by their code units. *)
Definition main {P : platform} (args : list jstring) : World -> Z * World :=
  fun w =>
    let options := optionsOf args in
    let banner :=
      console_log
        ([63743; 252; 246; 196]%N ++ js " Enhanced Documentation Scraper for LostMind AI") ;;;
      console_log (js "================================================" ++ [nl]) ;;;
      when (opt_dryRun options)
        (console_log
           ([63743; 252; 238; 231]%N ++ js " DRY RUN MODE - No files will be written" ++ [nl])) in
    match (banner ;;; scan options SelectiveConfig.PROJECT_CONFIG) w with
    | (Ok _, w1) =>
        (0%Z,
         snd ((console_log
                 ([nl] ++ [8218; 250; 214]%N ++ js " Documentation scan completed successfully!") ;;;
               console_log
                 ([63743; 252; 236; 197]%N ++ js " Output directory: " ++
                  SelectiveConfig.outputDir) ;;;
               console_log
                 ([63743; 252; 229; 234]%N ++ js " Ready for deployment to docs.lostmindai.com")) w1))
    | (Err message, w1) =>
        (1%Z,
         snd (console_log
                ([nl] ++ [8218; 249; 229]%N ++ js " Scan failed:" ++ js " " ++ message) w1))
    end.

End Selective.

(** * The directory-walking scanner

    The first version of [EnhancedProjectScanner]: it discovers projects
    under the base paths and converts every documentation file.  The
    directory walk ([scanBasePath]) and the conversion of one file
    ([processDocumentationFile]) are taken as given. *)

Module Legacy.
Import FileClassifier Scanner.

Section Legacy.
Context {P : platform}.
Variable options : Options.

Let inf := info (opt_verbose options).
Let err := error (opt_verbose options).

(** What [analyzeFile] returns. *)
Record File := MkFile {
  f_path : jstring;
  f_relativePath : jstring;
  f_filename : jstring;
  f_classification : label;
  f_size : N;
  f_lastModified : jstring;
  f_content : jstring;
  f_frontmatter : list (jstring * jstring);
  f_docstrings : list jstring;
  f_title : jstring
}.

(** What [analyzeProject] returns; [dependencies] is
    [metadata.dependencies]. *)
Record Project := MkProject {
  name : jstring;
  path : jstring;
  displayName : jstring;
  description : jstring;
  version : jstring;
  category : jstring;
  priority : Z;
  files : list File;
  dependencies : list (jstring * jstring)
}.

(** What [processDocumentationFile] returns: the file with its
    [outputPath] and [enhancedFrontmatter]. *)
Record Processed := MkProcessed {
  pf_file : File;
  pf_outputPath : jstring;
  pf_enhancedFrontmatter : list (jstring * value)
}.

Variable scanBasePath : jstring -> M (list Project).
Variable processDocumentationFile : File -> Project -> jstring -> M (option Processed).

Definition nav_file_of_processed (f : Processed) : nav_file :=
  NavFile (VStr (f_title (pf_file f))) (VStr (pf_outputPath f))
          (f_classification (pf_file f)).

(** The text of [index.mdx]; [lastUpdated] and [generated] are the two
    readings of the clock. *)
Definition projectIndex (project : Project) (processedFiles : list Processed)
    (lastUpdated generated : jstring) : jstring :=
  js "---
title: " ++
  dquote ++
  displayName project ++
  dquote ++
  js "
description: " ++
  dquote ++
  description project ++
  dquote ++
  js "
category: " ++
  dquote ++
  js "project-overview" ++
  dquote ++
  js "
project: " ++
  dquote ++
  name project ++
  dquote ++
  js "
version: " ++
  dquote ++
  version project ++
  dquote ++
  js "
lastUpdated: " ++
  dquote ++
  lastUpdated ++
  dquote ++
  js "
---

# " ++
  displayName project ++
  js "

" ++
  description project ++
  js "

## Overview

This project is part of the LostMind AI ecosystem and falls under the **" ++
  category project ++
  js "** category.

## Available Documentation

" ++
  join [nl] (map (fun file => js "- [" ++ f_title (pf_file file) ++ js "](./" ++
                           path_basename_ext (pf_outputPath file) (js ".mdx") ++ js ")")
                processedFiles) ++
  js "

## Project Information

- **Version**: " ++
  version project ++
  js "
- **Category**: " ++
  category project ++
  js "
- **Priority**: " ++
  decimal (priority project) ++
  js "
- **Files Processed**: " ++
  decimal (Z.of_nat (List.length processedFiles)) ++
  js "

## Dependencies

" ++
  (match dependencies project with
   | _ :: _ =>
       join [nl] (map (fun d => js "- " ++ fst d ++ js ": " ++ snd d) (dependencies project))
   | [] => js "No dependencies found."
   end) ++
  js "

---
*This index was automatically generated. Last updated: " ++
  generated ++
  js "*
".

(** [generateProjectIndex(project, processedFiles, outputDir)] *)
Definition generateProjectIndex (project : Project) (processedFiles : list Processed)
    (outputDir : jstring) : M unit :=
  let indexPath := path_join outputDir (js "index.mdx") in
  lastUpdated <- today ;;
  generated <- now ;;
  writeFile indexPath (projectIndex project processedFiles lastUpdated generated).

(** The body of the loop over the files of a project. *)
Definition processOne (project : Project) (outputDir : jstring) (file : File)
    (processedFiles : list Processed) : M (list Processed) :=
  try_catch
    (processed <- processDocumentationFile file project outputDir ;;
     match processed with
     | Some f => ret (processedFiles ++ [f])
     | None => ret processedFiles
     end)
    (fun message =>
       err (js "Failed to process file " ++ f_path file ++ js ": " ++ message) ;;;
       ret processedFiles).

(** [processProject(project)] *)
Definition processProject (project : Project) : M unit :=
  inf (js "Processing project: " ++ name project) ;;;
  let outputDir := path_join (opt_outputDir options) (name project) in
  mkdir outputDir ;;;
  (* Process documentation files *)
  processedFiles <-
    foldM (filter (fun f => negb (str_eqb (f_classification f) (js "code")))
                  (files project))
          (processOne project outputDir) [] ;;
  (* Generate project index *)
  generateProjectIndex project processedFiles outputDir ;;;
  (* Add to navigation *)
  addProject (name project) (map nav_file_of_processed processedFiles).

(** The object [generateSummary] builds for one project. *)
Definition summaryRow (p : Project) : result json :=
  Ok (JObj [ (js "name", JStr (name p));
             (js "displayName", JStr (displayName p));
             (js "description", JStr (description p));
             (js "category", JStr (category p));
             (js "priority", JNum (priority p));
             (js "fileCount", JNum (Z.of_nat (List.length (files p))));
             (js "version", JStr (version p)) ]).

(** The body of the loop over [this.options.basePaths]. *)
Definition scanOne (basePath : jstring) (allProjects : list Project) : M (list Project) :=
  match basePath with
  | [] => ret allProjects
  | _ =>
      e <- pathExists basePath ;;
      if e then
        inf (js "Scanning base path: " ++ basePath) ;;;
        projects <- scanBasePath basePath ;;
        ret (allProjects ++ projects)
      else ret allProjects
  end.

(** [scan()] of the directory-walking scanner; [basePaths] is
    [this.options.basePaths].  The [dryRun] option is not read. *)
Definition scan (basePaths : list jstring) : M (list Project) :=
  inf (js "Starting enhanced project scan...") ;;;
  allProjects <- foldM basePaths scanOne [] ;;
  inf (js "Found " ++ decimal (Z.of_nat (List.length allProjects)) ++ js " projects") ;;;
  set_projectsFound (Z.of_nat (List.length allProjects)) ;;;
  (* Process each project *)
  forEach allProjects processProject ;;;
  (* Generate navigation *)
  save (path_join (opt_outputDir options) (js "../navigation.json")) ;;;
  (* Generate summary *)
  generateSummary options category summaryRow allProjects ;;;
  printStats ;;;
  ret allProjects.


End Legacy.

(** [args.find(arg => arg.startsWith('--base-path='))?.split('=')[1]];
    [None] is [undefined]. *)
Definition basePathArg (args : list jstring) : option jstring :=
  match find (fun arg => startsWith arg (js "--base-path=")) args with
  | Some arg => nth_error (split (ch "=") arg) 1
  | None => None
  end.

(** [CONFIG.basePaths], overridden by a non-empty [--base-path];
    [projectsPath] is [process.env.PROJECTS_PATH]. *)
Definition basePathsOf (projectsPath : option jstring) (args : list jstring)
  : list jstring :=
  match basePathArg args with
  | Some (c :: p) => [c :: p]
  | _ =>
      js "/Users/sumitm1/Documents/New Ongoing Projects" ::
      match projectsPath with
      | Some (c :: p) => [c :: p]
      | _ => []
      end
  end.

(** The options [main] reads from [process.argv.slice(2)]. *)
Definition optionsOf (args : list jstring) : Options :=
  MkOptions (oneOf (js "--verbose") args || oneOf (js "-v") args)
            (oneOf (js "--dry-run") args)
            SelectiveConfig.outputDir.

(** [main()]: the exit status of the process, 1 when the scan throws.  The
    glyphs that open some lines are given by their code units. *)
Definition main {P : platform}
    (scanBasePath : jstring -> M (list Project))
    (processDocumentationFile : File -> Project -> jstring -> M (option Processed))
    (projectsPath : option jstring) (args : list jstring) : World -> Z * World :=
  fun w =>
    let options := optionsOf args in
    let banner :=
      console_log
        ([55357; 56960]%N ++ js " Enhanced Documentation Scraper for LostMind AI") ;;;
      console_log (js "================================================" ++ [nl]) ;;;
      when (opt_dryRun options)
        (console_log
           ([55357; 56589]%N ++ js " DRY RUN MODE - No files will be written" ++ [nl])) in
    match (banner ;;; scan options scanBasePath processDocumentationFile (basePathsOf projectsPath args)) w with
    | (Ok _, w1) =>
        (0%Z,
         snd ((console_log
                 ([nl] ++ [9989]%N ++ js " Documentation scan completed successfully!") ;;;
               console_log
                 ([55357; 56513]%N ++ js " Output directory: " ++
                  SelectiveConfig.outputDir) ;;;
               console_log
                 ([55356; 57104]%N ++ js " Ready for deployment to docs.lostmindai.com")) w1))
    | (Err message, w1) =>
        (1%Z,
         snd (console_log
                ([nl] ++ [10060]%N ++ js " Scan failed:" ++ js " " ++ message) w1))
    end.

End Legacy.

(** * A concrete platform

    A small POSIX-like instance of the platform, used to run the scripts on
    concrete inputs: ASCII case mapping, [path] functions on slash-separated
    paths relative to the working directory [/work], a compact
    [JSON.stringify] and a file system that is a list of files and
    directories. *)

Module Posix.
Import Scanner.

Definition lowerChar (c : char) : char := if isUpper c then (c + 32)%N else c.
Definition upperChar (c : char) : char := if isLower c then (c - 32)%N else c.

Definition slash : char := ch "/".
Definition dot : char := ch ".".

Definition segments (p : jstring) : list jstring := split slash p.

(** Resolve [.] and [..] and drop empty segments. *)
Fixpoint normalize_rev (segs : list jstring) (acc : list jstring) (absolute : bool)
  : list jstring :=
  match segs with
  | [] => acc
  | s :: segs' =>
      if str_eqb s [] || str_eqb s [dot] then normalize_rev segs' acc absolute
      else if str_eqb s [dot; dot] then
        match acc with
        | t :: acc' =>
            if str_eqb t [dot; dot] then normalize_rev segs' (s :: acc) absolute
            else normalize_rev segs' acc' absolute
        | [] => normalize_rev segs' (if absolute then [] else [s]) absolute
        end
      else normalize_rev segs' (s :: acc) absolute
  end.

Definition isAbsolute (p : jstring) : bool := startsWith p [slash].

Definition normalize (p : jstring) : jstring :=
  let body := join [slash] (rev (normalize_rev (segments p) [] (isAbsolute p))) in
  if isAbsolute p then slash :: body
  else match body with [] => [dot] | _ => body end.

Definition posix_join (a b : jstring) : jstring :=
  match a, b with
  | [], [] => [dot]
  | [], _ => normalize b
  | _, [] => normalize a
  | _, _ => normalize (a ++ [slash] ++ b)
  end.

Definition cwd : jstring := js "/work".

Definition resolve (p : jstring) : jstring :=
  if isAbsolute p then normalize p else normalize (cwd ++ [slash] ++ p).

Fixpoint drop_common (a b : list jstring) : list jstring * list jstring :=
  match a, b with
  | x :: a', y :: b' => if str_eqb x y then drop_common a' b' else (a, b)
  | _, _ => (a, b)
  end.

Definition posix_relative (from to : jstring) : jstring :=
  let parts p := filter (fun s => negb (str_eqb s [])) (segments (resolve p)) in
  let (up, down) := drop_common (parts from) (parts to) in
  join [slash] (map (fun _ => [dot; dot]) up ++ down).

Definition stripTrailingSlashes (p : jstring) : jstring :=
  rev ((fix strip (r : jstring) : jstring :=
          match r with
          | c :: r' => if ch_eqb c slash then strip r' else r
          | [] => []
          end) (rev p)).

Definition posix_basename (p : jstring) : jstring :=
  last (segments (stripTrailingSlashes p)) [].

Definition posix_basename_ext (p ext : jstring) : jstring :=
  let b := posix_basename p in
  if startsWith (rev b) (rev ext) && negb (str_eqb b ext)
  then firstn (List.length b - List.length ext) b
  else b.

(** The extension: from the last dot of the base name, unless that dot
    opens the name. *)
Fixpoint ext_rev (r acc : jstring) : jstring :=
  match r with
  | [] => []
  | c :: r' =>
      if ch_eqb c dot then match r' with [] => [] | _ => c :: acc end
      else ext_rev r' (c :: acc)
  end.

Definition posix_extname (p : jstring) : jstring :=
  let b := posix_basename p in
  if str_eqb b [dot; dot] then [] else ext_rev (rev b) [].

(** Compact serialization; strings are written between quotes as they
    are. *)
Fixpoint stringify (j : json) : jstring :=
  match j with
  | JStr s => dquote ++ s ++ dquote
  | JNum z => decimal z
  | JArr l =>
      js "[" ++
      (fix items (l : list json) : jstring :=
         match l with
         | [] => []
         | [x] => stringify x
         | x :: l' => stringify x ++ js "," ++ items l'
         end) l ++ js "]"
  | JObj fs =>
      js "{" ++
      (fix fields (l : list (jstring * json)) : jstring :=
         match l with
         | [] => []
         | [(k, x)] => dquote ++ k ++ dquote ++ js ":" ++ stringify x
         | (k, x) :: l' => dquote ++ k ++ dquote ++ js ":" ++ stringify x ++ js "," ++ fields l'
         end) fs ++ js "}"
  end.

(** A file system: paths (resolved) with what they hold. *)
Inductive node :=
| File (content : jstring)
| Dir.

Definition fsmap := list (jstring * node).

Definition fs_get (fs : fsmap) (p : jstring) : option node :=
  FileClassifier.lookup (resolve p) fs.

Definition fs_put (fs : fsmap) (p : jstring) (n : node) : fsmap :=
  assign (resolve p) n fs.

#[export] Instance posix : platform := {|
  toLowerCase := map lowerChar;
  toUpperCase := map upperChar;
  path_basename := posix_basename;
  path_basename_ext := posix_basename_ext;
  path_extname := posix_extname;
  path_join := posix_join;
  path_relative := posix_relative;
  JSON_stringify := stringify;
  FS := fsmap;
  fs_access := fun fs p => match fs_get fs p with Some _ => true | None => false end;
  fs_stat := fun fs p =>
    match fs_get fs p with
    | Some (File c) => Ok (Stats true (N.of_nat (List.length c)) (js "2025-01-01T00:00:00.000Z"))
    | Some Dir => Ok (Stats false 0 (js "2025-01-01T00:00:00.000Z"))
    | None => Err (js "ENOENT: no such file or directory")
    end;
  fs_readFile := fun fs p =>
    match fs_get fs p with
    | Some (File c) => Ok c
    | Some Dir => Err (js "EISDIR: illegal operation on a directory")
    | None => Err (js "ENOENT: no such file or directory")
    end;
  fs_mkdir := fun fs p => (Ok tt, fs_put fs p Dir);
  fs_writeFile := fun fs p c =>
    match fs_get fs p with
    | Some Dir => (Err (js "EISDIR: illegal operation on a directory"), fs)
    | _ => (Ok tt, fs_put fs p (File c))
    end
|}.

(** A world with the given files, an empty console and a clock that starts
    at [start] and shows the same instant at every reading. *)
Definition world (fs : fsmap) (start : jstring) : World :=
  initial (fs : @FS posix) (fun _ => start).

End Posix.

(** * The documentation validator ([DocumentationValidator]) *)

Module Validator.
Import Scanner.

Section Validator.
Context {P : platform}.

(** The constructor's options. *)
Record Options := MkOptions {
  verbose : bool;
  docsDir : jstring
}.

(** [this.errors] and [this.warnings] *)
Record State := MkState {
  errors : list jstring;
  warnings : list jstring
}.

(** What [validate] returns. *)
Record Report := MkReport {
  success : bool;
  report_errors : list jstring;
  report_warnings : list jstring
}.

Variable options : Options.

(** The [glob] package: [glob(pattern, { cwd })]. *)
Variable glob : FS -> jstring -> jstring -> result (list jstring).

(** The passes over syntax, links, images and navigation, each of which
    adds to the errors and warnings. *)
Variable validateMDXSyntax : State -> M State.
Variable validateLinks : State -> M State.
Variable validateImages : State -> M State.
Variable validateNavigation : State -> M State.

(** [findFiles(pattern)] *)
Definition findFiles (pattern : jstring) : M (list jstring) :=
  fun w =>
    (match glob (w_fs w) pattern (docsDir options) with
     | Ok files => Ok (map (fun file => path_join (docsDir options) file) files)
     | Err e => Err e
     end, w).

(** The pattern [^--- \s* \n ( [\s\S]*? ) \n---] without flags. *)
Definition frontmatterRegex : regex :=
  RBol false >> RLit (js "---") >> RStar true isSpace >> RChar (ch_eqb nl) >>
  RGroup 1 (RStar false anychar) >> RLit (nl :: js "---").

Definition requiredFields : list jstring := [js "title"; js "description"].
Definition recommendedFields : list jstring :=
  [js "category"; js "tags"; js "lastUpdated"].

(** [checkFrontmatter(content, filePath)]: the warnings it returns; it
    returns nothing else. *)
Definition checkFrontmatter (content filePath : jstring) : list jstring :=
  match rsearch frontmatterRegex content with
  | None => [filePath ++ js " - Missing frontmatter"]
  | Some cs =>
      let frontmatter := cap 1 cs in
      flat_map (fun field =>
                  if negb (includes frontmatter (field ++ js ":"))
                  then [filePath ++ js " - Missing required frontmatter field: " ++ field]
                  else []) requiredFields ++
      flat_map (fun field =>
                  if negb (includes frontmatter (field ++ js ":"))
                  then [filePath ++ js " - Missing recommended frontmatter field: " ++ field]
                  else []) recommendedFields
  end.

(** The body of the loop of [validateFrontmatter]. *)
Definition frontmatterStep (file : jstring) (st : State) : M State :=
  try_catch
    (content <- readFile file ;;
     let issues := checkFrontmatter content file in
     ret (MkState (errors st) (warnings st ++ issues)))
    (fun message =>
       ret (MkState (errors st ++ [js "Failed to validate frontmatter in " ++ file ++
                                   js ": " ++ message])
                    (warnings st))).

(** [validateFrontmatter()] *)
Definition validateFrontmatter (st : State) : M State :=
  console_log ([55357; 56523]%N ++ js " Checking frontmatter...") ;;;
  mdxFiles <- findFiles (js "**/*.mdx") ;;
  foldM mdxFiles frontmatterStep st.

Definition count (l : list jstring) : jstring := decimal (Z.of_nat (List.length l)).

(** [printReport()] *)
Definition printReport (st : State) : M unit :=
  console_log ([nl] ++ [55357; 56522]%N ++ js " VALIDATION REPORT") ;;;
  console_log (js "===================") ;;;
  match errors st, warnings st with
  | [], [] => console_log ([9989]%N ++ js " All validations passed!")
  | _, _ =>
      when (negb (Nat.eqb (List.length (errors st)) 0))
           (console_log ([nl] ++ [10060]%N ++ js " ERRORS (" ++ count (errors st) ++ js "):") ;;;
            forEach (errors st) (fun e => console_log (js "  " ++ [8226]%N ++ js " " ++ e))) ;;;
      when (negb (Nat.eqb (List.length (warnings st)) 0))
           (console_log ([nl] ++ [9888; 65039]%N ++ js "  WARNINGS (" ++ count (warnings st) ++ js "):") ;;;
            forEach (warnings st) (fun x => console_log (js "  " ++ [8226]%N ++ js " " ++ x))) ;;;
      console_log ([nl] ++ js "Summary: " ++ count (errors st) ++ js " errors, " ++
                   count (warnings st) ++ js " warnings") ;;;
      when (negb (Nat.eqb (List.length (errors st)) 0))
           (console_log ([nl] ++ [55357; 56481]%N ++ js " Fix all errors before deploying to production."))
  end.

(** [validate()], on a validator whose lists hold [st]. *)
Definition validate (st : State) : M Report :=
  console_log ([55357; 56589]%N ++ js " Validating documentation..." ++ [nl]) ;;;
  st1 <- validateMDXSyntax st ;;
  st2 <- validateLinks st1 ;;
  st3 <- validateImages st2 ;;
  st4 <- validateFrontmatter st3 ;;
  st5 <- validateNavigation st4 ;;
  printReport st5 ;;;
  ret (MkReport (Nat.eqb (List.length (errors st5)) 0) (errors st5) (warnings st5)).

(** The exit status of the process started by [main().catch(console.error)]:
    [process.exit(result.success ? 0 : 1)] when [validate] returns; when it
    throws, the exception is printed and the process ends with status 0. *)
Definition main : World -> Z * World :=
  fun w =>
    match validate (MkState [] []) w with
    | (Ok result, w') => ((if success result then 0 else 1)%Z, w')
    | (Err e, w') => (0%Z, snd (console_log e w'))
    end.

End Validator.
End Validator.

(** * Notions used to state the properties of a run *)

Module Frames.
Import Scanner.

Section Frames.
Context {P : platform}.

(** A computation that makes no call changing the file system and leaves
    the file system as it found it. *)
Definition quiet {A : Type} (m : M A) : Prop :=
  forall w, w_fs (snd (m w)) = w_fs w /\ w_writes (snd (m w)) = w_writes w.

(** A computation that returns without an exception. *)
Definition returns (m : M unit) : Prop := forall w, fst (m w) = Ok tt.

(** Two worlds that differ at most in what was printed and in the time of
    day their clocks show: at every reading the calendar date is the same. *)
Definition same_day (w1 w2 : World) : Prop :=
  w_fs w1 = w_fs w2 /\
  w_writes w1 = w_writes w2 /\
  w_stats w1 = w_stats w2 /\
  w_navigation w1 = w_navigation w2 /\
  w_tick w1 = w_tick w2 /\
  forall n, beforeT (w_clock w1 n) = beforeT (w_clock w2 n).

(** A computation whose result and effects depend on the clock through the
    calendar date only. *)
Definition date_only {A : Type} (m : M A) : Prop :=
  forall w1 w2,
    same_day w1 w2 ->
    fst (m w1) = fst (m w2) /\ same_day (snd (m w1)) (snd (m w2)).

End Frames.

Section Generation.
Context {P : platform}.
Import FileClassifier Selective.

(** The document types the generator knows. *)
Definition supportedTypes : list jstring :=
  [js "introduction"; js "readme"; js "architecture"; js "development"].

(** The source file that matches a document type: for [readme] the first
    file whose relative path names a readme; for [architecture] and
    [development] the first file classified as such or whose relative path
    names the type; none for [introduction]. *)
Definition matchingSource (documentType : jstring) (files : list SourceFile)
  : option SourceFile :=
  if str_eqb documentType (js "introduction") then None
  else if str_eqb documentType (js "readme") then
    find (fun f => includes (toLowerCase (sf_relativePath f)) (js "readme")) files
  else
    find (fun f => str_eqb (sf_classification f) documentType ||
                   includes (toLowerCase (sf_relativePath f)) documentType) files.

(** The templated document fabricated for a type without a source file;
    the introduction carries the date. *)
Definition syntheticDocument (project : Project) (documentType : jstring)
    (files : list SourceFile) (date : jstring) : jstring :=
  if str_eqb documentType (js "introduction") then introductionText project files date
  else if str_eqb documentType (js "readme") then generateDefaultReadme project
  else if str_eqb documentType (js "architecture") then generateDefaultArchitecture project
  else generateDefaultDevelopment project.

(** The body of the document of a type: the sanitized source file when
    one matches, the synthetic document otherwise. *)
Definition documentBody (project : Project) (documentType : jstring)
    (files : list SourceFile) (date : jstring) : jstring :=
  match matchingSource documentType files with
  | Some f => Sanitizer.sanitizeMDXContent (sf_content f)
  | None => syntheticDocument project documentType files date
  end.

(** The number of readings of the clock before the one that dates the
    frontmatter: the log line of the generator, and for the introduction
    the date in its body. *)
Definition readingsBefore (documentType : jstring) : nat :=
  if str_eqb documentType (js "introduction") then 2 else 1.

End Generation.
End Frames.

(** * Notions used to compare runs

    Two runs of the generator that start from different disks, such as a
    run and a later run on the disk the first one left; and the issues a
    run of the validator has collected when it reports. *)

Module Regeneration.
Import FileClassifier Scanner Selective.

Section Regeneration.
Context {P : platform}.
Variable project : Project.

(** What the scanner can read of the primary files of the project. *)
Definition sourceView (fs : FS) : list (bool * result stats * result jstring) :=
  map (fun pattern =>
         let filePath := path_join (p_path project) pattern in
         (fs_access fs filePath, fs_stat fs filePath, fs_readFile fs filePath))
      (p_primaryFiles project).

(** The changes of the file system the generator makes for the project:
    the creation of its output directory and the write of the document of a
    declared type. *)
Definition outputOp (op : fsop) : Prop :=
  match op with
  | OpMkdir p => p = p_outputPath project
  | OpWriteFile p _ =>
      exists documentType,
        In documentType (p_documentTypes project) /\
        p = path_join (p_outputPath project) (documentType ++ js ".mdx")
  end.

Definition perform (op : fsop) (fs : FS) : result unit * FS :=
  match op with
  | OpMkdir p => fs_mkdir fs p
  | OpWriteFile p content => fs_writeFile fs p content
  end.

(** Two disks show the same primary files, and go on doing so while the
    given changes are made on both, each change succeeding or failing on
    both alike. *)
Fixpoint alikeThrough (ops : list fsop) (fs1 fs2 : FS) : Prop :=
  sourceView fs1 = sourceView fs2 /\
  match ops with
  | [] => True
  | op :: ops' =>
      fst (perform op fs1) = fst (perform op fs2) /\
      alikeThrough ops' (snd (perform op fs1)) (snd (perform op fs2))
  end.

(** Two disks the generator of the project cannot tell apart: they hold
    the same primary files, and the changes it makes succeed or fail on
    both alike. *)
Definition alike (fs1 fs2 : FS) : Prop :=
  forall ops, Forall outputOp ops -> alikeThrough ops fs1 fs2.

(** Two worlds whose disks are alike and whose clocks show one calendar
    date at every reading. *)
Definition sameInputs (w1 w2 : World) : Prop :=
  alike (w_fs w1) (w_fs w2) /\
  forall n m, beforeT (w_clock w1 n) = beforeT (w_clock w2 m).

(** A computation that returns the same and makes the same changes from
    two such worlds, and leaves two such worlds. *)
Definition regenerates {A : Type} (m : M A) : Prop :=
  forall w1 w2,
    sameInputs w1 w2 ->
    fst (m w1) = fst (m w2) /\
    sameInputs (snd (m w1)) (snd (m w2)) /\
    exists written,
      w_writes (snd (m w1)) = w_writes w1 ++ written /\
      w_writes (snd (m w2)) = w_writes w2 ++ written.

End Regeneration.
End Regeneration.

(** ** Disks of the concrete platform *)

Module PosixDisk.
Import FileClassifier Scanner Selective Posix.

Section PosixDisk.
Variable project : Project.

(** The path of the document of a type. *)
Definition documentPath (documentType : jstring) : jstring :=
  posix_join (p_outputPath project) (documentType ++ js ".mdx").

(** No document of a declared type would be written at the output
    directory itself. *)
Definition apart : Prop :=
  Forall (fun documentType =>
            str_eqb (resolve (documentPath documentType)) (resolve (p_outputPath project))
            = false)
         (p_documentTypes project).

(** Two lists of files that hold the same at the primary files of the
    project and no directory where a document goes. *)
Definition sameSources (fs1 fs2 : fsmap) : Prop :=
  Forall (fun pattern =>
            fs_get fs1 (posix_join (p_path project) pattern) =
            fs_get fs2 (posix_join (p_path project) pattern))
         (p_primaryFiles project) /\
  Forall (fun documentType =>
            fs_get fs1 (documentPath documentType) <> Some Dir /\
            fs_get fs2 (documentPath documentType) <> Some Dir)
         (p_documentTypes project).

End PosixDisk.
End PosixDisk.

(** ** The issues collected by the validator *)

Module Passes.
Import Scanner Validator.

Section Passes.
Context {P : platform}.
Variable options : Validator.Options.
Variable glob : FS -> jstring -> jstring -> result (list jstring).
Variable validateMDXSyntax : State -> M State.
Variable validateLinks : State -> M State.
Variable validateImages : State -> M State.
Variable validateNavigation : State -> M State.

(** [validate] up to its report: the banner and the five passes in their
    order, from the lists [st].  What it returns are the errors and the
    warnings collected. *)
Definition collect (st : State) : M State :=
  console_log ([55357; 56589]%N ++ js " Validating documentation..." ++ [nl]) ;;;
  st1 <- validateMDXSyntax st ;;
  st2 <- validateLinks st1 ;;
  st3 <- validateImages st2 ;;
  st4 <- validateFrontmatter options glob st3 ;;
  validateNavigation st4.

End Passes.
End Passes.

(** * Concrete inputs for the examples *)

Module Examples.
Import Scanner Selective.

(** A small project for the examples: descriptor [p1] of the
    specification's scenario, with its README. *)
Definition p1 : ProjectConfig :=
  MkConfig (js "p1") (js "P1") (js "/tmp/p1") (js "./apps/docs/projects/p1")
           (js "core-platforms") 1 [js "readme"; js "architecture"]
           (js "selective") [js "README.md"] [].

Definition p1_files : Posix.fsmap :=
  [ (js "/tmp/p1", Posix.Dir);
    (js "/tmp/p1/README.md", Posix.File (js "# P1

A sample project.")) ].

Definition legacy_p1 : Legacy.Project :=
  Legacy.MkProject (js "p1") (js "/tmp/p1") (js "P1") (js "A sample project.")
                   (js "1.0.0") (js "miscellaneous") 55 [] [].

(** A document whose frontmatter has neither a title nor a description. *)
Definition untitled : jstring := js "---
category: guide
---

# A guide".

Definition docs_files : Posix.fsmap :=
  [ (js "/docs", Posix.Dir); (js "/docs/a.mdx", Posix.File untitled) ].

(** A project whose README is an unterminated doctype declaration. *)
Definition p2 : ProjectConfig :=
  MkConfig (js "p2") (js "P2") (js "/tmp/p2") (js "./apps/docs/projects/p2")
           (js "core-platforms") 2 [js "readme"]
           (js "selective") [js "README.md"] [].

Definition p2_files : Posix.fsmap :=
  [ (js "/tmp/p2", Posix.Dir); (js "/tmp/p2/README.md", Posix.File (js "<!DOCTYPE")) ].

Definition p1_readme : SourceFile :=
  MkSourceFile (js "/tmp/p1/README.md") (js "README.md") (js "# P1

A sample project.") (js "readme") 23 (js "2025-01-01T00:00:00.000Z").

End Examples.

(** * Content extraction ([ContentExtractor])

    The helpers the directory-walking scanner uses on the files it finds:
    docstrings, frontmatter and titles.  Both copies of the scanner carry
    the same class. *)

Module Extractor.
Import FileClassifier Scanner.

(** ** Objects

    An object used as a map is the list of its own properties in creation
    order, each key once. *)

(** The number a string of digits denotes. *)
Definition digitsValue (k : jstring) : N :=
  fold_left (fun n c => (n * 10 + (c - 48))%N) k 0%N.

(** An array index: the canonical decimal form of an integer below
    [2^32 - 1]. *)
Definition isArrayIndex (k : jstring) : bool :=
  match k with
  | [] => false
  | c :: k' =>
      forallb isDigit k &&
      (negb (ch_eqb c (ch "0")) || match k' with [] => true | _ => false end) &&
      (digitsValue k <? 4294967295)%N
  end.

Fixpoint insertIndex (A : Type) (kv : jstring * A) (l : list (jstring * A))
  : list (jstring * A) :=
  match l with
  | [] => [kv]
  | y :: l' =>
      if (digitsValue (fst kv) <? digitsValue (fst y))%N then kv :: y :: l'
      else y :: insertIndex kv l'
  end.

(** [Object.entries(o)], which is also the order in which a spread copies:
    the array indices in ascending order, then the other keys in creation
    order. *)
Definition ownEntries (A : Type) (o : list (jstring * A)) : list (jstring * A) :=
  fold_right (@insertIndex A) [] (filter (fun kv => isArrayIndex (fst kv)) o) ++
  filter (fun kv => negb (isArrayIndex (fst kv))) o.

(** [o[key] = v] for a string [v] on an object literal: the key
    [__proto__] is the inherited accessor, which ignores a string. *)
Definition setProperty (key v : jstring) (o : list (jstring * jstring))
  : list (jstring * jstring) :=
  if str_eqb key (js "__proto__") then o else assign key v o.

(** ** Loops over the matches of a pattern *)

(** [while ((match = re.exec(s)) !== null)] for a pattern with flag [g]:
    the captures of every match, left to right.  The patterns run this way
    consume at least four code units in each match, so the position always
    advances. *)
Fixpoint exec_all_from (r : regex) (pv : option char) (s : jstring) (skip : nat)
  : list (list (nat * jstring)) :=
  match s with
  | [] => []
  | c :: s' =>
      match skip with
      | S n => exec_all_from r (Some c) s' n
      | O =>
          match rexec r pv s with
          | Some (S n, cs) => cs :: exec_all_from r (Some c) s' n
          | Some (O, cs) => cs :: exec_all_from r (Some c) s' 0
          | None => exec_all_from r (Some c) s' 0
          end
      end
  end.

Definition exec_all (r : regex) (s : jstring) : list (list (nat * jstring)) :=
  exec_all_from r None s 0.

(** ** Docstrings *)

(** The pattern for a block comment that opens with a slash and two stars:
    the text up to the first star-slash, captured lazily. *)
Definition jsDocRegex : regex :=
  RLit (js "/**") >> RGroup 1 (RStar false anychar) >> RLit (js "*/").

(** [^ \s* \*] with flags [g] and [m]: the star that opens a comment line. *)
Definition re_leadingStar : regex :=
  RBol true >> RStar true isSpace >> RChar (only "*"%char).

(** [if (docstring.length > 20) docstrings.push(docstring)] *)
Definition keepLong (docstring : jstring) : list jstring :=
  if 20 <? List.length docstring then [docstring] else [].

(** [extractJSDocstrings(content)] *)
Definition extractJSDocstrings (content : jstring) : list jstring :=
  flat_map (fun cs => keepLong (trim (replaceAll re_leadingStar (fun _ _ => []) (cap 1 cs))))
           (exec_all jsDocRegex content).

Definition tripleQuote : jstring := dquote ++ dquote ++ dquote.

(** Three double quotes, the text up to the next three, captured lazily. *)
Definition pythonDocRegex : regex :=
  RLit tripleQuote >> RGroup 1 (RStar false anychar) >> RLit tripleQuote.

(** [extractPythonDocstrings(content)] *)
Definition extractPythonDocstrings (content : jstring) : list jstring :=
  flat_map (fun cs => keepLong (trim (cap 1 cs))) (exec_all pythonDocRegex content).

(** ** Frontmatter *)

(** The pattern [^--- \s* \n ( [\s\S]*? ) \n--- \s* \n ( [\s\S]* ) $]
    without flags. *)
Definition frontmatterRegex : regex :=
  RBol false >> RLit (js "---") >> RStar true isSpace >> RChar (ch_eqb nl) >>
  RGroup 1 (RStar false anychar) >> RLit (nl :: js "---") >>
  RStar true isSpace >> RChar (ch_eqb nl) >>
  RGroup 2 (RStar true anychar) >> REol false.

Definition isQuote (c : char) : bool := ch_eqb (ch "'") c || ch_eqb 34%N c.

(** A quote at the start or a quote at the end, with flag [g]. *)
Definition re_outerQuote : regex :=
  RAlt (RBol false >> RChar isQuote) (RChar isQuote >> REol false).

Definition unquote (s : jstring) : jstring := replaceAll re_outerQuote (fun _ _ => []) s.

(** The body of the loop over the lines of the block:
    [const [key, ...valueParts] = line.split(':')]. *)
Definition parseLine (line : jstring) (frontmatter : list (jstring * jstring))
  : list (jstring * jstring) :=
  match split (ch ":") line with
  | key :: valueParts =>
      match key, valueParts with
      | _ :: _, _ :: _ =>
          setProperty (trim key) (unquote (trim (join (js ":") valueParts))) frontmatter
      | _, _ => frontmatter
      end
  | [] => frontmatter
  end.

Definition parseFrontmatter (block : jstring) : list (jstring * jstring) :=
  fold_left (fun frontmatter line => parseLine line frontmatter) (split nl block) [].

(** [extractFrontmatter(content)]: the frontmatter and the content left. *)
Definition extractFrontmatter (content : jstring) : list (jstring * jstring) * jstring :=
  match rsearch frontmatterRegex content with
  | Some cs => (parseFrontmatter (cap 1 cs), cap 2 cs)
  | None => ([], content)
  end.

Section Extractor.
Context {P : platform}.

(** [extractDocstrings(filePath, content)] *)
Definition extractDocstrings (filePath content : jstring) : list jstring :=
  let ext := path_extname filePath in
  if oneOf ext [js ".js"; js ".ts"; js ".jsx"; js ".tsx"] then extractJSDocstrings content
  else if str_eqb ext (js ".py") then extractPythonDocstrings content
  else [].

(** ** Titles *)

(** The class [\w]. *)
Definition isWord (c : char) : bool := isAlnum c || ch_eqb (ch "_") c.

(** [/[-_]/g] *)
Definition re_separator : regex :=
  RChar (fun c => ch_eqb (ch "-") c || ch_eqb (ch "_") c).

(** [s.replace(/\b\w/g, l => l.toUpperCase())]: a word character matches
    when the code unit before it is not a word character. *)
Fixpoint upperWordStarts (pv : option char) (s : jstring) : jstring :=
  match s with
  | [] => []
  | c :: s' =>
      (if isWord c && negb (match pv with Some b => isWord b | None => false end)
       then toUpperCase [c] else [c]) ++ upperWordStarts (Some c) s'
  end.

(** [generateTitle(filename)] *)
Definition generateTitle (filename : jstring) : jstring :=
  trim (upperWordStarts None (replaceAll re_separator (fun _ _ => js " ") filename)).

(** [v || d] for a property read from the frontmatter. *)
Definition orElse (v : option jstring) (d : value) : value :=
  match v with
  | Some (c :: s) => VStr (c :: s)
  | _ => d
  end.

(** [enhanceFrontmatter(filePath, existingFrontmatter, projectInfo)] *)
Definition enhanceFrontmatter (filePath : jstring)
    (existingFrontmatter : list (jstring * jstring)) (projectInfo : Legacy.Project)
  : M (list (jstring * value)) :=
  let filename := path_basename_ext filePath (path_extname filePath) in
  let classification := classify filePath [] in
  lastUpdated <- today ;;
  ret (fold_left (fun o kv => assign (fst kv) (VStr (snd kv)) o)
         (ownEntries existingFrontmatter)
         [ (js "title",
            orElse (lookup (js "title") existingFrontmatter) (VStr (generateTitle filename)));
           (js "description",
            orElse (lookup (js "description") existingFrontmatter)
                   (VStr (classification ++ js " for " ++ Legacy.name projectInfo)));
           (js "category",
            orElse (lookup (js "category") existingFrontmatter) (VStr classification));
           (js "project", VStr (Legacy.name projectInfo));
           (js "lastUpdated", VStr lastUpdated);
           (js "tags",
            orElse (lookup (js "tags") existingFrontmatter)
                   (VArr [classification; Legacy.category projectInfo])) ]).

End Extractor.
End Extractor.

(** * Discovery and conversion of files

    The methods of [EnhancedProjectScanner] that look at one directory or
    one file: [isProject], [analyzeFile] and [isFileRelevant],
    [processDocumentationFile] with [AssetManager.validateLinks],
    [generateOutputFilename], [extractDescription], [categorizeProject] and
    [calculatePriority].  Both copies of the scanner carry them. *)

Module Discovery.
Import FileClassifier Scanner Extractor.

(** [CONFIG.projectIndicators] *)
Definition projectIndicators : list jstring :=
  [ js "package.json"; js "pyproject.toml"; js "go.mod"; js "pom.xml";
    js "Cargo.toml"; js "composer.json"; js "requirements.txt";
    js "README.md"; js "README.txt"; js "CLAUDE.md"; js "docs" ].

(** [CONFIG.extraction.maxFileSize]: [10 * 1024 * 1024] *)
Definition maxFileSize : N := (10 * 1024 * 1024)%N.

Section Discovery.
Context {P : platform}.
Variable options : Options.

(** [path.resolve(from, to)] *)
Variable path_resolve : jstring -> jstring -> jstring.

(** The time value, in milliseconds, of the date a string denotes. *)
Variable timeValue : jstring -> Z.

Let dbg := debug (opt_verbose options).
Let err := error (opt_verbose options).

(** The loop of [isProject] over the indicators still to be tried. *)
Fixpoint anyIndicator (projectPath : jstring) (indicators : list jstring) : M bool :=
  match indicators with
  | [] => ret false
  | indicator :: indicators' =>
      let indicatorPath := path_join projectPath indicator in
      e <- pathExists indicatorPath ;;
      if e then ret true else anyIndicator projectPath indicators'
  end.

(** [isProject(projectPath)] *)
Definition isProject (projectPath : jstring) : M bool :=
  anyIndicator projectPath projectIndicators.

(** [isFileRelevant(filePath)] *)
Definition isFileRelevant (filePath : jstring) : bool :=
  let filename := toLowerCase (path_basename filePath) in
  let ext := toLowerCase (path_extname filePath) in
  (* Always include documentation files *)
  if oneOf ext [js ".md"; js ".mdx"; js ".txt"; js ".rst"] then true
  (* Include specific configuration files *)
  else if oneOf filename [js "package.json"; js "tsconfig.json"; js "docker-compose.yml"]
    then true
  (* Include API specs *)
  else if includes filename (js "openapi") || includes filename (js "swagger") ||
          includes filename (js "api")
    then true
  (* Include code files with likely documentation *)
  else if oneOf ext [js ".js"; js ".ts"; js ".py"] && includes filename (js "index")
    then true
  else false.

(** [this.logger.stats.filesProcessed++] *)
Definition count_file : M unit :=
  s <- get_stats ;;
  set_stats (MkStats (projectsFound s) (filesProcessed s + 1)
                     (errorsEncountered s) (assetscopied s)).

(** The text files of [analyzeFile]: their frontmatter and content, or
    [None] when the file cannot be read. *)
Definition readText (filePath ext : jstring)
  : M (option (list (jstring * jstring) * jstring)) :=
  if oneOf ext [js ".md"; js ".mdx"; js ".txt"; js ".json"; js ".yaml"; js ".yml";
                js ".js"; js ".ts"; js ".py"]
  then
    try_catch
      (content <- readFile filePath ;;
       if oneOf ext [js ".md"; js ".mdx"] then
         let extracted := extractFrontmatter content in
         ret (Some (fst extracted, snd extracted))
       else ret (Some ([], content)))
      (fun message =>
         dbg (js "Could not read file " ++ filePath ++ js ": " ++ message) ;;;
         ret None)
  else ret (Some ([], [])).

(** [analyzeFile(filePath, projectRoot)]; [None] is [null]. *)
Definition analyzeFile (filePath projectRoot : jstring) : M (option Legacy.File) :=
  try_catch
    (stats <- stat filePath ;;
     (* Skip large files *)
     if (maxFileSize <? st_size stats)%N then ret None
     else
       let relativePath := path_relative projectRoot filePath in
       let ext := path_extname filePath in
       (* Check if file matches include patterns *)
       if negb (isFileRelevant filePath) then ret None
       else
         (* Read content for text files *)
         text <- readText filePath ext ;;
         match text with
         | None => ret None
         | Some (frontmatter, content) =>
             let classification := classify filePath content in
             (* Extract docstrings from code files *)
             let docstrings :=
               if oneOf classification [js "code"]
               then extractDocstrings filePath content else [] in
             count_file ;;;
             ret (Some (Legacy.MkFile
                          filePath relativePath (path_basename filePath)
                          classification (st_size stats) (st_mtime stats)
                          (firstn 5000 content) frontmatter docstrings
                          (match lookup (js "title") frontmatter with
                           | Some (c :: title) => c :: title
                           | _ => generateTitle (path_basename_ext filePath ext)
                           end)))
         end)
    (fun message =>
       err (js "Failed to analyze file " ++ filePath ++ js ": " ++ message) ;;;
       ret None).

(** ** [AssetManager.validateLinks] *)

(** The pattern [\[ ( [^\]]+ ) \] \( ( [^)]+ ) \)] with flag [g]. *)
Definition linkRegex : regex :=
  RChar (only "["%char) >> RGroup 1 (RPlus (except "]"%char)) >>
  RChar (only "]"%char) >> RChar (only "("%char) >>
  RGroup 2 (RPlus (except ")"%char)) >> RChar (only ")"%char).

(** The body of the loop over the links. *)
Definition checkLink (basePath : jstring) (cs : list (nat * jstring)) : M unit :=
  let url := cap 2 cs in
  if negb (startsWith url (js "http")) && negb (startsWith url (js "#")) then
    let fullPath := path_resolve basePath url in
    try_catch (access fullPath)
              (fun _ => err (js "Broken link found: " ++ url ++ js " in content"))
  else ret tt.

(** [validateLinks(content, basePath)] *)
Definition validateLinks (content basePath : jstring) : M jstring :=
  let validatedContent := content in
  forEach (exec_all linkRegex content) (checkLink basePath) ;;;
  ret validatedContent.

(** ** Conversion of one file *)

(** [/[^a-zA-Z0-9-_]/g] *)
Definition isSafe (c : char) : bool :=
  isLower c || isUpper c || isDigit c || ch_eqb (ch "-") c || ch_eqb (ch "_") c.

Definition re_unsafe : regex := RChar (fun c => negb (isSafe c)).

(** [generateOutputFilename(file)] *)
Definition generateOutputFilename (file : Legacy.File) : jstring :=
  let basename :=
    path_basename_ext (Legacy.f_filename file) (path_extname (Legacy.f_filename file)) in
  (* Special handling for common filenames *)
  if str_eqb (toLowerCase basename) (js "readme") then js "readme.mdx"
  else if includes (toLowerCase basename) (js "claude") then js "ai-context.mdx"
  else replaceAll re_unsafe (fun _ _ => js "-") basename ++ js ".mdx".

(** The source attribution that closes a converted file. *)
Definition attribution (project : Legacy.Project) : jstring :=
  [nl; nl] ++ js "---" ++ [nl] ++
  js "*This content was automatically extracted from " ++ Legacy.name project ++
  js ". For the most up-to-date information, refer to the source project.*" ++ [nl].

(** The lines between the fences: one for each entry of the enhanced
    frontmatter. *)
Definition frontmatterYaml (enhancedFrontmatter : list (jstring * value)) : jstring :=
  join [nl] (map (fun kv => fst kv ++ js ": " ++ dquote ++ toStr (snd kv) ++ dquote)
                 (ownEntries enhancedFrontmatter)).

(** [processDocumentationFile(file, project, outputDir)]; [None] is
    [null]. *)
Definition processDocumentationFile (file : Legacy.File) (project : Legacy.Project)
    (outputDir : jstring) : M (option Legacy.Processed) :=
  if match Legacy.f_content file with [] => true | _ => false end ||
     str_eqb (Legacy.f_classification file) (js "code")
  then ret None
  else
    let outputFilename := generateOutputFilename file in
    let outputPath := path_join outputDir outputFilename in
    (* Enhance frontmatter *)
    enhancedFrontmatter <-
      enhanceFrontmatter (Legacy.f_path file) (Legacy.f_frontmatter file) project ;;
    (* Validate and fix links *)
    processedContent <- validateLinks (Legacy.f_content file) (Legacy.path project) ;;
    (* Format final content *)
    let finalContent :=
      js "---" ++ [nl] ++ frontmatterYaml enhancedFrontmatter ++ [nl] ++ js "---" ++
      [nl; nl] ++ processedContent ++ attribution project in
    (* Write file *)
    writeFile outputPath finalContent ;;;
    ret (Some (Legacy.MkProcessed
                 file (path_relative (opt_outputDir options) outputPath)
                 enhancedFrontmatter)).

(** ** Descriptions, categories and priorities *)

(** [/^#+\s*/] *)
Definition re_headingMarks : regex :=
  RBol false >> RPlus (only "#"%char) >> RStar true isSpace.

Definition nonEmpty (s : jstring) : bool := match s with [] => false | _ => true end.

(** The loop of [extractDescription] over the lines still to be read. *)
Fixpoint firstParagraph (lines : list jstring) : jstring :=
  match lines with
  | [] => []
  | line :: lines' =>
      let cleaned := trim (replaceFirst re_headingMarks (fun _ _ => []) line) in
      if (50 <? List.length cleaned) && negb (startsWith cleaned (js "```")) &&
         negb (startsWith cleaned (js "|"))
      then firstn 200 cleaned ++ (if 200 <? List.length cleaned then js "..." else [])
      else firstParagraph lines'
  end.

(** [extractDescription(content)]: the first meaningful paragraph. *)
Definition extractDescription (content : jstring) : jstring :=
  let lines := filter (fun line => nonEmpty (trim line)) (split nl content) in
  firstParagraph lines.

(** [categorizeProject(name, packageInfo, files)] *)
Definition categorizeProject (name : jstring) : jstring :=
  let nameLower := toLowerCase name in
  if includes nameLower (js "turborepo") || includes nameLower (js "monorepo")
    then js "main-platform"
  else if includes nameLower (js "ai") || includes nameLower (js "rag") ||
          includes nameLower (js "embed")
    then js "ai-services"
  else if includes nameLower (js "web") || includes nameLower (js "site") ||
          includes nameLower (js "marketing")
    then js "websites"
  else if includes nameLower (js "tool") || includes nameLower (js "util") ||
          includes nameLower (js "helper")
    then js "development-tools"
  else if includes nameLower (js "doc") || includes nameLower (js "guide")
    then js "documentation"
  else if includes nameLower (js "api") || includes nameLower (js "service") ||
          includes nameLower (js "backend")
    then js "backend-services"
  else if includes nameLower (js "crawler") || includes nameLower (js "scraper")
    then js "data-processing"
  else js "miscellaneous".

(** [Date.now()] *)
Definition Date_now : M Z := t <- now ;; ret (timeValue t).

(** The filter for recent activity: [daysSinceModified < 30], the days
    being the milliseconds over [1000 * 60 * 60 * 24]. *)
Fixpoint recentFiles (files : list Legacy.File) : M (list Legacy.File) :=
  match files with
  | [] => ret []
  | f :: files' =>
      t <- Date_now ;;
      let elapsed := (t - timeValue (Legacy.f_lastModified f))%Z in
      recent <- recentFiles files' ;;
      ret (if (elapsed <? 30 * (1000 * 60 * 60 * 24))%Z then f :: recent else recent)
  end.

(** [calculatePriority(name, packageInfo, files)] *)
Definition calculatePriority (name : jstring) (files : list Legacy.File) : M Z :=
  let priority := 50%Z in
  let nameLower := toLowerCase name in
  (* Increase priority for main platforms *)
  let priority :=
    if includes nameLower (js "turborepo") || includes nameLower (js "main")
    then (priority + 30)%Z else priority in
  let priority :=
    if includes nameLower (js "ai") || includes nameLower (js "core")
    then (priority + 20)%Z else priority in
  let priority :=
    if includes nameLower (js "prod") || includes nameLower (js "production")
    then (priority + 15)%Z else priority in
  (* Increase priority based on file count and documentation quality *)
  let priority := if 10 <? List.length files then (priority + 10)%Z else priority in
  let priority :=
    if existsb (fun f => includes (toLowerCase (Legacy.f_filename f)) (js "readme")) files
    then (priority + 5)%Z else priority in
  let priority :=
    if existsb (fun f => includes (toLowerCase (Legacy.f_filename f)) (js "claude")) files
    then (priority + 8)%Z else priority in
  (* Increase priority for recent activity *)
  recent <- recentFiles files ;;
  let priority := (priority + Z.min (Z.of_nat (List.length recent) * 2) 20)%Z in
  ret (Z.min priority 100).

End Discovery.
End Discovery.

(** * The project discovery script ([ProjectScanner])

    The third script of the file lists the directories under the base path
    and ranks them.  Its slugs, categories and priorities are computed from
    the name of a project, its indicators and its last modification. *)

Module ProjectScanner.
Import Scanner.

(** [project.indicators] *)
Record Indicators := MkIndicators {
  hasPackageJson : bool;
  hasReadme : bool;
  hasClaudeFile : bool;
  hasDocs : bool;
  hasGit : bool
}.

(** What [categorizeProject] and [calculatePriority] read from a project;
    [framework] is [project.metadata?.framework], [None] for [undefined]. *)
Record Project := MkProject {
  name : jstring;
  indicators : Indicators;
  lastModified : jstring;
  framework : option jstring;
  category : jstring
}.

Section ProjectScanner.
Context {P : platform}.

(** The time value, in milliseconds, of the date a string denotes. *)
Variable timeValue : jstring -> Z.

(** [/[^a-z0-9\s-]/g] *)
Definition isSlugChar (c : char) : bool :=
  isLower c || isDigit c || isSpace c || ch_eqb (ch "-") c.

Definition re_notSlug : regex := RChar (fun c => negb (isSlugChar c)).

(** [/\s+/g] and [/-+/g] *)
Definition re_spaces : regex := RPlus isSpace.
Definition re_hyphens : regex := RPlus (only "-"%char).

(** [createSlug(projectName)]; [trim] takes no argument, so the hyphen
    passed to it is ignored. *)
Definition createSlug (projectName : jstring) : jstring :=
  trim (replaceAll re_hyphens (fun _ _ => js "-")
         (replaceAll re_spaces (fun _ _ => js "-")
           (replaceAll re_notSlug (fun _ _ => []) (toLowerCase projectName)))).

(** [categorizeProject(project)] *)
Definition categorizeProject (projectName : jstring) : jstring :=
  let name := toLowerCase projectName in
  if includes name (js "turborepo") || includes name (js "lostmindai-turborepo")
    then js "main-platform"
  else if includes name (js "rag") || includes name (js "embedding")
    then js "ai-backend"
  else if includes name (js "xlsm") || includes name (js "finance")
    then js "finance-tools"
  else if includes name (js "doc") && includes name (js "documentation")
    then js "documentation"
  else if includes name (js "tool") || includes name (js "analyzer")
    then js "development-tools"
  else js "other".

(** [calculatePriority(project)] once [Date.now()] is read; the days since
    the modification are the milliseconds over [1000 * 60 * 60 * 24]. *)
Definition priorityAt (today : Z) (project : Project) : Z :=
  let priority := 0%Z in
  (* Higher priority for main platforms *)
  let priority :=
    if str_eqb (category project) (js "main-platform") then (priority + 100)%Z
    else priority in
  let priority :=
    if str_eqb (category project) (js "ai-backend") then (priority + 80)%Z
    else priority in
  let priority :=
    if str_eqb (category project) (js "finance-tools") then (priority + 60)%Z
    else priority in
  (* Recent activity adds priority *)
  let elapsed := (today - timeValue (lastModified project))%Z in
  let priority :=
    if (elapsed <? 7 * (1000 * 60 * 60 * 24))%Z then (priority + 30)%Z
    else if (elapsed <? 30 * (1000 * 60 * 60 * 24))%Z then (priority + 15)%Z
    else priority in
  (* Documentation quality adds priority *)
  let priority :=
    if hasClaudeFile (indicators project) then (priority + 10)%Z else priority in
  let priority :=
    if hasDocs (indicators project) then (priority + 10)%Z else priority in
  let priority :=
    match framework project with
    | Some f => if str_eqb f (js "TurboRepo") then (priority + 20)%Z else priority
    | None => priority
    end in
  priority.

(** [calculatePriority(project)] *)
Definition calculatePriority (project : Project) : M Z :=
  t <- now ;;
  ret (priorityAt (timeValue t) project).

(** The end of [enrichProjectData]: the category, then the priority of the
    project with that category. *)
Definition rank (project : Project) : M (jstring * Z) :=
  let category := categorizeProject (name project) in
  priority <- calculatePriority
                (MkProject (name project) (indicators project) (lastModified project)
                           (framework project) category) ;;
  ret (category, priority).

End ProjectScanner.
End ProjectScanner.

(** * The validator's syntax pass

    [DocumentationValidator.checkMDXSyntax] and the pass over the files
    that calls it. *)

Module SyntaxCheck.
Import Scanner Extractor.

(** [/^#+\s*\d/] *)
Definition re_numberedHeading : regex :=
  RBol false >> RPlus (only "#"%char) >> RStar true isSpace >> RChar isDigit.

(** An opening brace, a digit somewhere before the next closing brace, and
    that closing brace. *)
Definition re_numberedExpression : regex :=
  RChar (only "{"%char) >> RStar true (except "}"%char) >> RChar isDigit >>
  RStar true (except "}"%char) >> RChar (only "}"%char).

(** The class [.]: any code unit but a line terminator. *)
Definition dot (c : char) : bool := negb (isLineTerminator c).

(** [/\[.*\]\(.*\)/] *)
Definition re_someLink : regex :=
  RChar (only "["%char) >> RStar true dot >> RChar (only "]"%char) >>
  RChar (only "("%char) >> RStar true dot >> RChar (only ")"%char).

(** The pattern [\[ ( [^\]]* ) \] \( ( [^)]* ) \)] with flag [g]. *)
Definition linkRegex : regex :=
  RChar (only "["%char) >> RGroup 1 (RStar true (except "]"%char)) >>
  RChar (only "]"%char) >> RChar (only "("%char) >>
  RGroup 2 (RStar true (except ")"%char)) >> RChar (only ")"%char).

Definition isBlank (s : jstring) : bool := match trim s with [] => true | _ => false end.

(** The links of a line that the loop over [linkRegex] visits. *)
Definition linksOf (line : jstring) : list (list (nat * jstring)) :=
  if rtest re_someLink line then exec_all linkRegex line else [].

(** [[text](url)] as the messages show a link. *)
Definition showLink (cs : list (nat * jstring)) : jstring :=
  js "[" ++ cap 1 cs ++ js "](" ++ cap 2 cs ++ js ")".

(** The errors the callback of [lines.forEach] pushes for one line. *)
Definition lineErrors (filePath : jstring) (lineNum : nat) (line : jstring)
  : list jstring :=
  let place := filePath ++ js ":" ++ decimal (Z.of_nat lineNum) in
  (* Check for headings starting with numbers *)
  (if rtest re_numberedHeading line
   then [place ++ js " - Heading starts with number: " ++ dquote ++ trim line ++ dquote]
   else []) ++
  (* Check for malformed links *)
  flat_map (fun cs => if isBlank (cap 2 cs)
                      then [place ++ js " - Empty link URL: " ++ showLink cs]
                      else [])
           (linksOf line).

(** The warnings it pushes for one line. *)
Definition lineWarnings (filePath : jstring) (lineNum : nat) (line : jstring)
  : list jstring :=
  let place := filePath ++ js ":" ++ decimal (Z.of_nat lineNum) in
  (* Check for invalid JSX expressions *)
  (if rtest re_numberedExpression line && negb (includes line (js "```"))
   then [place ++ js " - Potential invalid JSX expression: " ++ dquote ++ trim line ++ dquote]
   else []) ++
  flat_map (fun cs => if isBlank (cap 1 cs)
                      then [place ++ js " - Empty link text: " ++ showLink cs]
                      else [])
           (linksOf line).

(** The lines of a text with their numbers, from 1. *)
Definition numbered (content : jstring) : list (nat * jstring) :=
  let lines := split nl content in
  combine (seq 1 (List.length lines)) lines.

(** [checkMDXSyntax(content, filePath)]: the errors and the warnings. *)
Definition checkMDXSyntax (content filePath : jstring) : list jstring * list jstring :=
  (flat_map (fun l => lineErrors filePath (fst l) (snd l)) (numbered content),
   flat_map (fun l => lineWarnings filePath (fst l) (snd l)) (numbered content)).

Section SyntaxPass.
Context {P : platform}.
Variable options : Validator.Options.
Variable glob : FS -> jstring -> jstring -> result (list jstring).

(** The body of the loop of [validateMDXSyntax]. *)
Definition syntaxStep (file : jstring) (st : Validator.State) : M Validator.State :=
  try_catch
    (content <- readFile file ;;
     (* Check for common MDX syntax errors *)
     let issues := checkMDXSyntax content file in
     ret (Validator.MkState (Validator.errors st ++ fst issues)
                            (Validator.warnings st ++ snd issues)))
    (fun message =>
       ret (Validator.MkState
              (Validator.errors st ++ [js "Failed to read " ++ file ++ js ": " ++ message])
              (Validator.warnings st))).

(** [validateMDXSyntax()] *)
Definition validateMDXSyntax (st : Validator.State) : M Validator.State :=
  console_log ([55357; 56541]%N ++ js " Checking MDX syntax...") ;;;
  mdxFiles <- Validator.findFiles options glob (js "**/*.mdx") ;;
  foldM mdxFiles syntaxStep st.

End SyntaxPass.
End SyntaxCheck.

(** * Shapes of texts

    Notions used to state what the string functions return. *)

From Stdlib Require Import Permutation Sorted.

Module Shapes.
Import FileClassifier Scanner Extractor Selective Frames.

(** The text with every run of [p] replaced by [r]; [inrun] says that the
    code unit before belongs to a run already replaced. *)
Fixpoint squeeze (p : char -> bool) (r : jstring) (inrun : bool) (s : jstring) : jstring :=
  match s with
  | [] => []
  | c :: s' =>
      if p c then (if inrun then squeeze p r true s' else r ++ squeeze p r true s')
      else c :: squeeze p r false s'
  end.

Fixpoint run (p : char -> bool) (s : jstring) : nat :=
  match s with
  | c :: s' => if p c then S (run p s') else 0
  | [] => 0
  end.

(** The ends of a trimmed text are not white space. *)
Definition trimmed (s : jstring) : Prop :=
  match s with c :: _ => isSpace c = false | [] => True end /\
  match rev s with c :: _ => isSpace c = false | [] => True end.


(** What a slug is made of: lower-case letters, digits and hyphens. *)
Definition isSlugOut (c : char) : bool := isLower c || isDigit c || ch_eqb (ch "-") c.

(** [a] is [b] with some elements left out. *)
Inductive subsequence (A : Type) : list A -> list A -> Prop :=
| sub_nil : subsequence [] []
| sub_skip : forall a x b, subsequence a b -> subsequence a (x :: b)
| sub_take : forall a x b, subsequence a b -> subsequence (x :: a) (x :: b).

(** The place that opens every message about a line. *)
Definition place (filePath : jstring) (lineNum : nat) : jstring :=
  filePath ++ js ":" ++ decimal (Z.of_nat lineNum) ++ js " - ".

(** A pattern whose matches all open with the text [l]. *)
Definition opens_with (l : jstring) (r : regex) : Prop :=
  forall pv suf n cs, rexec r pv suf = Some (n, cs) -> startsWith suf l = true.

(** ** Navigation *)




Definition kept (file : nav_file) : bool :=
  negb (str_eqb (nf_classification file) (js "code")) &&
  negb (str_eqb (nf_classification file) (js "misc")).

Definition entryOf (file : nav_file) : nav_entry :=
  NavEntry (nf_title file) (nf_outputPath file) (nf_classification file).


(** ** Changes of the file system *)

(** The path a call that changes the file system is about. *)
Definition target (op : fsop) : jstring :=
  match op with
  | OpMkdir p => p
  | OpWriteFile p _ => p
  end.

(** The files that [processDocumentationFile] writes out. *)
Definition convertible (f : Legacy.File) : bool :=
  Discovery.nonEmpty (Legacy.f_content f) &&
  negb (str_eqb (Legacy.f_classification f) (js "code")).

Section Shapes.
Context {P : platform}.

(** A computation that never throws. *)
Definition succeeds {A : Type} (m : M A) : Prop :=
  forall w, exists a, fst (m w) = Ok a.

(** What [analyzeFile] does to the world when it keeps a file. *)
Definition counted (w w' : World) : Prop :=
  w_fs w' = w_fs w /\ w_writes w' = w_writes w /\
  filesProcessed (w_stats w') = (filesProcessed (w_stats w) + 1)%Z.

Definition uncounted (w w' : World) : Prop :=
  w_fs w' = w_fs w /\ w_writes w' = w_writes w /\
  filesProcessed (w_stats w') = filesProcessed (w_stats w).

(** The object [enhanceFrontmatter] returns once the date is read. *)
Definition enhanced (filePath : jstring) (existingFrontmatter : list (jstring * jstring))
    (projectInfo : Legacy.Project) (lastUpdated : jstring) : list (jstring * value) :=
  let filename := path_basename_ext filePath (path_extname filePath) in
  let classification := classify filePath [] in
  fold_left (fun o kv => assign (fst kv) (VStr (snd kv)) o)
    (ownEntries existingFrontmatter)
    [ (js "title",
       orElse (lookup (js "title") existingFrontmatter) (VStr (generateTitle filename)));
      (js "description",
       orElse (lookup (js "description") existingFrontmatter)
              (VStr (classification ++ js " for " ++ Legacy.name projectInfo)));
      (js "category",
       orElse (lookup (js "category") existingFrontmatter) (VStr classification));
      (js "project", VStr (Legacy.name projectInfo));
      (js "lastUpdated", VStr lastUpdated);
      (js "tags",
       orElse (lookup (js "tags") existingFrontmatter)
              (VArr [classification; Legacy.category projectInfo])) ].

(** What one round of the loop over the document types adds. *)
Definition fresh (documentType : jstring) (d : GeneratedDoc) : Prop :=
  gd_type d = documentType /\ gd_classification d = documentType /\
  In documentType supportedTypes.

(** What the syntax pass of the validator finds in one file: the errors
    and the warnings. *)
Definition syntaxIssues (fs : FS) (file : jstring) : list jstring * list jstring :=
  match fs_readFile fs file with
  | Ok content => SyntaxCheck.checkMDXSyntax content file
  | Err message => ([js "Failed to read " ++ file ++ js ": " ++ message], [])
  end.

(** A file that the selective scanner may return for a pattern, on a file
    system. *)
Definition scanned (project : Project) (fs : FS) (pattern : jstring) (f : SourceFile)
  : Prop :=
  sf_path f = path_join (p_path project) pattern /\
  fs_access fs (sf_path f) = true /\
  existsb (fun skipPattern => includes (sf_path f) skipPattern) (p_skipPatterns project)
    = false /\
  (exists st, fs_stat fs (sf_path f) = Ok st /\ st_isFile st = true /\
              sf_size f = st_size st /\ sf_modified f = st_mtime st) /\
  fs_readFile fs (sf_path f) = Ok (sf_content f) /\
  sf_relativePath f = path_relative (p_path project) (sf_path f) /\
  sf_classification f = classify (sf_path f) (sf_content f).

End Shapes.

End Shapes.

(** * Facts about strings and the matcher *)

#[global] Arguments js : simpl never.
#[global] Arguments ch_eqb : simpl never.
#[global] Arguments isLineTerminator : simpl never.
#[global] Arguments isSpace : simpl never.
#[global] Arguments only : simpl never.
#[global] Arguments except : simpl never.

Module RegexFacts.

Lemma ch_eqb_eq (a b : char) : ch_eqb a b = true <-> a = b.
Proof. unfold ch_eqb. apply N.eqb_eq. Qed.

(** What a successful run of a pattern from [st] to [st'] has read. *)
Fixpoint den (r : regex) (st st' : mstate) : Prop :=
  match r with
  | REps => st' = st
  | RChar p =>
      exists c, rest st = c :: rest st' /\ p c = true /\ caps st' = caps st
  | RSeq a b => exists mid, den a st mid /\ den b mid st'
  | RAlt a b => den a st st' \/ den b st st'
  | RStar _ p =>
      exists a, rest st = a ++ rest st' /\ forallb p a = true /\ caps st' = caps st
  | RBol m => st' = st /\ at_bol m st = true
  | REol m => st' = st /\ at_eol m st = true
  | RNegAhead _ => st' = st
  | RGroup i a =>
      exists mid, den a st mid /\ st' = set_cap i (consumed st mid) mid
  end.

Lemma star_greedy_sound (p : char -> bool) (k : cont) :
  forall s pv cs res,
    star_greedy p k pv s cs = Some res ->
    exists a b pv', s = a ++ b /\ forallb p a = true /\ k (MState pv' b cs) = Some res.
Proof.
  induction s as [|c s IH]; intros pv cs res H; simpl in H.
  - exists [], [], pv. auto.
  - destruct (p c) eqn:Hp.
    + destruct (star_greedy p k (Some c) s cs) eqn:Hs.
      * inversion H; subst. destruct (IH _ _ _ Hs) as (a & b & pv' & -> & Ha & Hk).
        exists (c :: a), b, pv'. simpl. rewrite Hp, Ha. auto.
      * exists [], (c :: s), pv. auto.
    + exists [], (c :: s), pv. auto.
Qed.

Lemma star_lazy_sound (p : char -> bool) (k : cont) :
  forall s pv cs res,
    star_lazy p k pv s cs = Some res ->
    exists a b pv', s = a ++ b /\ forallb p a = true /\ k (MState pv' b cs) = Some res.
Proof.
  induction s as [|c s IH]; intros pv cs res H; simpl in H.
  - destruct (k (MState pv [] cs)) eqn:Hk; [|discriminate].
    inversion H; subst. exists [], [], pv. auto.
  - destruct (k (MState pv (c :: s) cs)) eqn:Hk.
    + inversion H; subst. exists [], (c :: s), pv. auto.
    + destruct (p c) eqn:Hp; [|discriminate].
      destruct (IH _ _ _ H) as (a & b & pv' & -> & Ha & Hk').
      exists (c :: a), b, pv'. simpl. rewrite Hp, Ha. auto.
Qed.

(** Soundness of the matcher: a successful match passes a state reached by
    reading what the pattern describes to its continuation. *)
Lemma rmatch_sound :
  forall r k st res,
    rmatch r k st = Some res -> exists st', den r st st' /\ k st' = Some res.
Proof.
  induction r as [|p|a IHa b IHb|a IHa b IHb|g p|m|m|a IHa|i a IHa];
    intros k st res H; simpl in H.
  - exists st. simpl. auto.
  - destruct st as [pv s cs]; simpl in *. destruct s as [|c s]; [discriminate|].
    destruct (p c) eqn:Hp; [|discriminate].
    exists (MState (Some c) s cs). simpl. split; [exists c|]; auto.
  - destruct (IHa _ _ _ H) as (mid & Hd & Hb).
    destruct (IHb _ _ _ Hb) as (st' & Hd' & Hk).
    exists st'. split; [exists mid|]; auto.
  - destruct (rmatch a k st) eqn:Ha.
    + inversion H; subst. destruct (IHa _ _ _ Ha) as (st' & Hd & Hk).
      exists st'. simpl. auto.
    + destruct (IHb _ _ _ H) as (st' & Hd & Hk). exists st'. simpl. auto.
  - destruct st as [pv s cs]; simpl in *.
    destruct g;
      [apply star_greedy_sound in H|apply star_lazy_sound in H];
      destruct H as (a & b & pv' & -> & Ha & Hk);
      exists (MState pv' b cs); (split; [exists a|]; auto).
  - destruct (at_bol m st) eqn:Hb; [|discriminate]. exists st. simpl. auto.
  - destruct (at_eol m st) eqn:Hb; [|discriminate]. exists st. simpl. auto.
  - destruct (rmatch a Some st); [discriminate|]. exists st. simpl. auto.
  - destruct (IHa _ _ _ H) as (mid & Hd & Hk).
    exists (set_cap i (consumed st mid) mid). split; [exists mid|]; auto.
Qed.

Lemma den_RLit (l : jstring) :
  forall st st', den (RLit l) st st' -> rest st = l ++ rest st' /\ caps st' = caps st.
Proof.
  induction l as [|c l IH]; intros st st' H; simpl in H.
  - subst. auto.
  - destruct H as (mid & (c' & Hr & Hc & Hcs) & Hl).
    apply ch_eqb_eq in Hc. subst c'.
    destruct (IH _ _ Hl) as [Hr' Hcs']. split.
    + rewrite Hr, Hr'. reflexivity.
    + now rewrite Hcs'.
Qed.

(** ** Splitting and joining lines *)

Lemma join_cons (sep x : jstring) (l : list jstring) :
  l <> [] -> join sep (x :: l) = x ++ sep ++ join sep l.
Proof. destruct l; [congruence|reflexivity]. Qed.

Lemma split_nonempty (sep : char) (s : jstring) : split sep s <> [].
Proof.
  destruct s as [|c s]; simpl; [discriminate|].
  destruct (ch_eqb c sep); [discriminate|]. destruct (split sep s); discriminate.
Qed.

Lemma join_split (sep : char) (s : jstring) : join [sep] (split sep s) = s.
Proof.
  induction s as [|c s IH]; [reflexivity|]. simpl.
  destruct (ch_eqb c sep) eqn:E.
  - apply ch_eqb_eq in E. subst. rewrite join_cons by apply split_nonempty.
    simpl. now rewrite IH.
  - pose proof (split_nonempty sep s) as Hne.
    destruct (split sep s) as [|l ls]; [congruence|].
    destruct ls as [|l' ls]; simpl in *; now rewrite <- IH.
Qed.

(** ** Trimming *)

Lemma trimStart_suffix (s : jstring) :
  exists w, s = w ++ trimStart s /\ forallb isSpace w = true.
Proof.
  induction s as [|c s (w & Hw & Hs)]; [exists []; auto|]. simpl.
  destruct (isSpace c) eqn:E.
  - exists (c :: w). simpl. rewrite E, Hs. split; [now rewrite <- Hw | reflexivity].
  - exists []. auto.
Qed.

Lemma trimEnd_prefix (s : jstring) :
  exists w, s = trimEnd s ++ w /\ forallb isSpace w = true.
Proof.
  unfold trimEnd. destruct (trimStart_suffix (rev s)) as (w & Hw & Hs).
  exists (rev w). split.
  - rewrite <- rev_app_distr, <- Hw. now rewrite rev_involutive.
  - rewrite forallb_forall in *. intros c Hc. apply Hs. now apply in_rev.
Qed.

End RegexFacts.

(** * The sanitizer and inline-expression delimiters *)

Module SanitizerFacts.
Import RegexFacts Sanitizer Braces.

Lemma lt_not_rbrace (c : char) : isLineTerminator c = true -> ch_eqb rbrace c = false.
Proof.
  intros H. destruct (ch_eqb rbrace c) eqn:E; [|reflexivity].
  apply ch_eqb_eq in E. subst c. discriminate H.
Qed.

Lemma lt_not_lbrace (c : char) : isLineTerminator c = true -> ch_eqb lbrace c = false.
Proof.
  intros H. destruct (ch_eqb lbrace c) eqn:E; [|reflexivity].
  apply ch_eqb_eq in E. subst c. discriminate H.
Qed.

Lemma space_not_rbrace (c : char) : isSpace c = true -> ch_eqb rbrace c = false.
Proof.
  intros H. destruct (ch_eqb rbrace c) eqn:E; [|reflexivity].
  apply ch_eqb_eq in E. subst c. discriminate H.
Qed.

Lemma closes_app_l (a b : jstring) : closes a = true -> closes (a ++ b) = true.
Proof.
  induction a as [|c a IH]; simpl; [discriminate|].
  destruct (ch_eqb rbrace c); [reflexivity|].
  destruct (isLineTerminator c); [discriminate|exact IH].
Qed.

Lemma closes_cut (a b : jstring) (c : char) :
  isLineTerminator c = true -> closes (a ++ c :: b) = closes a.
Proof.
  intros Hc. induction a as [|x a IH]; simpl.
  - now rewrite (lt_not_rbrace _ Hc), Hc.
  - now rewrite IH.
Qed.

Lemma closes_spaces (a w : jstring) :
  forallb isSpace w = true -> closes (a ++ w) = closes a.
Proof.
  intros Hw. induction a as [|x a IH]; simpl.
  - induction w as [|c w IHw]; [reflexivity|]. simpl in *.
    apply andb_true_iff in Hw. destruct Hw as [Hc Hw].
    rewrite (space_not_rbrace _ Hc). destruct (isLineTerminator c); auto.
  - now rewrite IH.
Qed.

Lemma oc_app (a b : jstring) :
  opens_closed a = true -> opens_closed b = true -> opens_closed (a ++ b) = true.
Proof.
  intros Ha Hb. induction a as [|c a IH]; simpl in *; [assumption|].
  apply andb_true_iff in Ha. destruct Ha as [H1 H2].
  rewrite (IH H2), andb_true_r.
  destruct (ch_eqb lbrace c); [now apply closes_app_l | reflexivity].
Qed.

Lemma oc_cut (a b : jstring) (c : char) :
  isLineTerminator c = true ->
  opens_closed (a ++ c :: b) = opens_closed a && opens_closed b.
Proof.
  intros Hc. induction a as [|x a IH]; simpl.
  - now rewrite (lt_not_lbrace _ Hc).
  - rewrite IH, (closes_cut _ _ _ Hc). now rewrite andb_assoc.
Qed.

Lemma oc_suffix (a b : jstring) : opens_closed (a ++ b) = true -> opens_closed b = true.
Proof.
  induction a as [|c a IH]; simpl; [auto|].
  intros H. apply andb_true_iff in H. tauto.
Qed.

Lemma oc_strip (a w : jstring) :
  forallb isSpace w = true -> opens_closed (a ++ w) = true -> opens_closed a = true.
Proof.
  intros Hw. induction a as [|c a IH]; simpl; [reflexivity|].
  intros H. apply andb_true_iff in H. destruct H as [H1 H2].
  rewrite (IH H2), andb_true_r. now rewrite closes_spaces in H1.
Qed.

Lemma nl_is_lt : isLineTerminator nl = true.
Proof. reflexivity. Qed.

Lemma oc_join (ls : list jstring) :
  opens_closed (join [nl] ls) = forallb opens_closed ls.
Proof.
  induction ls as [|x ls IH]; [reflexivity|].
  destruct ls as [|y ls].
  - simpl. now rewrite andb_true_r.
  - rewrite join_cons by discriminate.
    change (x ++ [nl] ++ join [nl] (y :: ls)) with (x ++ nl :: join [nl] (y :: ls)).
    rewrite (oc_cut _ _ _ nl_is_lt), IH. reflexivity.
Qed.

Lemma forallb_filter (A : Type) (p q : A -> bool) (l : list A) :
  forallb p l = true -> forallb p (filter q l) = true.
Proof.
  induction l as [|x l IH]; simpl; [auto|].
  intros H. apply andb_true_iff in H. destruct H as [H1 H2].
  destruct (q x); simpl; [rewrite H1|]; auto.
Qed.

Lemma oc_cleanYaml (y : jstring) :
  opens_closed y = true -> opens_closed (cleanYaml y) = true.
Proof.
  intros H. unfold cleanYaml. rewrite oc_join. apply forallb_filter.
  now rewrite <- oc_join, join_split.
Qed.

(** ** The unclosed-expression pattern *)

Lemma star_unclosed (k : cont) :
  (forall st, k st = if at_eol true st then Some st else None) ->
  forall s pv,
    match star_greedy (except "}"%char) k pv s [] with
    | Some r =>
        exists n, last_eol s = Some n /\ n <= List.length s /\
                  List.length (rest r) = List.length s - n /\ caps r = []
    | None => last_eol s = None
    end.
Proof.
  intros Hk. induction s as [|c s IH]; intros pv.
  - cbn [star_greedy]. rewrite Hk. simpl. exists 0. auto.
  - specialize (IH (Some c)). revert IH. cbn [star_greedy last_eol].
    destruct (except "}"%char c) eqn:Hc.
    + destruct (star_greedy _ _ (Some c) s []) as [r|]; intros IH.
      * destruct IH as (n & -> & Hn & Hl & Hcs). exists (S n).
        repeat split; simpl; auto; lia.
      * rewrite IH, Hk. unfold at_eol. simpl. destruct (isLineTerminator c).
        -- exists 0. simpl. repeat split; auto; lia.
        -- reflexivity.
    + intros _. rewrite Hk. unfold at_eol. simpl. destruct (isLineTerminator c).
      * exists 0. simpl. repeat split; auto; lia.
      * reflexivity.
Qed.

Lemma rexec_unclosed (pv : option char) (s : jstring) :
  rexec re_unclosed pv s = unclosed_match s.
Proof.
  unfold rexec, re_unclosed, unclosed_match. cbn [rmatch rest prev caps].
  destruct s as [|c s]; [reflexivity|].
  destruct (only "{"%char c); [|reflexivity].
  match goal with
  | |- context [star_greedy ?p ?k ?v ?t ?cs] =>
      pose proof (star_unclosed k (fun st => eq_refl) t v) as H;
      destruct (star_greedy p k v t cs) as [r|]
  end.
  - destruct H as (n & -> & Hn & Hl & Hcs). rewrite Hl, Hcs.
    f_equal. f_equal. cbn [List.length]. lia.
  - now rewrite H.
Qed.

Lemma closes_after_none :
  forall s pv,
    last_eol s = None ->
    closes (replace_from re_unclosed (fun _ _ => []) pv s 0) = true.
Proof.
  induction s as [|c s IH]; intros pv H; [discriminate|].
  simpl in H. cbn [replace_from]. rewrite rexec_unclosed. unfold unclosed_match.
  unfold except in H. fold rbrace in H.
  destruct (ch_eqb rbrace c) eqn:Hr; simpl in H.
  - assert (only "{"%char c = false) as ->.
    { apply ch_eqb_eq in Hr. subst c. reflexivity. }
    simpl. now rewrite Hr.
  - destruct (last_eol s) eqn:Hl; [discriminate|].
    destruct (isLineTerminator c) eqn:Hlt; [discriminate|].
    assert (closes (c :: replace_from re_unclosed (fun _ _ => []) (Some c) s 0) = true) as Hgoal.
    { simpl. rewrite Hr, Hlt. now apply IH. }
    destruct (only "{"%char c); exact Hgoal.
Qed.

Lemma replace_unclosed_ok :
  forall s pv skip,
    opens_closed (replace_from re_unclosed (fun _ _ => []) pv s skip) = true.
Proof.
  induction s as [|c s IH]; intros pv skip.
  - destruct skip; reflexivity.
  - destruct skip as [|n]; cbn [replace_from]; [|apply IH].
    rewrite rexec_unclosed. unfold unclosed_match.
    destruct (only "{"%char c) eqn:Ho.
    + destruct (last_eol s) eqn:Hl.
      * simpl. apply IH.
      * simpl. rewrite IH, andb_true_r.
        destruct (ch_eqb lbrace c); [|reflexivity].
        now apply closes_after_none.
    + simpl. rewrite IH, andb_true_r.
      unfold only in Ho. fold lbrace in Ho. now rewrite Ho.
Qed.

Lemma dropUnclosed_ok (s : jstring) : opens_closed (dropUnclosed s) = true.
Proof. apply replace_unclosed_ok. Qed.

(** ** The frontmatter pattern *)

Lemma firstn_app_sub (A : Type) (a b : list A) :
  firstn (List.length (a ++ b) - List.length b) (a ++ b) = a.
Proof.
  rewrite length_app. replace (List.length a + List.length b - List.length b)
    with (List.length a + 0) by lia.
  rewrite firstn_app_2. simpl. apply app_nil_r.
Qed.

Lemma skipn_app_sub (A : Type) (a b : list A) :
  skipn (List.length (a ++ b) - List.length b) (a ++ b) = b.
Proof.
  rewrite length_app. replace (List.length a + List.length b - List.length b)
    with (List.length a) by lia.
  rewrite skipn_app, skipn_all, Nat.sub_diag. reflexivity.
Qed.

Lemma rexec_frontmatter (pv : option char) (s : jstring) n cs :
  rexec re_frontmatter pv s = Some (n, cs) ->
  at_bol true (MState pv s []) = true /\
  exists ws y post,
    s = js "---" ++ ws ++ nl :: y ++ nl :: js "---" ++ post /\
    skipn n s = post /\ cap 1 cs = y.
Proof.
  unfold rexec. destruct (rmatch re_frontmatter Some (MState pv s [])) as [r|] eqn:E;
    [|discriminate].
  intros H. inversion H; subst; clear H.
  apply rmatch_sound in E. destruct E as (st' & Hd & Hk). inversion Hk; subst; clear Hk.
  unfold re_frontmatter in Hd.
  destruct Hd as (m1 & [-> Hbol] & m2 & Hlit & Hd).
  destruct Hd as (m3 & (ws & Hws & _ & _) & m4 & (c & Hc & Hcnl & _) & Hd).
  destruct Hd as (m5 & (m6 & (y & Hy & _ & _) & ->) & Hlit2).
  apply den_RLit in Hlit, Hlit2. destruct Hlit as [Hl1 _]. destruct Hlit2 as [Hl2 Hcs].
  apply ch_eqb_eq in Hcnl. subst c.
  cbn [rest caps set_cap] in *.
  split; [exact Hbol|].
  exists ws, y, (rest r).
  assert (s = js "---" ++ ws ++ nl :: y ++ nl :: js "---" ++ rest r) as Hs.
  { rewrite Hl1, Hws, Hc, Hy, Hl2. reflexivity. }
  split; [exact Hs|]. split.
  - rewrite Hs at 2.
    replace (js "---" ++ ws ++ nl :: y ++ nl :: js "---" ++ rest r)
      with ((js "---" ++ ws ++ nl :: y ++ nl :: js "---") ++ rest r)
      by (repeat (rewrite <- app_assoc; simpl); reflexivity).
    rewrite Hs at 1.
    replace (js "---" ++ ws ++ nl :: y ++ nl :: js "---" ++ rest r)
      with ((js "---" ++ ws ++ nl :: y ++ nl :: js "---") ++ rest r) at 1
      by (repeat (rewrite <- app_assoc; simpl); reflexivity).
    apply skipn_app_sub.
  - rewrite Hcs. cbn [cap Nat.eqb]. unfold consumed. cbn [rest].
    rewrite Hy. apply firstn_app_sub.
Qed.

Lemma after_snoc (pre : jstring) (c : char) : after (pre ++ [c]) (Some c).
Proof. exists pre. reflexivity. Qed.

Lemma oc_dashes_after (pre x x' : jstring) (pv : option char) :
  after pre pv -> at_bol true (MState pv x' []) = true ->
  opens_closed (pre ++ js "---" ++ x) = true ->
  opens_closed (pre ++ js "---") = true.
Proof.
  unfold after, at_bol. cbn [prev]. destruct pv as [c|].
  - intros [p ->] Hc. simpl in Hc. rewrite <- !app_assoc. simpl.
    rewrite !(oc_cut _ _ _ Hc). intros H. apply andb_true_iff in H.
    destruct H as [-> _]. reflexivity.
  - intros -> _ _. reflexivity.
Qed.

Lemma replace_frontmatter_ok :
  forall s pre pv,
    after pre pv ->
    opens_closed (pre ++ s) = true ->
    opens_closed
      (pre ++ replace_first_from re_frontmatter
         (fun _ cs => js "---" ++ [nl] ++ cleanYaml (cap 1 cs) ++ [nl] ++ js "---")
         pv s) = true.
Proof.
  induction s as [|c s IH]; intros pre pv Hpre H; cbn [replace_first_from].
  - destruct (rexec re_frontmatter pv []) as [[n cs]|] eqn:E; [|exact H].
    apply rexec_frontmatter in E. destruct E as (_ & ws & y & post & Hs & _).
    apply (f_equal (@List.length char)) in Hs. simpl in Hs. discriminate.
  - destruct (rexec re_frontmatter pv (c :: s)) as [[n cs]|] eqn:E.
    + apply rexec_frontmatter in E.
      destruct E as (Hbol & ws & y & post & Hs & -> & ->).
      rewrite Hs in H.
      assert (opens_closed (pre ++ js "---") = true) as H1.
      { eapply oc_dashes_after; [exact Hpre|exact Hbol|exact H]. }
      replace (pre ++ js "---" ++ ws ++ nl :: y ++ nl :: js "---" ++ post)
        with ((pre ++ js "---" ++ ws) ++ nl :: y ++ nl :: js "---" ++ post) in H
        by (rewrite <- !app_assoc; reflexivity).
      rewrite (oc_cut _ _ _ nl_is_lt), (oc_cut _ _ _ nl_is_lt) in H.
      apply andb_true_iff in H. destruct H as [_ H].
      apply andb_true_iff in H. destruct H as [Hy Hpost].
      replace (pre ++ (js "---" ++ [nl] ++ cleanYaml y ++ [nl] ++ js "---") ++ post)
        with ((pre ++ js "---") ++ nl :: cleanYaml y ++ nl :: js "---" ++ post)
        by (repeat (rewrite <- app_assoc; simpl); reflexivity).
      rewrite (oc_cut _ _ _ nl_is_lt), (oc_cut _ _ _ nl_is_lt).
      rewrite H1, (oc_cleanYaml _ Hy), Hpost. reflexivity.
    + replace (pre ++ c :: replace_first_from re_frontmatter
         (fun _ cs => js "---" ++ [nl] ++ cleanYaml (cap 1 cs) ++ [nl] ++ js "---")
         (Some c) s)
        with ((pre ++ [c]) ++ replace_first_from re_frontmatter
         (fun _ cs => js "---" ++ [nl] ++ cleanYaml (cap 1 cs) ++ [nl] ++ js "---")
         (Some c) s)
        by (rewrite <- app_assoc; reflexivity).
      apply IH; [apply after_snoc|]. now rewrite <- app_assoc.
Qed.

Lemma cleanFrontmatter_ok (s : jstring) :
  opens_closed s = true -> opens_closed (cleanFrontmatter s) = true.
Proof.
  intros H. apply (replace_frontmatter_ok s [] None); [reflexivity|exact H].
Qed.

Lemma trim_ok (s : jstring) : opens_closed s = true -> opens_closed (trim s) = true.
Proof.
  intros H. unfold trim.
  destruct (trimStart_suffix s) as (w & Hw & _).
  destruct (trimEnd_prefix (trimStart s)) as (w' & Hw' & Hs').
  rewrite Hw in H. apply oc_suffix in H. rewrite Hw' in H.
  now apply oc_strip in H.
Qed.

Lemma sanitize_opens_closed (s : jstring) :
  opens_closed (sanitizeMDXContent s) = true.
Proof.
  unfold sanitizeMDXContent. destruct s as [|c s]; [reflexivity|].
  apply trim_ok, cleanFrontmatter_ok, dropUnclosed_ok.
Qed.

Lemma closes_index (s : jstring) :
  closes s = true ->
  exists j, nth_error s j = Some rbrace /\
            forall k c, k < j -> nth_error s k = Some c -> isLineTerminator c = false.
Proof.
  induction s as [|x s IH]; simpl; [discriminate|].
  destruct (ch_eqb rbrace x) eqn:Hx.
  - intros _. exists 0. apply ch_eqb_eq in Hx. subst x.
    split; [reflexivity|]. intros k c Hk. lia.
  - destruct (isLineTerminator x) eqn:Hlt; [discriminate|].
    intros H. destruct (IH H) as (j & Hj & Hbetween). exists (S j).
    split; [exact Hj|]. intros [|k] c Hk Hc; simpl in Hc.
    + inversion Hc; subst. exact Hlt.
    + apply (Hbetween k); [lia|exact Hc].
Qed.

Lemma opens_closed_index (s : jstring) :
  opens_closed s = true ->
  forall i, nth_error s i = Some lbrace ->
  exists j, i < j /\ nth_error s j = Some rbrace /\
            forall k c, i < k < j -> nth_error s k = Some c -> isLineTerminator c = false.
Proof.
  induction s as [|x s IH]; intros H [|i] Hi; simpl in *; try discriminate.
  - inversion Hi; subst x. change (ch_eqb lbrace lbrace) with true in H.
    apply andb_true_iff in H. destruct H as [H _].
    destruct (closes_index _ H) as (j & Hj & Hb). exists (S j).
    split; [lia|]. split; [exact Hj|].
    intros [|k] c Hk Hc; [lia|]. simpl in Hc. apply (Hb k); [lia|exact Hc].
  - apply andb_true_iff in H. destruct H as [_ H].
    destruct (IH H i Hi) as (j & Hij & Hj & Hb). exists (S j).
    split; [lia|]. split; [exact Hj|].
    intros [|k] c Hk Hc; [lia|]. simpl in Hc. apply (Hb k); [lia|exact Hc].
Qed.

End SanitizerFacts.

(** * The classifier and the navigation order *)

Module ClassifierFacts.
Import FileClassifier.

Lemma str_eqb_eq (a b : jstring) : str_eqb a b = true <-> a = b.
Proof.
  revert b. induction a as [|x a IH]; intros [|y b]; simpl;
    try (split; [discriminate|discriminate]); [tauto|].
  rewrite andb_true_iff, RegexFacts.ch_eqb_eq, IH. split.
  - intros [-> ->]. reflexivity.
  - intros H. inversion H. auto.
Qed.

Lemma str_eqb_refl (a : jstring) : str_eqb a a = true.
Proof. now apply str_eqb_eq. Qed.

Lemma lookup_found (A : Type) (k : jstring) (l : list (jstring * A)) (v : A) :
  lookup k l = Some v -> In (k, v) l.
Proof.
  induction l as [|[k' x] l IH]; simpl; [discriminate|].
  destruct (str_eqb k k') eqn:E.
  - apply str_eqb_eq in E. subst k'. intros H. inversion H. auto.
  - auto.
Qed.

(** Every label the classifier returns belongs to the closed set. *)
Lemma classify_in_labels (P : platform) (filePath content : jstring) :
  In (classify filePath content) labels.
Proof.
  unfold classify.
  repeat match goal with
         | |- In (if ?b then _ else _) _ => destruct b
         end;
    vm_compute; tauto.
Qed.

End ClassifierFacts.

(** * Reasoning about computations *)

Module MonadFacts.
Import Scanner Frames.

Create HintDb quiet.
Create HintDb date_only.

Section MonadFacts.
Context {P : platform}.

(** ** Computations that leave the file system alone *)

Lemma quiet_ret (A : Type) (a : A) : quiet (ret a).
Proof. intros w. auto. Qed.

Lemma quiet_throw (A : Type) (e : jstring) : quiet (throw (A := A) e).
Proof. intros w. auto. Qed.

Lemma quiet_lift (A : Type) (r : result A) : quiet (lift r).
Proof. intros w. auto. Qed.

Lemma quiet_bind (A B : Type) (m : M A) (k : A -> M B) :
  quiet m -> (forall a, quiet (k a)) -> quiet (bind m k).
Proof.
  intros Hm Hk w. unfold bind. specialize (Hm w).
  destruct (m w) as [[a|e] w']; simpl in *.
  - destruct (Hk a w') as [H1 H2]. rewrite H1, H2. exact Hm.
  - exact Hm.
Qed.

Lemma quiet_try_catch (A : Type) (m : M A) (h : jstring -> M A) :
  quiet m -> (forall e, quiet (h e)) -> quiet (try_catch m h).
Proof.
  intros Hm Hh w. unfold try_catch. specialize (Hm w).
  destruct (m w) as [[a|e] w']; simpl in *.
  - exact Hm.
  - destruct (Hh e w') as [H1 H2]. rewrite H1, H2. exact Hm.
Qed.

Lemma quiet_when (b : bool) (m : M unit) : (b = true -> quiet m) -> quiet (when b m).
Proof. destruct b; simpl; [auto|intros _; apply quiet_ret]. Qed.

Lemma quiet_forEach (A : Type) (xs : list A) (body : A -> M unit) :
  (forall x, quiet (body x)) -> quiet (forEach xs body).
Proof.
  intros Hb. induction xs as [|x xs IH]; simpl.
  - apply quiet_ret.
  - apply quiet_bind; auto.
Qed.

Lemma quiet_foldM (A S : Type) (xs : list A) (body : A -> S -> M S) (s : S) :
  (forall x s, quiet (body x s)) -> quiet (foldM xs body s).
Proof.
  intros Hb. revert s. induction xs as [|x xs IH]; intros s; simpl.
  - apply quiet_ret.
  - apply quiet_bind; auto.
Qed.

Lemma quiet_loopTry (A S : Type) (xs : list A) (body : A -> S -> M S) (s : S) :
  (forall x s, quiet (body x s)) -> quiet (loopTry xs body s).
Proof.
  intros Hb. revert s. induction xs as [|x xs IH]; intros s w; simpl.
  - auto.
  - specialize (Hb x s w). destruct (body x s w) as [[s'|e] w']; simpl in *.
    + destruct (IH s' w') as [H1 H2]. rewrite H1, H2. exact Hb.
    + exact Hb.
Qed.

Lemma quiet_now : quiet now.
Proof. intros w. auto. Qed.

Lemma quiet_console_log (line : jstring) : quiet (console_log line).
Proof. intros w. auto. Qed.

Lemma quiet_get_stats : quiet get_stats.
Proof. intros w. auto. Qed.

Lemma quiet_set_stats (s : LoggerStats) : quiet (set_stats s).
Proof. intros w. auto. Qed.

Lemma quiet_get_navigation : quiet get_navigation.
Proof. intros w. auto. Qed.

Lemma quiet_set_navigation n : quiet (set_navigation n).
Proof. intros w. auto. Qed.

Lemma quiet_access (p : jstring) : quiet (access p).
Proof. intros w. auto. Qed.

Lemma quiet_stat (p : jstring) : quiet (stat p).
Proof. intros w. auto. Qed.

Lemma quiet_readFile (p : jstring) : quiet (readFile p).
Proof. intros w. auto. Qed.

End MonadFacts.

#[export] Hint Resolve quiet_ret quiet_throw quiet_lift quiet_bind quiet_try_catch
  quiet_forEach quiet_foldM quiet_loopTry quiet_now quiet_console_log
  quiet_get_stats quiet_set_stats quiet_get_navigation quiet_set_navigation
  quiet_access quiet_stat quiet_readFile : quiet.
#[export] Hint Extern 2 (quiet (when _ _)) =>
  apply quiet_when; intros; try discriminate : quiet.
#[export] Hint Extern 3 (quiet (if ?b then _ else _)) => destruct b : quiet.
#[export] Hint Extern 3 (quiet (match ?x with _ => _ end)) => destruct x : quiet.

Section QuietScanner.
Context {P : platform}.

Lemma quiet_today : quiet today.
Proof. unfold today. auto with quiet. Qed.

Lemma quiet_log (verbose : bool) (message : jstring) (l : level) :
  quiet (log verbose message l).
Proof. unfold log. auto 10 with quiet. Qed.

Lemma quiet_printStats : quiet printStats.
Proof. unfold printStats. auto 10 with quiet. Qed.

Lemma quiet_pathExists (p : jstring) : quiet (pathExists p).
Proof. unfold pathExists. auto with quiet. Qed.

Lemma quiet_addProject (projectName : jstring) (files : list nav_file) :
  quiet (addProject projectName files).
Proof. unfold addProject. auto with quiet. Qed.

Lemma quiet_set_projectsFound (n : Z) : quiet (set_projectsFound n).
Proof. unfold set_projectsFound. auto with quiet. Qed.

End QuietScanner.

#[export] Hint Resolve quiet_today quiet_log quiet_printStats quiet_pathExists
  quiet_addProject quiet_set_projectsFound : quiet.
#[export] Hint Extern 1 (quiet (debug _ _)) => unfold debug : quiet.
#[export] Hint Extern 1 (quiet (info _ _)) => unfold info : quiet.
#[export] Hint Extern 1 (quiet (error _ _)) => unfold error : quiet.

(** ** Computations that see the clock through the date only *)

Section DateOnly.
Context {P : platform}.

Ltac same_day_prim :=
  intros w1 w2 (Hfs & Hwr & Hst & Hnav & Htick & Hclock);
  unfold same_day; cbn; rewrite ?Hfs, ?Hwr, ?Hst, ?Hnav, ?Htick; auto 10.

Lemma date_only_ret (A : Type) (a : A) : date_only (ret a).
Proof. intros w1 w2 H. auto. Qed.

Lemma date_only_throw (A : Type) (e : jstring) : date_only (throw (A := A) e).
Proof. intros w1 w2 H. auto. Qed.

Lemma date_only_lift (A : Type) (r : result A) : date_only (lift r).
Proof. intros w1 w2 H. auto. Qed.

Lemma date_only_bind (A B : Type) (m : M A) (k : A -> M B) :
  date_only m -> (forall a, date_only (k a)) -> date_only (bind m k).
Proof.
  intros Hm Hk w1 w2 H. unfold bind. specialize (Hm w1 w2 H).
  destruct (m w1) as [[a1|e1] w1'], (m w2) as [[a2|e2] w2']; simpl in *;
    destruct Hm as [Hr Hw]; inversion Hr; subst; auto.
  now apply Hk.
Qed.

Lemma date_only_try_catch (A : Type) (m : M A) (h : jstring -> M A) :
  date_only m -> (forall e, date_only (h e)) -> date_only (try_catch m h).
Proof.
  intros Hm Hh w1 w2 H. unfold try_catch. specialize (Hm w1 w2 H).
  destruct (m w1) as [[a1|e1] w1'], (m w2) as [[a2|e2] w2']; simpl in *;
    destruct Hm as [Hr Hw]; inversion Hr; subst; auto.
  now apply Hh.
Qed.

Lemma date_only_when (b : bool) (m : M unit) : date_only m -> date_only (when b m).
Proof. destruct b; simpl; [auto|intros _; apply date_only_ret]. Qed.

Lemma date_only_forEach (A : Type) (xs : list A) (body : A -> M unit) :
  (forall x, date_only (body x)) -> date_only (forEach xs body).
Proof.
  intros Hb. induction xs as [|x xs IH]; simpl.
  - apply date_only_ret.
  - apply date_only_bind; auto.
Qed.

Lemma date_only_foldM (A S : Type) (xs : list A) (body : A -> S -> M S) (s : S) :
  (forall x s, date_only (body x s)) -> date_only (foldM xs body s).
Proof.
  intros Hb. revert s. induction xs as [|x xs IH]; intros s; simpl.
  - apply date_only_ret.
  - apply date_only_bind; auto.
Qed.

Lemma date_only_loopTry (A S : Type) (xs : list A) (body : A -> S -> M S) (s : S) :
  (forall x s, date_only (body x s)) -> date_only (loopTry xs body s).
Proof.
  intros Hb. revert s. induction xs as [|x xs IH]; intros s w1 w2 H; simpl.
  - auto.
  - specialize (Hb x s w1 w2 H).
    destruct (body x s w1) as [[a1|e1] w1'], (body x s w2) as [[a2|e2] w2']; simpl in *;
      destruct Hb as [Hr Hw]; inversion Hr; subst; auto.
    now apply IH.
Qed.

Lemma date_only_today : date_only today.
Proof.
  intros w1 w2 (Hfs & Hwr & Hst & Hnav & Htick & Hclock).
  unfold today, bind, now, ret, same_day. cbn.
  rewrite Htick, (Hclock (w_tick w2)). auto 10.
Qed.

Lemma date_only_console_log (line : jstring) : date_only (console_log line).
Proof. same_day_prim. Qed.

Lemma date_only_get_stats : date_only get_stats.
Proof. same_day_prim. Qed.

Lemma date_only_set_stats (s : LoggerStats) : date_only (set_stats s).
Proof. same_day_prim. Qed.

Lemma date_only_get_navigation : date_only get_navigation.
Proof. same_day_prim. Qed.

Lemma date_only_set_navigation n : date_only (set_navigation n).
Proof. same_day_prim. Qed.

Lemma date_only_access (p : jstring) : date_only (access p).
Proof. same_day_prim. Qed.

Lemma date_only_stat (p : jstring) : date_only (stat p).
Proof. same_day_prim. Qed.

Lemma date_only_readFile (p : jstring) : date_only (readFile p).
Proof. same_day_prim. Qed.

Lemma date_only_mkdir (p : jstring) : date_only (mkdir p).
Proof.
  intros w1 w2 (Hfs & Hwr & Hst & Hnav & Htick & Hclock).
  unfold mkdir, same_day. rewrite Hfs, Hwr.
  destruct (fs_mkdir (w_fs w2) p) as [r fs']. cbn. auto 10.
Qed.

Lemma date_only_writeFile (p content : jstring) : date_only (writeFile p content).
Proof.
  intros w1 w2 (Hfs & Hwr & Hst & Hnav & Htick & Hclock).
  unfold writeFile, same_day. rewrite Hfs, Hwr.
  destruct (fs_writeFile (w_fs w2) p content) as [r fs']. cbn. auto 10.
Qed.

(** A log line carries the time of day, but only the console sees it. *)
Lemma date_only_log (verbose : bool) (message : jstring) (l : level) :
  date_only (log verbose message l).
Proof.
  intros w1 w2 (Hfs & Hwr & Hst & Hnav & Htick & Hclock).
  unfold log, bind, now, when, console_log, get_stats, set_stats, ret, same_day.
  destruct l, verbose; cbn; rewrite ?Hfs, ?Hwr, ?Hst, ?Hnav, ?Htick; auto 10.
Qed.

Lemma date_only_pathExists (p : jstring) : date_only (pathExists p).
Proof.
  unfold pathExists. apply date_only_try_catch.
  - apply date_only_bind; [apply date_only_access|intros; apply date_only_ret].
  - intros; apply date_only_ret.
Qed.

Lemma date_only_addProject (projectName : jstring) (files : list nav_file) :
  date_only (addProject projectName files).
Proof.
  unfold addProject. apply date_only_bind;
    [apply date_only_get_navigation|intros; apply date_only_set_navigation].
Qed.

End DateOnly.

#[export] Hint Resolve date_only_ret date_only_throw date_only_lift date_only_bind
  date_only_try_catch date_only_when date_only_forEach date_only_foldM
  date_only_loopTry date_only_today date_only_console_log date_only_get_stats
  date_only_set_stats date_only_get_navigation date_only_set_navigation
  date_only_access date_only_stat date_only_readFile date_only_mkdir
  date_only_writeFile date_only_log date_only_pathExists date_only_addProject
  : date_only.
#[export] Hint Extern 3 (date_only (if ?b then _ else _)) => destruct b : date_only.
#[export] Hint Extern 3 (date_only (match ?x with _ => _ end)) => destruct x : date_only.
#[export] Hint Extern 1 (date_only (debug _ _)) => unfold debug : date_only.
#[export] Hint Extern 1 (date_only (info _ _)) => unfold info : date_only.
#[export] Hint Extern 1 (date_only (error _ _)) => unfold error : date_only.

End MonadFacts.

(** * The selective scanner *)

Module SelectiveFacts.
Import FileClassifier Sanitizer Scanner Selective Frames MonadFacts.

Section SelectiveFacts.
Context {P : platform}.
Variable options : Options.

(** ** Reading never changes the file system *)

Lemma quiet_glob (pattern : jstring) : quiet (glob pattern).
Proof. unfold glob. auto with quiet. Qed.

Lemma quiet_scanMatchedFile project filePath files :
  quiet (scanMatchedFile project filePath files).
Proof. unfold scanMatchedFile. auto 10 with quiet. Qed.

Lemma quiet_scanPattern project pattern files :
  quiet (scanPattern options project pattern files).
Proof.
  unfold scanPattern. pose proof quiet_glob. pose proof quiet_scanMatchedFile.
  auto 10 with quiet.
Qed.

Lemma quiet_scanSelectiveProjectFiles project :
  quiet (scanSelectiveProjectFiles options project).
Proof.
  unfold scanSelectiveProjectFiles. pose proof quiet_scanPattern.
  auto 10 with quiet.
Qed.

Lemma quiet_generateCleanFrontmatter project documentType source :
  quiet (generateCleanFrontmatter project documentType source).
Proof. unfold generateCleanFrontmatter. auto with quiet. Qed.

Lemma quiet_generateIntroductionContent project files :
  quiet (generateIntroductionContent project files).
Proof. unfold generateIntroductionContent. auto with quiet. Qed.

Lemma quiet_validateMDXSyntax content : quiet (validateMDXSyntax options content).
Proof. unfold validateMDXSyntax. auto 10 with quiet. Qed.

Lemma quiet_selectContent project files documentType :
  quiet (selectContent project files documentType).
Proof.
  unfold selectContent. pose proof quiet_generateIntroductionContent.
  auto 10 with quiet.
Qed.

(** ** Patterns are looked up as literal paths *)

Lemma glob_literal (pattern : jstring) (w : World) :
  glob pattern w =
  (Ok (if fs_access (w_fs w) pattern then [pattern] else []), w).
Proof.
  unfold glob, pathExists, try_catch, bind, access, ret.
  destruct (fs_access (w_fs w) pattern); reflexivity.
Qed.

Lemma log_eq (verbose : bool) (message : jstring) (l : level) (w : World) :
  log verbose message l w = (Ok tt, snd (log verbose message l w)).
Proof.
  unfold log, bind, now, when, console_log, get_stats, set_stats, ret.
  destruct l, verbose; reflexivity.
Qed.

Lemma scanPattern_literal project pattern files w files' w' :
  scanPattern options project pattern files w = (Ok files', w') ->
  files' = files \/
  exists f, files' = files ++ [f] /\ sf_path f = path_join (p_path project) pattern.
Proof.
  unfold scanPattern, bind. rewrite glob_literal.
  destruct (fs_access (w_fs w) (path_join (p_path project) pattern)).
  - cbn [loopTry]. unfold scanMatchedFile, bind, ret.
    destruct (existsb _ (p_skipPatterns project)).
    + cbn [fst snd]. intros H. inversion H. auto.
    + unfold stat at 1.
      destruct (fs_stat (w_fs w) (path_join (p_path project) pattern)) as [st|e].
      * destruct (st_isFile st).
        -- unfold readFile at 1.
           destruct (fs_readFile (w_fs w) (path_join (p_path project) pattern)) as [c|e].
           ++ cbn [fst snd]. intros H. inversion H. right. eexists. split; reflexivity.
           ++ cbn [fst snd]. unfold debug. rewrite log_eq.
              intros H. inversion H. auto.
        -- cbn [fst snd]. intros H. inversion H. auto.
      * cbn [fst snd]. unfold debug. rewrite log_eq. intros H. inversion H. auto.
  - cbn [loopTry fst snd]. unfold ret. intros H. inversion H. auto.
Qed.

Lemma scanPattern_missing project pattern files w :
  fs_access (w_fs w) (path_join (p_path project) pattern) = false ->
  scanPattern options project pattern files w = (Ok files, w).
Proof.
  intros H. unfold scanPattern, bind. rewrite glob_literal, H. reflexivity.
Qed.

(** ** A dry run *)

Hypothesis dry : opt_dryRun options = true.

Lemma quiet_generateSelectiveDocument project files documentType outputDir :
  quiet (generateSelectiveDocument options project files documentType outputDir).
Proof.
  unfold generateSelectiveDocument. rewrite dry.
  pose proof quiet_selectContent. pose proof quiet_generateCleanFrontmatter.
  pose proof quiet_validateMDXSyntax.
  auto 20 with quiet.
Qed.

Lemma quiet_generateOne project files outputDir documentType processedFiles :
  quiet (generateOne options project files outputDir documentType processedFiles).
Proof.
  unfold generateOne. pose proof quiet_generateSelectiveDocument.
  auto 10 with quiet.
Qed.

Lemma quiet_processSelectiveProject project :
  quiet (processSelectiveProject options project).
Proof.
  unfold processSelectiveProject. rewrite dry.
  pose proof quiet_scanSelectiveProjectFiles. pose proof quiet_generateOne.
  auto 20 with quiet.
Qed.

Lemma quiet_selectProject projectConfig selectedProjects :
  quiet (selectProject options projectConfig selectedProjects).
Proof. unfold selectProject. auto 10 with quiet. Qed.

Lemma quiet_scan (projects : list ProjectConfig) : quiet (scan options projects).
Proof.
  unfold scan. rewrite dry.
  pose proof quiet_selectProject. pose proof quiet_processSelectiveProject.
  auto 20 with quiet.
Qed.

End SelectiveFacts.

Section SelectiveDates.
Context {P : platform}.
Variable options : Options.

(** ** Generation depends on the clock through the date only *)

Lemma date_only_glob (pattern : jstring) : date_only (glob pattern).
Proof. unfold glob. auto with date_only. Qed.

Lemma date_only_scanMatchedFile project filePath files :
  date_only (scanMatchedFile project filePath files).
Proof. unfold scanMatchedFile. auto 10 with date_only. Qed.

Lemma date_only_scanPattern project pattern files :
  date_only (scanPattern options project pattern files).
Proof.
  unfold scanPattern. pose proof date_only_glob. pose proof date_only_scanMatchedFile.
  auto 10 with date_only.
Qed.

Lemma date_only_scanSelectiveProjectFiles project :
  date_only (scanSelectiveProjectFiles options project).
Proof.
  unfold scanSelectiveProjectFiles. pose proof date_only_scanPattern.
  auto 10 with date_only.
Qed.

Lemma date_only_generateCleanFrontmatter project documentType source :
  date_only (generateCleanFrontmatter project documentType source).
Proof. unfold generateCleanFrontmatter. auto with date_only. Qed.

Lemma date_only_generateIntroductionContent project files :
  date_only (generateIntroductionContent project files).
Proof. unfold generateIntroductionContent. auto with date_only. Qed.

Lemma date_only_validateMDXSyntax content :
  date_only (validateMDXSyntax options content).
Proof. unfold validateMDXSyntax. auto 10 with date_only. Qed.

Lemma date_only_selectContent project files documentType :
  date_only (selectContent project files documentType).
Proof.
  unfold selectContent. pose proof date_only_generateIntroductionContent.
  auto 10 with date_only.
Qed.

Lemma date_only_generateSelectiveDocument project files documentType outputDir :
  date_only (generateSelectiveDocument options project files documentType outputDir).
Proof.
  unfold generateSelectiveDocument.
  pose proof date_only_selectContent. pose proof date_only_generateCleanFrontmatter.
  pose proof date_only_validateMDXSyntax.
  auto 20 with date_only.
Qed.

Lemma date_only_generateOne project files outputDir documentType processedFiles :
  date_only (generateOne options project files outputDir documentType processedFiles).
Proof.
  unfold generateOne. pose proof date_only_generateSelectiveDocument.
  auto 10 with date_only.
Qed.

Lemma date_only_processSelectiveProject project :
  date_only (processSelectiveProject options project).
Proof.
  unfold processSelectiveProject.
  pose proof date_only_scanSelectiveProjectFiles. pose proof date_only_generateOne.
  auto 20 with date_only.
Qed.

End SelectiveDates.

Section Generation.
Context {P : platform}.
Variable options : Options.

(** ** What [generateSelectiveDocument] does for a file-backed type *)

Lemma bind_ok {A B : Type} {m : M A} (k : A -> M B) {w : World} {a : A} :
  fst (m w) = Ok a -> bind m k w = k a (snd (m w)).
Proof. unfold bind. destruct (m w) as [r w']. simpl. now intros ->. Qed.

Lemma bind_err {A B : Type} {m : M A} (k : A -> M B) {w : World} {e : jstring} :
  fst (m w) = Err e -> bind m k w = (Err e, snd (m w)).
Proof. unfold bind. destruct (m w) as [r w']. simpl. now intros ->. Qed.

Lemma writeFile_fst (p content : jstring) (w : World) :
  fst (writeFile p content w) = fst (fs_writeFile (w_fs w) p content).
Proof. unfold writeFile. now destruct (fs_writeFile (w_fs w) p content). Qed.

Lemma writeFile_writes (p content : jstring) (w : World) :
  w_writes (snd (writeFile p content w)) = w_writes w ++ [OpWriteFile p content].
Proof. unfold writeFile. now destruct (fs_writeFile (w_fs w) p content). Qed.

Lemma log_fst (verbose : bool) (message : jstring) (l : level) (w : World) :
  fst (log verbose message l w) = Ok tt.
Proof. now rewrite log_eq. Qed.

Ltac compare_literals :=
  repeat match goal with
         | |- context [str_eqb (js ?a) (js ?b)] =>
             let v := eval vm_compute in (str_eqb (js a) (js b)) in
             change (str_eqb (js a) (js b)) with v
         end.

Lemma selectContent_eq project files documentType w :
  In documentType [js "readme"; js "architecture"; js "development"] ->
  selectContent project files documentType w =
  (Ok (documentBody project documentType files (beforeT (w_clock w (w_tick w))),
       matchingSource documentType files), w).
Proof.
  intros [<-|[<-|[<-|[]]]];
    unfold selectContent, documentBody, matchingSource, syntheticDocument, find_file;
    compare_literals; cbv iota; reflexivity.
Qed.

Lemma selectContent_introduction project files w :
  selectContent project files (js "introduction") w =
  (Ok (documentBody project (js "introduction") files (beforeT (w_clock w (w_tick w))),
       matchingSource (js "introduction") files), snd (now w)).
Proof. reflexivity. Qed.

Lemma selectContent_unsupported project files documentType w :
  ~ In documentType supportedTypes ->
  selectContent project files documentType w =
  (Err (js "this.logger.warn is not a function"), w).
Proof.
  intros Hnot. unfold selectContent.
  repeat match goal with
         | |- context [str_eqb documentType ?t] =>
             let E := fresh "E" in
             destruct (str_eqb documentType t) eqn:E;
             [apply ClassifierFacts.str_eqb_eq in E; subst documentType;
              elim Hnot; unfold supportedTypes; simpl; tauto|clear E]
         end.
  reflexivity.
Qed.

Lemma generateCleanFrontmatter_eq project documentType source w :
  generateCleanFrontmatter project documentType source w =
  (Ok (frontmatterText project documentType source (beforeT (w_clock w (w_tick w)))),
   snd (now w)).
Proof. reflexivity. Qed.

Lemma validateMDXSyntax_fst content w :
  fst (validateMDXSyntax options content w) =
  Ok (match mdxIssues content with [] => true | _ :: _ => false end).
Proof.
  unfold validateMDXSyntax, try_catch, when.
  destruct (negb _).
  - unfold debug. rewrite (bind_ok _ (log_fst _ _ _ _)).
    destruct (mdxIssues content); [reflexivity|].
    rewrite (bind_ok _ (log_fst _ _ _ _)). reflexivity.
  - unfold bind at 1, ret at 1.
    destruct (mdxIssues content); [reflexivity|].
    unfold debug. rewrite (bind_ok _ (log_fst _ _ _ _)). reflexivity.
Qed.

Lemma log_clock verbose message l w :
  w_clock (snd (log verbose message l w)) = w_clock w /\
  w_tick (snd (log verbose message l w)) = S (w_tick w).
Proof.
  unfold log, bind, now, when, console_log, get_stats, set_stats, ret.
  destruct l, verbose; split; reflexivity.
Qed.

(** From the assembled content on: the pre-check, the write and the
    result. *)
Lemma finish_document project documentType filePath finalContent w w2 :
  w_fs w2 = w_fs w -> w_writes w2 = w_writes w ->
  let document :=
    MkDoc documentType documentType
          (path_relative (js "./apps/docs") filePath)
          (path_relative (opt_outputDir options) filePath) in
  let r :=
    (valid <- validateMDXSyntax options finalContent ;;
     if valid then
       when (negb (opt_dryRun options)) (writeFile filePath finalContent) ;;;
       debug (opt_verbose options)
             (js "Generated " ++ (documentType ++ js ".mdx") ++ js " for " ++
              p_displayName project) ;;;
       ret (Some document)
     else
       error (opt_verbose options)
             (js "MDX validation failed for " ++ (documentType ++ js ".mdx") ++
              js " in " ++ p_displayName project) ;;;
       ret None) w2 in
  (mdxIssues finalContent = [] ->
   fst r = match (if opt_dryRun options then Ok tt
                  else fst (fs_writeFile (w_fs w) filePath finalContent)) with
           | Ok _ => Ok (Some document)
           | Err e => Err e
           end /\
   w_writes (snd r) =
     w_writes w ++ (if opt_dryRun options then []
                    else [OpWriteFile filePath finalContent])) /\
  (mdxIssues finalContent <> [] -> fst r = Ok None /\ w_writes (snd r) = w_writes w).
Proof.
  intros Hfs2 Hwr2 document r. subst r.
  rewrite (bind_ok _ (validateMDXSyntax_fst _ _)).
  set (w3 := snd (validateMDXSyntax options finalContent w2)).
  assert (w_fs w3 = w_fs w /\ w_writes w3 = w_writes w) as [Hfs Hwr].
  { subst w3. destruct (quiet_validateMDXSyntax options finalContent w2) as [H1 H2].
    rewrite H1, H2. auto. }
  split.
  - intros Hvalid. rewrite Hvalid.
    destruct (opt_dryRun options); cbn [negb when].
    + rewrite (bind_ok (m := ret tt) _ eq_refl).
      unfold debug. rewrite (bind_ok _ (log_fst _ _ _ _)).
      unfold ret. cbn [fst snd].
      match goal with
      | |- context [log ?v ?m ?l ?x] => destruct (quiet_log v m l x) as [_ H2]
      end.
      rewrite H2. cbn [snd w_writes]. rewrite Hwr, app_nil_r. auto.
    + pose proof (writeFile_fst filePath finalContent w3) as Hw.
      pose proof (writeFile_writes filePath finalContent w3) as Hws.
      rewrite Hfs in Hw. rewrite Hwr in Hws.
      destruct (fst (fs_writeFile (w_fs w) filePath finalContent)) as [[]|e].
      * rewrite (bind_ok _ Hw). unfold debug. rewrite (bind_ok _ (log_fst _ _ _ _)).
        unfold ret. cbn [fst snd].
        match goal with
        | |- context [log ?v ?m ?l ?x] => destruct (quiet_log v m l x) as [_ H2]
        end.
        rewrite H2. auto.
      * rewrite (bind_err _ Hw). cbn [fst snd]. auto.
  - intros Hinvalid. destruct (mdxIssues finalContent) as [|issue more]; [congruence|].
    unfold error. rewrite (bind_ok _ (log_fst _ _ _ _)). unfold ret. cbn [fst snd].
    match goal with
    | |- context [log ?v ?m ?l ?x] => destruct (quiet_log v m l x) as [_ H2]
    end.
    rewrite H2. auto.
Qed.

Lemma generateSelectiveDocument_spec project files documentType outputDir w :
  In documentType supportedTypes ->
  let source := matchingSource documentType files in
  let date n := beforeT (w_clock w (n + w_tick w)) in
  let finalContent :=
    frontmatterText project documentType source (date (readingsBefore documentType)) ++
    [nl; nl] ++ documentBody project documentType files (date 1) in
  let filePath := path_join outputDir (documentType ++ js ".mdx") in
  let document :=
    MkDoc documentType documentType
          (path_relative (js "./apps/docs") filePath)
          (path_relative (opt_outputDir options) filePath) in
  let r := generateSelectiveDocument options project files documentType outputDir w in
  (mdxIssues finalContent = [] ->
   fst r = match (if opt_dryRun options then Ok tt
                  else fst (fs_writeFile (w_fs w) filePath finalContent)) with
           | Ok _ => Ok (Some document)
           | Err e => Err e
           end /\
   w_writes (snd r) =
     w_writes w ++ (if opt_dryRun options then []
                    else [OpWriteFile filePath finalContent])) /\
  (mdxIssues finalContent <> [] -> fst r = Ok None /\ w_writes (snd r) = w_writes w).
Proof.
  intros Hin source date finalContent filePath document r.
  subst r. unfold generateSelectiveDocument, debug.
  rewrite (bind_ok _ (log_fst _ _ _ _)).
  set (w1 := snd (log (opt_verbose options)
                    (js "Generating " ++ documentType ++ js " for " ++
                     p_displayName project) Debug w)).
  destruct (log_clock (opt_verbose options)
              (js "Generating " ++ documentType ++ js " for " ++ p_displayName project)
              Debug w) as [Hclock Htick].
  destruct (quiet_log (opt_verbose options)
              (js "Generating " ++ documentType ++ js " for " ++ p_displayName project)
              Debug w) as [Hfs1 Hwr1].
  fold w1 in Hclock, Htick, Hfs1, Hwr1.
  destruct Hin as [<-|Hin].
  - rewrite (bind_ok _ (f_equal fst (selectContent_introduction _ _ _))).
    rewrite selectContent_introduction. cbn [fst snd].
    rewrite (bind_ok _ (f_equal fst (generateCleanFrontmatter_eq _ _ _ _))).
    rewrite generateCleanFrontmatter_eq. cbn [fst snd].
    set (w2 := snd (now (snd (now w1)))).
    change (w_clock (snd (now w1))) with (w_clock w1).
    change (w_tick (snd (now w1))) with (S (w_tick w1)).
    rewrite Hclock, Htick.
    exact (finish_document project (js "introduction") filePath finalContent w w2
             Hfs1 Hwr1).
  - rewrite (bind_ok _ (f_equal fst (selectContent_eq _ _ _ Hin))).
    rewrite (selectContent_eq _ _ _ Hin). cbn [fst snd].
    rewrite (bind_ok _ (f_equal fst (generateCleanFrontmatter_eq _ _ _ _))).
    rewrite generateCleanFrontmatter_eq. cbn [fst snd].
    set (w2 := snd (now w1)).
    rewrite Hclock, Htick.
    assert (readingsBefore documentType = 1) as Hone.
    { destruct Hin as [<-|[<-|[<-|[]]]]; reflexivity. }
    subst finalContent date. cbv beta. rewrite Hone.
    exact (finish_document project documentType filePath _ w w2 Hfs1 Hwr1).
Qed.

Lemma generateSelectiveDocument_unsupported project files documentType outputDir w :
  ~ In documentType supportedTypes ->
  let r := generateSelectiveDocument options project files documentType outputDir w in
  fst r = Err (js "this.logger.warn is not a function") /\
  w_writes (snd r) = w_writes w.
Proof.
  intros Hnot r. subst r. unfold generateSelectiveDocument, debug.
  rewrite (bind_ok _ (log_fst _ _ _ _)).
  rewrite (bind_err _ (f_equal fst (selectContent_unsupported _ _ _ Hnot))).
  rewrite (selectContent_unsupported _ _ _ Hnot). cbn [fst snd].
  split; [reflexivity|].
  match goal with
  | |- context [log ?v ?m ?l ?x] => destruct (quiet_log v m l x) as [_ H2]
  end.
  exact H2.
Qed.

End Generation.

End SelectiveFacts.

(** * The validator *)

Module ValidatorFacts.
Import Scanner Validator Frames.

Section ValidatorFacts.
Context {P : platform}.

Lemma returns_console_log (line : jstring) : returns (console_log line).
Proof. intros w. reflexivity. Qed.

Lemma returns_bind (m : M unit) (k : unit -> M unit) :
  returns m -> (forall u, returns (k u)) -> returns (bind m k).
Proof.
  intros Hm Hk w. unfold bind. specialize (Hm w).
  destruct (m w) as [[[]|e] w']; simpl in *; [apply Hk|discriminate].
Qed.

Lemma returns_when (b : bool) (m : M unit) : returns m -> returns (when b m).
Proof. destruct b; simpl; [auto|intros _ w; reflexivity]. Qed.

Lemma returns_forEach (A : Type) (xs : list A) (body : A -> M unit) :
  (forall x, returns (body x)) -> returns (forEach xs body).
Proof.
  intros Hb. induction xs as [|x xs IH]; simpl.
  - intros w. reflexivity.
  - apply returns_bind; auto.
Qed.

Lemma returns_printReport (st : State) : returns (printReport st).
Proof.
  unfold printReport.
  repeat (apply returns_bind; [apply returns_console_log|intros _]).
  destruct (errors st), (warnings st);
    repeat first [ apply returns_console_log
                 | apply returns_bind; [|intros _]
                 | apply returns_when
                 | apply returns_forEach; intros ].
Qed.

Lemma length_zero_iff (A : Type) (l : list A) :
  Nat.eqb (List.length l) 0 = true <-> l = [].
Proof. destruct l; simpl; split; auto; discriminate. Qed.

Variable options : Options.
Variable glob : FS -> jstring -> jstring -> result (list jstring).
Variables v1 v2 v3 v4 : State -> M State.

Lemma validate_report (st : State) (w w' : World) (r : Report) :
  validate options glob v1 v2 v3 v4 st w = (Ok r, w') ->
  success r = Nat.eqb (List.length (report_errors r)) 0.
Proof.
  unfold validate, bind. unfold console_log at 1.
  destruct (v1 st _) as [[st1|e] w1]; [|discriminate].
  destruct (v2 st1 w1) as [[st2|e] w2]; [|discriminate].
  destruct (v3 st2 w2) as [[st3|e] w3]; [|discriminate].
  destruct (validateFrontmatter options glob st3 w3) as [[st4|e] w4]; [|discriminate].
  destruct (v4 st4 w4) as [[st5|e] w5]; [|discriminate].
  destruct (printReport st5 w5) as [[[]|e] w6]; [|discriminate].
  unfold ret. intros H. inversion H. reflexivity.
Qed.

End ValidatorFacts.
End ValidatorFacts.

(** * More facts about strings and replacements *)

Module StringFacts.
Import RegexFacts Shapes.

(** ** Replacing single code units *)

Lemma rexec_char (p : char -> bool) (pv : option char) (s : jstring) :
  rexec (RChar p) pv s =
  match s with
  | c :: _ => if p c then Some (1, []) else None
  | [] => None
  end.
Proof.
  unfold rexec. cbn [rmatch rest caps]. destruct s as [|c s]; [reflexivity|].
  destruct (p c); [|reflexivity]. cbn [rest caps List.length].
  f_equal. f_equal. lia.
Qed.

Lemma replace_char (p : char -> bool) (r : jstring) :
  forall s pv,
    replace_from (RChar p) (fun _ _ => r) pv s 0 =
    flat_map (fun c => if p c then r else [c]) s.
Proof.
  induction s as [|c s IH]; intros pv.
  - cbn [replace_from]. rewrite rexec_char. reflexivity.
  - cbn [replace_from flat_map]. rewrite rexec_char. destruct (p c).
    + rewrite IH. reflexivity.
    + rewrite IH. reflexivity.
Qed.

(** ** Replacing runs *)

Lemma star_greedy_total (p : char -> bool) :
  forall s pv cs,
    exists pv', star_greedy p Some pv s cs = Some (MState pv' (skipn (run p s) s) cs).
Proof.
  induction s as [|c s IH]; intros pv cs; cbn [star_greedy run skipn].
  - eauto.
  - destruct (p c).
    + destruct (IH (Some c) cs) as (pv' & ->). eauto.
    + eauto.
Qed.

Lemma run_le (p : char -> bool) (s : jstring) : run p s <= List.length s.
Proof. induction s as [|c s IH]; cbn; [lia|]. destruct (p c); cbn; lia. Qed.

Lemma rexec_plus (p : char -> bool) (pv : option char) (s : jstring) :
  rexec (RPlus p) pv s =
  match s with
  | c :: s' => if p c then Some (S (run p s'), []) else None
  | [] => None
  end.
Proof.
  unfold rexec, RPlus. cbn [rmatch rest caps]. destruct s as [|c s]; [reflexivity|].
  destruct (p c); [|reflexivity]. cbn [prev rest caps].
  destruct (star_greedy_total p s (Some c) []) as (pv' & ->).
  cbn [rest caps List.length]. rewrite length_skipn.
  pose proof (run_le p s). f_equal. f_equal. lia.
Qed.

Lemma replace_plus (p : char -> bool) (r : jstring) :
  forall s pv,
    replace_from (RPlus p) (fun _ _ => r) pv s 0 = squeeze p r false s /\
    replace_from (RPlus p) (fun _ _ => r) pv s (run p s) = squeeze p r true s.
Proof.
  induction s as [|c s IH]; intros pv.
  - cbn [replace_from run squeeze]. rewrite rexec_plus. auto.
  - assert (H0 : replace_from (RPlus p) (fun _ _ => r) pv (c :: s) 0 =
                 squeeze p r false (c :: s)).
    { cbn [replace_from squeeze]. rewrite rexec_plus. destruct (p c).
      - f_equal. apply IH.
      - f_equal. apply IH. }
    split; [exact H0|].
    cbn [run]. destruct (p c) eqn:Hp.
    + cbn [replace_from squeeze]. rewrite Hp. apply IH.
    + rewrite H0. cbn [squeeze]. rewrite Hp. reflexivity.
Qed.

Lemma replaceAll_plus (p : char -> bool) (r s : jstring) :
  replaceAll (RPlus p) (fun _ _ => r) s = squeeze p r false s.
Proof. apply replace_plus. Qed.

Lemma replaceAll_char (p : char -> bool) (r s : jstring) :
  replaceAll (RChar p) (fun _ _ => r) s = flat_map (fun c => if p c then r else [c]) s.
Proof. apply replace_char. Qed.


(** ** Substrings *)

Lemma startsWith_nil (s : jstring) : startsWith s [] = true.
Proof. destruct s; reflexivity. Qed.


Lemma startsWith_iff (s p : jstring) :
  startsWith s p = true <-> exists post, s = p ++ post.
Proof.
  revert s. induction p as [|x p IH]; intros s.
  - destruct s; cbn; split; eauto.
  - destruct s as [|y s]; cbn [startsWith].
    + split; [discriminate|]. intros (post & H). discriminate.
    + rewrite andb_true_iff, ch_eqb_eq, IH. split.
      * intros (-> & post & ->). exists post. reflexivity.
      * intros (post & H). inversion H; subst. split; [reflexivity|]. exists post. reflexivity.
Qed.

Lemma includes_iff (s p : jstring) :
  includes s p = true <-> exists pre post, s = pre ++ p ++ post.
Proof.
  induction s as [|c s IH].
  - cbn [includes]. rewrite orb_false_r, startsWith_iff. split.
    + intros (post & H). exists [], post. exact H.
    + intros (pre & post & H). destruct pre; [eauto|discriminate].
  - cbn [includes]. rewrite orb_true_iff, startsWith_iff, IH. split.
    + intros [(post & H)|(pre & post & H)].
      * exists [], post. exact H.
      * exists (c :: pre), post. rewrite H. reflexivity.
    + intros (pre & post & H). destruct pre as [|x pre].
      * left. eauto.
      * right. inversion H; subst. eauto.
Qed.

Lemma includes_app (s a b : jstring) :
  includes s (a ++ b) = true -> includes s b = true.
Proof.
  rewrite !includes_iff. intros (pre & post & ->).
  exists (pre ++ a), post. rewrite <- !app_assoc. reflexivity.
Qed.

Lemma includes_false_tl (c : char) (s p : jstring) :
  includes (c :: s) p = false -> includes s p = false.
Proof. cbn [includes]. rewrite orb_false_iff. tauto. Qed.

Lemma includes_false_startsWith (s p : jstring) :
  includes s p = false -> startsWith s p = false.
Proof. destruct s; cbn [includes]; rewrite orb_false_iff; tauto. Qed.

(** ** Trimming *)

Lemma trimStart_nospace (s : jstring) :
  match trimStart s with c :: _ => isSpace c = false | [] => True end.
Proof.
  induction s as [|c s IH]; cbn [trimStart]; [exact I|].
  destruct (isSpace c) eqn:H; [exact IH|exact H].
Qed.

Lemma trimStart_id (s : jstring) :
  match s with c :: _ => isSpace c = false | [] => True end -> trimStart s = s.
Proof. destruct s as [|c s]; cbn [trimStart]; [reflexivity|]. intros ->. reflexivity. Qed.

Lemma trimStart_idem (s : jstring) : trimStart (trimStart s) = trimStart s.
Proof. apply trimStart_id, trimStart_nospace. Qed.

Lemma trimStart_forall (p : char -> bool) (s : jstring) :
  forallb p s = true -> forallb p (trimStart s) = true.
Proof.
  induction s as [|c s IH]; cbn [trimStart forallb]; [reflexivity|].
  rewrite andb_true_iff. intros [Hc Hs]. destruct (isSpace c); [auto|].
  cbn [forallb]. rewrite Hc, Hs. reflexivity.
Qed.

Lemma trim_forall (p : char -> bool) (s : jstring) :
  forallb p s = true -> forallb p (trim s) = true.
Proof.
  intros H. unfold trim, trimEnd. rewrite forallb_forall in *.
  intros x Hx. rewrite <- in_rev in Hx.
  assert (G : forallb p (trimStart (rev (trimStart s))) = true).
  { apply trimStart_forall. apply forallb_forall. intros y Hy.
    rewrite <- in_rev in Hy.
    assert (G' : forallb p (trimStart s) = true)
      by (apply trimStart_forall, forallb_forall, H).
    rewrite forallb_forall in G'. auto. }
  rewrite forallb_forall in G. auto.
Qed.

Lemma trim_nospace (s : jstring) :
  forallb (fun c => negb (isSpace c)) s = true -> trim s = s.
Proof.
  intros H. unfold trim, trimEnd.
  assert (E : trimStart s = s).
  { apply trimStart_id. destruct s as [|c s]; [exact I|].
    cbn in H. apply andb_true_iff in H. destruct H as [H _].
    now apply negb_true_iff in H. }
  rewrite E. rewrite trimStart_id; [apply rev_involutive|].
  destruct (rev s) as [|c r] eqn:Hr; [exact I|].
  rewrite forallb_forall in H. specialize (H c).
  apply negb_true_iff, H. rewrite in_rev, Hr. now left.
Qed.

Lemma trim_length (s : jstring) : List.length (trim s) <= List.length s.
Proof.
  destruct (trimStart_suffix s) as (w1 & E1 & _).
  destruct (trimEnd_prefix (trimStart s)) as (w2 & E2 & _).
  unfold trim. rewrite E1 at 2. rewrite E2 at 2. rewrite !length_app. lia.
Qed.

Lemma trim_trimmed (s : jstring) : trimmed (trim s).
Proof.
  unfold trimmed, trim, trimEnd. split.
  - pose proof (trimStart_nospace s) as H1.
    pose proof (trimStart_nospace (rev (trimStart s))) as H2.
    destruct (trimStart_suffix (rev (trimStart s))) as (w & E & Hw).
    destruct (trimStart (rev (trimStart s))) as [|c r] eqn:Hr; [exact I|].
    assert (E' : trimStart s = rev (c :: r) ++ rev w).
    { rewrite <- rev_app_distr, <- E. symmetry. apply rev_involutive. }
    destruct (rev (c :: r)) as [|d r'] eqn:Hd.
    + exact I.
    + rewrite E' in H1. exact H1.
  - rewrite rev_involutive. apply trimStart_nospace.
Qed.

End StringFacts.

(** * Slugs *)

Module SlugFacts.
Import RegexFacts StringFacts Shapes.
Import ProjectScanner.

Lemma slugOut_not_space (c : char) : isSlugOut c = true -> isSpace c = false.
Proof.
  intros H. destruct (isSpace c) eqn:E; [|reflexivity]. exfalso.
  unfold isSlugOut, isSpace, isLineTerminator, isLower, isDigit, ch_eqb, ch in *.
  cbn [N_of_ascii N_of_digits] in *.
  rewrite ?orb_true_iff, ?andb_true_iff, ?N.eqb_eq, ?N.leb_le in *. lia.
Qed.

Lemma squeeze_forall (p q0 q : char -> bool) (r : jstring) :
  forallb q r = true ->
  (forall c, q0 c = true -> p c = false -> q c = true) ->
  forall s b, forallb q0 s = true -> forallb q (squeeze p r b s) = true.
Proof.
  intros Hr Hq. induction s as [|c s IH]; intros b H; cbn [squeeze]; [reflexivity|].
  cbn [forallb] in H. apply andb_true_iff in H. destruct H as [Hc Hs].
  destruct (p c) eqn:Hp.
  - destruct b; [auto|]. rewrite forallb_app, Hr. cbn [andb]. auto.
  - cbn [forallb]. rewrite (Hq c Hc Hp). cbn [andb]. auto.
Qed.

Lemma squeeze_hyphens (s : jstring) :
  forall b,
    includes (squeeze (only "-"%char) (js "-") b s) (js "--") = false /\
    (b = true -> startsWith (squeeze (only "-"%char) (js "-") b s) (js "-") = false).
Proof.
  induction s as [|c s IH]; intros b.
  - cbn. auto.
  - cbn [squeeze]. destruct (only "-"%char c) eqn:Hc.
    + destruct b.
      * apply IH.
      * destruct (IH true) as [H1 H2]. specialize (H2 eq_refl). split; [|discriminate].
        set (q := squeeze (only "-"%char) (js "-") true s) in *.
        change (js "-" ++ q) with (ch "-" :: q).
        cbn [includes]. rewrite H1, orb_false_r.
        change (js "--") with [ch "-"; ch "-"]. cbn [startsWith].
        change (js "-") with [ch "-"] in H2.
        destruct q as [|d t].
        -- apply andb_false_r.
        -- cbn [startsWith] in H2. rewrite startsWith_nil, andb_true_r in H2.
           cbn [startsWith]. rewrite H2. apply andb_false_r.
    + destruct (IH false) as [H1 _]. split.
      * cbn [includes]. rewrite H1, orb_false_r.
        change (js "--") with [ch "-"; ch "-"]. cbn [startsWith].
        unfold only in Hc. rewrite Hc. reflexivity.
      * intros _. change (js "-") with [ch "-"]. cbn [startsWith].
        unfold only in Hc. rewrite Hc. reflexivity.
Qed.

Lemma flat_map_keep (p : char -> bool) (s : jstring) :
  forallb p (flat_map (fun c => if negb (p c) then [] else [c]) s) = true.
Proof.
  induction s as [|c s IH]; [reflexivity|]. cbn [flat_map].
  destruct (p c) eqn:Hp; cbn [negb app forallb]; [rewrite Hp|]; exact IH.
Qed.

Section Slug.
Context {P : platform}.

Lemma createSlug_eq (projectName : jstring) :
  createSlug projectName =
  squeeze (only "-"%char) (js "-") false
    (squeeze isSpace (js "-") false
       (flat_map (fun c => if negb (isSlugChar c) then [] else [c])
                 (toLowerCase projectName))) /\
  forallb isSlugOut (createSlug projectName) = true.
Proof.
  unfold createSlug, re_hyphens, re_spaces, re_notSlug.
  rewrite replaceAll_char, !replaceAll_plus.
  set (s1 := flat_map _ _).
  assert (H1 : forallb isSlugChar s1 = true) by apply flat_map_keep.
  assert (H2 : forallb isSlugOut (squeeze isSpace (js "-") false s1) = true).
  { apply squeeze_forall with (q0 := isSlugChar); [reflexivity| |exact H1].
    intros c Hc Hs. unfold isSlugChar in Hc. unfold isSlugOut.
    rewrite Hs in Hc. rewrite orb_false_r in Hc. exact Hc. }
  assert (H3 : forallb isSlugOut
                 (squeeze (only "-"%char) (js "-") false
                    (squeeze isSpace (js "-") false s1)) = true).
  { apply squeeze_forall with (q0 := isSlugOut); [reflexivity| |exact H2]. auto. }
  rewrite trim_nospace.
  - split; [reflexivity|exact H3].
  - rewrite forallb_forall in *. intros c Hc.
    apply negb_true_iff, slugOut_not_space, H3, Hc.
Qed.

End Slug.
End SlugFacts.

(** * File names, descriptions and priorities *)

Module DiscoveryFacts.
Import RegexFacts StringFacts Shapes.
Import FileClassifier Scanner Extractor Discovery.

Section DiscoveryFacts.
Context {P : platform}.

Lemma flat_map_replace_forall (p : char -> bool) (r s : jstring) :
  forallb p r = true ->
  forallb p (flat_map (fun c => if negb (p c) then r else [c]) s) = true.
Proof.
  intros Hr. induction s as [|c s IH]; [reflexivity|]. cbn [flat_map].
  rewrite forallb_app, IH, andb_true_r.
  destruct (p c) eqn:Hp; cbn [negb forallb]; [rewrite Hp; reflexivity|exact Hr].
Qed.

Lemma generateOutputFilename_safe (file : Legacy.File) :
  exists stem,
    generateOutputFilename file = stem ++ js ".mdx" /\ forallb isSafe stem = true.
Proof.
  unfold generateOutputFilename.
  destruct (str_eqb _ (js "readme")).
  - exists (js "readme"). split; reflexivity.
  - destruct (includes _ (js "claude")).
    + exists (js "ai-context"). split; reflexivity.
    + eexists. split; [reflexivity|]. unfold re_unsafe. rewrite replaceAll_char.
      apply flat_map_replace_forall. reflexivity.
Qed.

(** ** Descriptions *)

Lemma startsWith_firstn (s p t : jstring) (n : nat) :
  List.length p <= n -> List.length p <= List.length s ->
  startsWith (firstn n s ++ t) p = startsWith s p.
Proof.
  revert s n. induction p as [|x p IH]; intros s n Hn Hs.
  - rewrite !startsWith_nil. reflexivity.
  - destruct s as [|y s]; [cbn in Hs; lia|]. destruct n as [|n]; [cbn in Hn; lia|].
    cbn [firstn app startsWith]. f_equal. apply IH; cbn in *; lia.
Qed.

Ltac literal_lengths :=
  repeat match goal with
         | |- context [List.length (js ?a)] =>
             let v := eval vm_compute in (List.length (js a)) in
             change (List.length (js a)) with v
         end.

Lemma firstParagraph_shape (lines : list jstring) :
  let d := firstParagraph lines in
  d = [] \/
  (50 < List.length d <= 203 /\
   startsWith d (js "```") = false /\ startsWith d (js "|") = false /\
   (200 < List.length d -> exists t, d = t ++ js "..." /\ List.length t = 200)).
Proof.
  induction lines as [|line lines IH]; cbn zeta; [left; reflexivity|].
  cbn [firstParagraph]. cbv zeta.
  set (cleaned := trim _).
  destruct ((50 <? List.length cleaned) && negb (startsWith cleaned (js "```")) &&
            negb (startsWith cleaned (js "|"))) eqn:E; [|exact IH].
  right. apply andb_true_iff in E. destruct E as [E E3].
  apply andb_true_iff in E. destruct E as [E1 E2].
  apply Nat.ltb_lt in E1. apply negb_true_iff in E2, E3.
  rewrite !startsWith_firstn by (literal_lengths; lia).
  rewrite length_app, length_firstn.
  destruct (200 <? List.length cleaned) eqn:E4.
  - apply Nat.ltb_lt in E4. literal_lengths.
    repeat split; try assumption; try lia.
    intros _. eexists. split; [reflexivity|]. rewrite length_firstn. lia.
  - apply Nat.ltb_ge in E4. cbn [List.length].
    repeat split; try assumption; try lia.
Qed.

End DiscoveryFacts.
End DiscoveryFacts.

Module PriorityFacts.
Import Scanner.

Section PriorityFacts.
Context {P : platform}.
Variable timeValue : jstring -> Z.

Lemma recentFiles_ok (files : list Legacy.File) :
  forall w, exists recent,
    fst (Discovery.recentFiles timeValue files w) = Ok recent /\
    List.length recent <= List.length files /\
    w_fs (snd (Discovery.recentFiles timeValue files w)) = w_fs w /\
    w_writes (snd (Discovery.recentFiles timeValue files w)) = w_writes w.
Proof.
  induction files as [|f files IH]; intros w.
  - exists []. cbn. auto.
  - cbn [Discovery.recentFiles]. unfold Discovery.Date_now, bind, now, ret. cbn [fst snd].
    match goal with
    | |- context [Discovery.recentFiles timeValue files ?w1] =>
        destruct (IH w1) as (recent & H1 & H2 & H3 & H4);
        destruct (Discovery.recentFiles timeValue files w1) as [r w2]
    end.
    cbn [fst snd] in *. subst r. cbn [fst snd].
    eexists. split; [reflexivity|]. split; [|split; assumption].
    destruct (_ <? _)%Z; cbn [List.length]; lia.
Qed.

Lemma calculatePriority_bounds (name : jstring) (files : list Legacy.File) (w : World) :
  exists priority,
    fst (Discovery.calculatePriority timeValue name files w) = Ok priority /\
    (50 <= priority <= 100)%Z /\
    w_fs (snd (Discovery.calculatePriority timeValue name files w)) = w_fs w /\
    w_writes (snd (Discovery.calculatePriority timeValue name files w)) = w_writes w.
Proof.
  unfold Discovery.calculatePriority. cbv zeta. unfold bind.
  destruct (recentFiles_ok files w) as (recent & H1 & H2 & H3 & H4).
  destruct (Discovery.recentFiles timeValue files w) as [r w1].
  cbn [fst snd] in *. subst r. unfold ret. cbn [fst snd].
  eexists. split; [reflexivity|]. split; [|split; assumption].
  repeat match goal with
         | |- context [if ?b then _ else _] => destruct b
         end; lia.
Qed.

Lemma priorityAt_bounds (today : Z) (project : ProjectScanner.Project) :
  let pr := ProjectScanner.priorityAt timeValue today project in
  (0 <= pr <= 170)%Z /\
  (ProjectScanner.category project = js "main-platform" -> 100 <= pr)%Z /\
  (In (ProjectScanner.category project)
      [js "documentation"; js "development-tools"; js "other"] -> pr <= 70)%Z.
Proof.
  cbv zeta. unfold ProjectScanner.priorityAt. cbv zeta.
  split; [|split].
  - destruct (str_eqb (ProjectScanner.category project) (js "main-platform")) eqn:E1.
    + apply ClassifierFacts.str_eqb_eq in E1. rewrite E1.
      change (str_eqb (js "main-platform") (js "ai-backend")) with false.
      change (str_eqb (js "main-platform") (js "finance-tools")) with false.
      repeat match goal with
             | |- context [if ?b then _ else _] => destruct b
             | |- context [match ?b with Some _ => _ | None => _ end] => destruct b
             end; lia.
    + destruct (str_eqb (ProjectScanner.category project) (js "ai-backend")) eqn:E2.
      * apply ClassifierFacts.str_eqb_eq in E2. rewrite E2.
        change (str_eqb (js "ai-backend") (js "finance-tools")) with false.
        repeat match goal with
               | |- context [if ?b then _ else _] => destruct b
               | |- context [match ?b with Some _ => _ | None => _ end] => destruct b
               end; lia.
      * repeat match goal with
               | |- context [if ?b then _ else _] => destruct b
               | |- context [match ?b with Some _ => _ | None => _ end] => destruct b
               end; lia.
  - intros ->. change (str_eqb (js "main-platform") (js "main-platform")) with true.
    repeat match goal with
           | |- context [if ?b then _ else _] => destruct b
           | |- context [match ?b with Some _ => _ | None => _ end] => destruct b
           end; lia.
  - intros H.
    assert (E : str_eqb (ProjectScanner.category project) (js "main-platform") = false /\
                str_eqb (ProjectScanner.category project) (js "ai-backend") = false /\
                str_eqb (ProjectScanner.category project) (js "finance-tools") = false).
    { cbn [In] in H. destruct H as [<-|[<-|[<-|[]]]]; repeat split; reflexivity. }
    destruct E as (-> & -> & ->).
    repeat match goal with
           | |- context [if ?b then _ else _] => destruct b
           | |- context [match ?b with Some _ => _ | None => _ end] => destruct b
           end; lia.
Qed.

End PriorityFacts.
End PriorityFacts.

(** * Frontmatter and docstrings *)

Module ExtractorFacts.
Import RegexFacts StringFacts Shapes.
Import FileClassifier Scanner Extractor SanitizerFacts.

Lemma search_from_sound (r : regex) :
  forall s pv cs,
    search_from r pv s = Some cs ->
    exists pre suf pv' n,
      s = pre ++ suf /\ rexec r pv' suf = Some (n, cs) /\
      (pre = [] -> pv' = pv) /\ (pre <> [] -> pv' <> None).
Proof.
  induction s as [|c s IH]; intros pv cs H; cbn [search_from] in H.
  - destruct (rexec r pv []) as [[n cs']|] eqn:E; [|discriminate].
    inversion H; subst. exists [], [], pv, n. repeat split; auto; congruence.
  - destruct (rexec r pv (c :: s)) as [[n cs']|] eqn:E.
    + inversion H; subst. exists [], (c :: s), pv, n. repeat split; auto; congruence.
    + destruct (IH _ _ H) as (pre & suf & pv' & n & -> & Hr & H1 & H2).
      exists (c :: pre), suf, pv', n. repeat split; auto; try discriminate.
      intros _. destruct pre as [|x pre].
      * rewrite (H1 eq_refl). discriminate.
      * apply H2. discriminate.
Qed.

Lemma rexec_bol (r : regex) (pv : option char) (s : jstring) n cs :
  rexec (RBol false >> r) pv s = Some (n, cs) -> pv = None.
Proof.
  unfold rexec. cbn [rmatch]. unfold at_bol. cbn [prev].
  destruct pv; [discriminate|reflexivity].
Qed.

Lemma rsearch_anchored (r : regex) (s : jstring) (cs : list (nat * jstring)) :
  rsearch (RBol false >> r) s = Some cs ->
  exists n, rexec (RBol false >> r) None s = Some (n, cs).
Proof.
  unfold rsearch. intros H. apply search_from_sound in H.
  destruct H as (pre & suf & pv' & n & -> & Hr & H1 & H2).
  pose proof (rexec_bol _ _ _ Hr) as Hpv. destruct pre as [|c pre].
  - subst. exists n. exact Hr.
  - exfalso. apply H2; [discriminate|exact Hpv].
Qed.

Lemma rexec_document (s : jstring) n cs :
  rexec frontmatterRegex None s = Some (n, cs) ->
  exists ws block ws' body,
    s = js "---" ++ ws ++ nl :: block ++ nl :: js "---" ++ ws' ++ nl :: body /\
    forallb isSpace ws = true /\ forallb isSpace ws' = true /\
    cap 1 cs = block /\ cap 2 cs = body.
Proof.
  unfold rexec.
  destruct (rmatch frontmatterRegex Some (MState None s [])) as [r|] eqn:E; [|discriminate].
  intros H. inversion H; subst; clear H.
  apply rmatch_sound in E. destruct E as (st' & Hd & Hk). inversion Hk; subst; clear Hk.
  unfold frontmatterRegex in Hd.
  destruct Hd as (m1 & [-> _] & m2 & Hlit & Hd).
  destruct Hd as (m3 & (ws & Hws & Hwss & Hc3) & m4 & (c & Hc & Hcnl & Hc4) & Hd).
  destruct Hd as (m5 & (m6 & (y & Hy & _ & Hc6) & ->) & m7 & Hlit2 & Hd).
  destruct Hd as (m8 & (ws' & Hws' & Hwss' & Hc8) & m9 & (c' & Hc' & Hcnl' & Hc9) & Hd).
  destruct Hd as (m10 & (m11 & (b & Hb & _ & Hc11) & ->) & [-> Heol]).
  apply den_RLit in Hlit, Hlit2. destruct Hlit as [Hl1 Hcl1]. destruct Hlit2 as [Hl2 Hcl2].
  apply ch_eqb_eq in Hcnl, Hcnl'. subst c c'.
  cbn [rest caps set_cap prev] in *.
  unfold at_eol, set_cap in Heol. cbn [rest] in Heol.
  destruct (rest m11) as [|x t] eqn:Hm11; [|discriminate].
  rewrite app_nil_r in Hb.
  exists ws, y, ws', b. split; [|split; [exact Hwss|split; [exact Hwss'|split]]].
  - rewrite Hl1, Hws, Hc, Hy, Hl2, Hws', Hc', Hb. reflexivity.
  - rewrite Hc11, Hc9, Hc8, Hcl2. cbn [cap Nat.eqb]. unfold consumed. cbn [rest].
    rewrite Hy. apply firstn_app_sub.
  - cbn [cap Nat.eqb]. unfold consumed. cbn [rest]. rewrite Hm11, Hb.
    cbn [List.length]. rewrite Nat.sub_0_r. apply firstn_all.
Qed.

Lemma extractFrontmatter_shape (content : jstring) :
  extractFrontmatter content = ([], content) \/
  exists ws block ws' body,
    content = js "---" ++ ws ++ nl :: block ++ nl :: js "---" ++ ws' ++ nl :: body /\
    forallb isSpace ws = true /\ forallb isSpace ws' = true /\
    extractFrontmatter content = (parseFrontmatter block, body).
Proof.
  unfold extractFrontmatter.
  destruct (rsearch frontmatterRegex content) as [cs|] eqn:E; [|left; reflexivity].
  right. apply rsearch_anchored in E. destruct E as (n & E).
  apply rexec_document in E. destruct E as (ws & block & ws' & body & H1 & H2 & H3 & H4 & H5).
  exists ws, block, ws', body. rewrite H4, H5. auto.
Qed.

Lemma extractFrontmatter_unfenced (content : jstring) :
  startsWith content (js "---") = false -> extractFrontmatter content = ([], content).
Proof.
  intros H. destruct (extractFrontmatter_shape content) as [E|E]; [exact E|].
  destruct E as (ws & block & ws' & body & -> & _). exfalso.
  assert (G : startsWith (js "---" ++ ws ++ nl :: block ++ nl :: js "---" ++ ws' ++ nl :: body)
                         (js "---") = true) by (apply startsWith_iff; eauto).
  congruence.
Qed.

(** ** Lines of the frontmatter *)

Lemma split_app_sep (sep : char) (a b : jstring) :
  forallb (fun c => negb (ch_eqb c sep)) a = true ->
  split sep (a ++ sep :: b) = a :: split sep b.
Proof.
  induction a as [|c a IH]; intros H.
  - cbn [app split]. replace (ch_eqb sep sep) with true; [reflexivity|].
    symmetry. now apply ch_eqb_eq.
  - cbn [forallb] in H. apply andb_true_iff in H. destruct H as [Hc Ha].
    apply negb_true_iff in Hc. cbn [app split]. rewrite Hc, (IH Ha). reflexivity.
Qed.

Lemma lookup_assign (A : Type) (k : jstring) (v : A) (o : list (jstring * A)) :
  lookup k (assign k v o) = Some v.
Proof.
  induction o as [|[k' x] o IH]; cbn [assign lookup].
  - rewrite ClassifierFacts.str_eqb_refl. reflexivity.
  - destruct (str_eqb k k') eqn:E; cbn [lookup]; rewrite E; [reflexivity|exact IH].
Qed.

Lemma lookup_assign_other (A : Type) (k k' : jstring) (v : A) (o : list (jstring * A)) :
  str_eqb k' k = false -> lookup k' (assign k v o) = lookup k' o.
Proof.
  intros Hk. induction o as [|[k0 x] o IH]; cbn [assign lookup].
  - rewrite Hk. reflexivity.
  - destruct (str_eqb k k0) eqn:E; cbn [lookup].
    + apply ClassifierFacts.str_eqb_eq in E. subst k0. rewrite Hk. reflexivity.
    + destruct (str_eqb k' k0); [reflexivity|exact IH].
Qed.

Lemma parseLine_entry (key value : jstring) (frontmatter : list (jstring * jstring)) :
  key <> [] ->
  forallb (fun c => negb (ch_eqb c (ch ":"))) key = true ->
  parseLine (key ++ js ":" ++ value) frontmatter =
  setProperty (trim key) (unquote (trim value)) frontmatter.
Proof.
  intros Hk Hc. unfold parseLine.
  change (key ++ js ":" ++ value) with (key ++ ch ":" :: value).
  rewrite (@split_app_sep (ch ":") key value Hc).
  destruct key as [|c key]; [congruence|].
  pose proof (split_nonempty (ch ":") value) as Hs.
  destruct (split (ch ":") value) as [|x l] eqn:E; [congruence|].
  rewrite <- E. change (js ":") with [ch ":"]. rewrite join_split. reflexivity.
Qed.

Lemma parseLine_plain (line : jstring) (frontmatter : list (jstring * jstring)) :
  forallb (fun c => negb (ch_eqb c (ch ":"))) line = true ->
  parseLine line frontmatter = frontmatter.
Proof.
  intros H. unfold parseLine.
  assert (E : split (ch ":") line = [line]).
  { induction line as [|c l IH]; [reflexivity|].
    cbn [forallb] in H. apply andb_true_iff in H. destruct H as [Hc Hl].
    apply negb_true_iff in Hc. cbn [split]. rewrite Hc, (IH Hl). reflexivity. }
  rewrite E. destruct line; reflexivity.
Qed.

End ExtractorFacts.

Module DocstringFacts.
Import RegexFacts StringFacts Shapes.
Import Extractor SanitizerFacts ExtractorFacts.







End DocstringFacts.

(** * Discovery of projects and files *)

Module AnalysisFacts.
Import RegexFacts StringFacts Shapes.
Import FileClassifier Scanner Extractor Frames MonadFacts.
Import Discovery.

Section AnalysisFacts.
Context {P : platform}.
Variable options : Options.

Lemma pathExists_eq (p : jstring) (w : World) :
  pathExists p w = (Ok (fs_access (w_fs w) p), w).
Proof.
  unfold pathExists, try_catch, bind, access, ret.
  destruct (fs_access (w_fs w) p); reflexivity.
Qed.

Lemma anyIndicator_eq (projectPath : jstring) (indicators : list jstring) (w : World) :
  anyIndicator projectPath indicators w =
  (Ok (existsb (fun indicator => fs_access (w_fs w) (path_join projectPath indicator))
               indicators), w).
Proof.
  induction indicators as [|i l IH]; [reflexivity|].
  cbn [anyIndicator existsb]. unfold bind. rewrite pathExists_eq.
  destruct (fs_access (w_fs w) (path_join projectPath i)); [reflexivity|exact IH].
Qed.

Lemma log_stats (verbose : bool) (message : jstring) (l : level) (w : World) :
  filesProcessed (w_stats (snd (log verbose message l w))) = filesProcessed (w_stats w).
Proof.
  unfold log, bind, now, when, console_log, get_stats, set_stats, ret.
  destruct l, verbose; reflexivity.
Qed.

Lemma then_log (A : Type) (verbose : bool) (message : jstring) (l : level) (a : A)
    (w : World) :
  (log verbose message l ;;; ret a) w = (Ok a, snd (log verbose message l w)).
Proof. unfold bind. rewrite SelectiveFacts.log_eq. reflexivity. Qed.

Lemma uncounted_refl (w : World) : uncounted w w.
Proof. repeat split. Qed.

Lemma uncounted_log (verbose : bool) (message : jstring) (l : level) (w : World) :
  uncounted w (snd (log verbose message l w)).
Proof.
  destruct (quiet_log verbose message l w) as [H1 H2].
  repeat split; auto using log_stats.
Qed.

Lemma readText_spec (filePath ext : jstring) (w : World) :
  match readText options filePath ext w with
  | (Ok None, w') => uncounted w w'
  | (Ok (Some _), w') => w' = w
  | (Err _, _) => False
  end.
Proof.
  unfold readText. destruct (oneOf ext _).
  - unfold try_catch, bind, readFile, debug.
    destruct (fs_readFile (w_fs w) filePath) as [c|e].
    + destruct (oneOf ext _); reflexivity.
    + rewrite SelectiveFacts.log_eq. apply uncounted_log.
  - reflexivity.
Qed.

Lemma analyzeFile_spec (filePath projectRoot : jstring) (w : World) :
  match analyzeFile options filePath projectRoot w with
  | (Ok None, w') => uncounted w w'
  | (Ok (Some file), w') =>
      counted w w' /\
      isFileRelevant filePath = true /\
      (exists stats,
         fs_stat (w_fs w) filePath = Ok stats /\
         (st_size stats <= maxFileSize)%N /\
         Legacy.f_size file = st_size stats) /\
      Legacy.f_path file = filePath /\
      (exists content, Legacy.f_classification file = classify filePath content) /\
      List.length (Legacy.f_content file) <= 5000
  | (Err _, _) => False
  end.
Proof.
  unfold analyzeFile, try_catch. unfold bind at 1. unfold stat.
  destruct (fs_stat (w_fs w) filePath) as [stats|e] eqn:Hstat.
  2:{ unfold error. rewrite then_log. apply uncounted_log. }
  destruct (maxFileSize <? st_size stats)%N eqn:Hsize.
  { apply uncounted_refl. }
  destruct (isFileRelevant filePath) eqn:Hrel; cbn [negb].
  2:{ apply uncounted_refl. }
  unfold bind at 1.
  pose proof (readText_spec filePath (path_extname filePath) w) as Hr.
  destruct (readText options filePath (path_extname filePath) w) as [[[[fm content]|]|e] w'].
  - subst w'. unfold bind, count_file, get_stats, set_stats, ret. cbn [fst snd].
    apply N.ltb_ge in Hsize.
    split; [repeat split|].
    split; [reflexivity|]. split; [exists stats; auto|]. split; [reflexivity|].
    split; [eexists; reflexivity|].
    cbn [Legacy.f_content]. rewrite length_firstn. lia.
  - exact Hr.
  - contradiction.
Qed.

End AnalysisFacts.
End AnalysisFacts.

Module RelevanceFacts.
Import RegexFacts StringFacts Shapes.
Import FileClassifier Scanner Extractor ClassifierFacts.
Import Discovery.

Lemma str_neq (a b : jstring) : str_eqb a b = false -> a <> b.
Proof. intros H E. apply str_eqb_eq in E. congruence. Qed.

Lemma oneOf_in (x : jstring) (l : list jstring) : oneOf x l = true -> In x l.
Proof.
  unfold oneOf. rewrite existsb_exists. intros (y & Hy & E).
  apply str_eqb_eq in E. subst. exact Hy.
Qed.

Lemma suffix_rev (a stem b : jstring) :
  a = stem ++ b -> startsWith (rev a) (rev b) = true.
Proof. intros ->. rewrite rev_app_distr. apply startsWith_iff. eauto. Qed.

Section RelevanceFacts.
Context {P : platform}.

Lemma classify_code (filePath content : jstring) :
  classify filePath content = js "code" ->
  includes (toLowerCase (path_basename filePath)) (js "api") = false /\
  In (toLowerCase (path_extname filePath)) [js ".js"; js ".ts"; js ".py"; js ".java"].
Proof.
  unfold classify. cbv zeta.
  set (filename := toLowerCase (path_basename filePath)).
  set (ext := toLowerCase (path_extname filePath)).
  set (contentLower := toLowerCase content).
  destruct (includes filename (js "readme"));
    [intros H; exfalso; revert H; apply str_neq; reflexivity|].
  destruct (includes filename (js "claude"));
    [intros H; exfalso; revert H; apply str_neq; reflexivity|].
  destruct (includes filename (js "changelog") || _);
    [intros H; exfalso; revert H; apply str_neq; reflexivity|].
  destruct (includes filename (js "api") || _) eqn:Hapi;
    [intros H; exfalso; revert H; apply str_neq; reflexivity|].
  apply orb_false_iff in Hapi. destruct Hapi as [Hapi _].
  repeat match goal with
         | |- (if ?b then js ?a else _) = _ -> _ =>
             destruct b eqn:?;
             [intros H; exfalso; revert H; apply str_neq; reflexivity|]
         end.
  destruct (oneOf ext [js ".js"; js ".ts"; js ".py"; js ".java"]) eqn:Hext.
  - intros _. split; [exact Hapi|]. apply oneOf_in, Hext.
  - repeat match goal with
           | |- (if ?b then js ?a else _) = _ -> _ =>
               destruct b eqn:?;
               [intros H; exfalso; revert H; apply str_neq; reflexivity|]
           end.
    intros H; exfalso; revert H; apply str_neq; reflexivity.
Qed.

Lemma relevant_code (filePath content : jstring) :
  isFileRelevant filePath = true ->
  classify filePath content = js "code" ->
  (exists stem, toLowerCase (path_basename filePath) =
                stem ++ toLowerCase (path_extname filePath)) ->
  includes (toLowerCase (path_basename filePath)) (js "index") = true \/
  includes (toLowerCase (path_basename filePath)) (js "swagger") = true.
Proof.
  intros Hrel Hcode (stem & Hstem). apply classify_code in Hcode.
  destruct Hcode as [Hapi Hext].
  unfold isFileRelevant in Hrel. cbv zeta in Hrel.
  set (filename := toLowerCase (path_basename filePath)) in *.
  set (ext := toLowerCase (path_extname filePath)) in *.
  assert (Hdoc : oneOf ext [js ".md"; js ".mdx"; js ".txt"; js ".rst"] = false).
  { cbn [In] in Hext. destruct Hext as [<-|[<-|[<-|[<-|[]]]]]; reflexivity. }
  rewrite Hdoc in Hrel.
  assert (Hcfg : oneOf filename
                   [js "package.json"; js "tsconfig.json"; js "docker-compose.yml"] = false).
  { destruct (oneOf filename _) eqn:E; [|reflexivity]. exfalso.
    apply oneOf_in in E. apply suffix_rev in Hstem.
    cbn [In] in Hext, E.
    destruct Hext as [<-|[<-|[<-|[<-|[]]]]];
      destruct E as [E|[E|[E|[]]]]; rewrite <- E in Hstem; discriminate Hstem. }
  rewrite Hcfg in Hrel.
  assert (Hopen : includes filename (js "openapi") = false).
  { destruct (includes filename (js "openapi")) eqn:E; [|reflexivity].
    change (js "openapi") with (js "open" ++ js "api") in E.
    apply includes_app in E. congruence. }
  rewrite Hopen, Hapi in Hrel. cbn [orb] in Hrel. rewrite orb_false_r in Hrel.
  destruct (includes filename (js "swagger")); [right; reflexivity|].
  left. destruct (includes filename (js "index")); [reflexivity|].
  rewrite andb_false_r in Hrel. discriminate.
Qed.

End RelevanceFacts.
End RelevanceFacts.

(** * Conversion of one file *)

Module ConversionFacts.
Import RegexFacts StringFacts Shapes.
Import FileClassifier Scanner Extractor Frames MonadFacts ClassifierFacts ExtractorFacts.
Import Discovery.

(** ** Objects *)

Lemma insertIndex_in (A : Type) (x kv : jstring * A) (l : list (jstring * A)) :
  In x (insertIndex kv l) <-> x = kv \/ In x l.
Proof.
  induction l as [|y l IH]; cbn [insertIndex].
  - cbn. intuition.
  - destruct (_ <? _)%N; cbn [In]; [intuition|]. rewrite IH. cbn [In]. intuition.
Qed.

Lemma ownEntries_in (A : Type) (x : jstring * A) (o : list (jstring * A)) :
  In x (ownEntries o) <-> In x o.
Proof.
  unfold ownEntries. rewrite in_app_iff.
  assert (G : forall l, In x (fold_right (@insertIndex A) [] l) <-> In x l).
  { induction l as [|y l IH]; cbn [fold_right]; [reflexivity|].
    rewrite insertIndex_in, IH. cbn [In]. intuition. }
  rewrite G, !filter_In. destruct (isArrayIndex (fst x)); cbn [negb]; intuition.
Qed.

Lemma fold_assign_other (A B : Type) (f : B -> A) (k : jstring) (l : list (jstring * B)) :
  forall base,
    (forall v, ~ In (k, v) l) ->
    lookup k (fold_left (fun o kv => assign (fst kv) (f (snd kv)) o) l base) = lookup k base.
Proof.
  induction l as [|[k0 v0] l IH]; intros base H; [reflexivity|].
  cbn [fold_left fst snd]. rewrite IH.
  - apply lookup_assign_other. destruct (str_eqb k k0) eqn:E; [|reflexivity].
    apply str_eqb_eq in E. subst k0. exfalso. apply (H v0). now left.
  - intros v Hin. apply (H v). now right.
Qed.

Lemma fold_assign_lookup (A B : Type) (f : B -> A) (k : jstring) (v : B)
    (l : list (jstring * B)) :
  forall base,
    (forall v', In (k, v') l -> v' = v) ->
    In (k, v) l ->
    lookup k (fold_left (fun o kv => assign (fst kv) (f (snd kv)) o) l base) = Some (f v).
Proof.
  induction l as [|[k0 v0] l IH]; intros base Huniq Hin; [contradiction|].
  cbn [fold_left fst snd].
  destruct (existsb (fun kv => str_eqb k (fst kv)) l) eqn:E.
  - apply existsb_exists in E. destruct E as ([k1 v1] & Hin1 & Hk). cbn [fst] in Hk.
    apply str_eqb_eq in Hk. subst k1.
    assert (v1 = v) by (apply Huniq; now right). subst v1.
    apply IH; [|exact Hin1]. intros v' H'. apply Huniq. now right.
  - assert (Hno : forall v', ~ In (k, v') l).
    { intros v' H'. assert (existsb (fun kv => str_eqb k (fst kv)) l = true).
      { apply existsb_exists. exists (k, v'). split; [exact H'|]. apply str_eqb_refl. }
      congruence. }
    rewrite fold_assign_other by exact Hno.
    destruct Hin as [Hin|Hin]; [|exfalso; exact (Hno _ Hin)].
    inversion Hin; subst. apply lookup_assign.
Qed.

Lemma nodup_keys_unique (A : Type) (k : jstring) (v v' : A) (l : list (jstring * A)) :
  NoDup (map fst l) -> In (k, v) l -> In (k, v') l -> v' = v.
Proof.
  induction l as [|[k0 v0] l IH]; intros Hnd H1 H2; [contradiction|].
  cbn [map fst] in Hnd. inversion Hnd as [|? ? Hnot Hnd']; subst.
  assert (G : forall x, In (k0, x) l -> False).
  { intros x Hx. apply Hnot. change k0 with (fst (k0, x)). now apply in_map. }
  destruct H1 as [H1|H1], H2 as [H2|H2].
  - congruence.
  - inversion H1; subst. exfalso. eauto.
  - inversion H2; subst. exfalso. eauto.
  - eauto.
Qed.

Section ConversionFacts.
Context {P : platform}.
Variable options : Options.
Variable path_resolve : jstring -> jstring -> jstring.

Lemma enhanceFrontmatter_eq filePath existingFrontmatter projectInfo (w : World) :
  enhanceFrontmatter filePath existingFrontmatter projectInfo w =
  (Ok (enhanced filePath existingFrontmatter projectInfo (beforeT (w_clock w (w_tick w)))),
   snd (now w)).
Proof. reflexivity. Qed.

Lemma enhanced_keeps filePath existingFrontmatter projectInfo lastUpdated k v :
  NoDup (map fst existingFrontmatter) ->
  In (k, v) existingFrontmatter ->
  In (k, VStr v) (ownEntries (enhanced filePath existingFrontmatter projectInfo lastUpdated)).
Proof.
  intros Hnd Hin. apply ownEntries_in. apply lookup_found. unfold enhanced. cbv zeta.
  apply fold_assign_lookup with (f := VStr).
  - intros v' H'. apply (proj1 (ownEntries_in _ _)) in H'.
    exact (@nodup_keys_unique _ k v v' _ Hnd Hin H').
  - apply ownEntries_in. exact Hin.
Qed.

(** ** Links *)

Lemma log_fst' (verbose : bool) (message : jstring) (l : level) : returns (log verbose message l).
Proof. intros w. apply SelectiveFacts.log_fst. Qed.

Lemma checkLink_ok (basePath : jstring) (cs : list (nat * jstring)) :
  returns (checkLink options path_resolve basePath cs) /\
  quiet (checkLink options path_resolve basePath cs).
Proof.
  unfold checkLink. destruct (_ && _).
  - split.
    + intros w. unfold try_catch, access.
      destruct (fs_access (w_fs w) _); [reflexivity|]. apply log_fst'.
    + unfold error. auto with quiet.
  - split; [intros w; reflexivity|auto with quiet].
Qed.

Lemma validateLinks_eq (content basePath : jstring) (w : World) :
  fst (validateLinks options path_resolve content basePath w) = Ok content /\
  w_fs (snd (validateLinks options path_resolve content basePath w)) = w_fs w /\
  w_writes (snd (validateLinks options path_resolve content basePath w)) = w_writes w.
Proof.
  unfold validateLinks. cbv zeta.
  assert (R : returns (forEach (exec_all linkRegex content)
                               (checkLink options path_resolve basePath))).
  { apply ValidatorFacts.returns_forEach. intros cs. apply checkLink_ok. }
  assert (Q : quiet (forEach (exec_all linkRegex content)
                             (checkLink options path_resolve basePath))).
  { apply quiet_forEach. intros cs. apply checkLink_ok. }
  unfold bind. specialize (R w). specialize (Q w).
  destruct (forEach _ _ w) as [r w']. cbn [fst snd] in *. subst r. cbn [fst snd ret].
  split; [reflexivity|exact Q].
Qed.

Lemma processDocumentationFile_skip (file : Legacy.File) (project : Legacy.Project)
    (outputDir : jstring) (w : World) :
  Legacy.f_content file = [] \/ Legacy.f_classification file = js "code" ->
  processDocumentationFile options path_resolve file project outputDir w = (Ok None, w).
Proof.
  intros H. unfold processDocumentationFile.
  destruct H as [-> | ->]; [reflexivity|].
  rewrite str_eqb_refl, orb_true_r. reflexivity.
Qed.

Lemma processDocumentationFile_spec (file : Legacy.File) (project : Legacy.Project)
    (outputDir : jstring) (w : World) :
  Legacy.f_content file <> [] ->
  Legacy.f_classification file <> js "code" ->
  let enhancedFrontmatter :=
    enhanced (Legacy.f_path file) (Legacy.f_frontmatter file) project
             (beforeT (w_clock w (w_tick w))) in
  let outputPath := path_join outputDir (generateOutputFilename file) in
  let finalContent :=
    js "---" ++ [nl] ++ frontmatterYaml enhancedFrontmatter ++ [nl] ++ js "---" ++
    [nl; nl] ++ Legacy.f_content file ++ attribution project in
  match processDocumentationFile options path_resolve file project outputDir w with
  | (r, w') =>
      w_writes w' = w_writes w ++ [OpWriteFile outputPath finalContent] /\
      r = match fst (fs_writeFile (w_fs w) outputPath finalContent) with
          | Ok _ => Ok (Some (Legacy.MkProcessed
                                file (path_relative (opt_outputDir options) outputPath)
                                enhancedFrontmatter))
          | Err e => Err e
          end
  end.
Proof.
  intros Hc Hk. cbv zeta. unfold processDocumentationFile.
  destruct (Legacy.f_content file) as [|c0 content0] eqn:Hcontent; [congruence|].
  destruct (str_eqb (Legacy.f_classification file) (js "code")) eqn:E.
  { apply str_eqb_eq in E. congruence. }
  cbn [orb]. unfold bind at 1. rewrite enhanceFrontmatter_eq.
  set (en := enhanced _ _ _ _).
  unfold bind at 1.
  destruct (validateLinks_eq (c0 :: content0) (Legacy.path project) (snd (now w)))
    as (H1 & H2 & H3).
  destruct (validateLinks options path_resolve (c0 :: content0) (Legacy.path project)
              (snd (now w))) as [r1 w1].
  cbn [fst snd] in H1, H2, H3. subst r1.
  cbn [now snd w_fs w_writes] in H2, H3.
  unfold bind, writeFile, ret. rewrite H2, H3.
  destruct (fs_writeFile (w_fs w) _ _) as [[u|e] fs']; cbn [fst snd w_writes];
    split; reflexivity.
Qed.

End ConversionFacts.
End ConversionFacts.

(** * Navigation and categories *)

Module NavigationFacts.
Import RegexFacts StringFacts Shapes.
Import FileClassifier Scanner ClassifierFacts ExtractorFacts.






Section NavigationFacts.
Context {P : platform}.

Lemma addProject_eq (projectName : jstring) (files : list nav_file) (w : World) :
  addProject projectName files w =
  (Ok tt,
   MkWorld (w_fs w) (w_writes w) (w_console w) (w_stats w)
           (assign projectName (map entryOf (sort_files (filter kept files)))
                   (w_navigation w))
           (w_clock w) (w_tick w)).
Proof. reflexivity. Qed.

(** ** Saving the navigation *)





End NavigationFacts.

(** ** Categories *)

Lemma breakdown_lookup (A : Type) (category : A -> jstring) (c : jstring)
    (projects : list A) :
  forall acc,
    lookup c (fold_left (fun categories p => countCategory (category p) categories)
                        projects acc) =
    let n := Z.of_nat (List.length (filter (fun p => str_eqb (category p) c) projects)) in
    match lookup c acc with
    | Some m => Some (m + n)%Z
    | None => if (n =? 0)%Z then None else Some n
    end.
Proof.
  induction projects as [|p projects IH]; intros acc; cbn [fold_left filter].
  - cbn. destruct (lookup c acc); [f_equal; lia|reflexivity].
  - rewrite IH. unfold countCategory. cbv zeta.
    destruct (str_eqb (category p) c) eqn:E.
    + apply str_eqb_eq in E. subst c. rewrite lookup_assign.
      cbn [List.length]. rewrite Nat2Z.inj_succ.
      destruct (lookup (category p) acc) as [m|].
      * f_equal. lia.
      * destruct (Z.succ _ =? 0)%Z eqn:E0; [apply Z.eqb_eq in E0; lia|]. f_equal. lia.
    + rewrite lookup_assign_other; [reflexivity|].
      destruct (str_eqb c (category p)) eqn:E'; [|reflexivity].
      apply str_eqb_eq in E'. subst c. rewrite str_eqb_refl in E. discriminate.
Qed.

End NavigationFacts.

(** * The selective pipeline *)

Module PipelineFacts.
Import RegexFacts StringFacts Shapes.
Import FileClassifier Scanner Selective Frames MonadFacts SelectiveFacts NavigationFacts.

Lemma subsequence_nil (A : Type) (b : list A) : subsequence [] b.
Proof. induction b; constructor; assumption. Qed.

Section PipelineFacts.
Context {P : platform}.
Variable options : Options.

Lemma bind_inv (A B : Type) (m : M A) (k : A -> M B) (w w' : World) (b : B) :
  bind m k w = (Ok b, w') -> exists a w1, m w = (Ok a, w1) /\ k a w1 = (Ok b, w').
Proof.
  unfold bind. destruct (m w) as [[a|e] w1]; [eauto|discriminate].
Qed.

Lemma succeeds_ret (A : Type) (a : A) : succeeds (ret a).
Proof. intros w. exists a. reflexivity. Qed.

Lemma succeeds_bind (A B : Type) (m : M A) (k : A -> M B) :
  succeeds m -> (forall a, succeeds (k a)) -> succeeds (bind m k).
Proof.
  intros Hm Hk w. unfold bind. destruct (Hm w) as (a & Ha).
  destruct (m w) as [r w1]. cbn [fst] in Ha. subst r. apply Hk.
Qed.

Lemma succeeds_try_catch (A : Type) (m : M A) (h : jstring -> M A) :
  (forall e, succeeds (h e)) -> succeeds (try_catch m h).
Proof.
  intros Hh w. unfold try_catch. destruct (m w) as [[a|e] w1]; [exists a; reflexivity|].
  apply Hh.
Qed.

Lemma succeeds_when (b : bool) (m : M unit) : (b = true -> succeeds m) -> succeeds (when b m).
Proof. destruct b; cbn [when]; [auto|intros _; apply succeeds_ret]. Qed.

Lemma succeeds_forEach (A : Type) (xs : list A) (body : A -> M unit) :
  (forall x, succeeds (body x)) -> succeeds (forEach xs body).
Proof.
  intros H. induction xs as [|x xs IH]; cbn [forEach]; [apply succeeds_ret|].
  apply succeeds_bind; auto.
Qed.

Lemma succeeds_foldM (A S : Type) (xs : list A) (body : A -> S -> M S) (s : S) :
  (forall x s, succeeds (body x s)) -> succeeds (foldM xs body s).
Proof.
  intros H. revert s. induction xs as [|x xs IH]; intros s; cbn [foldM];
    [apply succeeds_ret|]. apply succeeds_bind; auto.
Qed.

Lemma succeeds_loopTry (A S : Type) (xs : list A) (body : A -> S -> M S) (s : S) :
  succeeds (loopTry xs body s).
Proof.
  revert s. induction xs as [|x xs IH]; intros s w; cbn [loopTry].
  - eexists. reflexivity.
  - destruct (body x s w) as [[s'|e] w1]; [apply IH|eexists; reflexivity].
Qed.

Lemma succeeds_log (verbose : bool) (message : jstring) (l : level) :
  succeeds (log verbose message l).
Proof. intros w. exists tt. apply log_fst. Qed.

Lemma succeeds_pathExists (p : jstring) : succeeds (pathExists p).
Proof. intros w. rewrite AnalysisFacts.pathExists_eq. eexists. reflexivity. Qed.


(** ** Documents of one project *)

Lemma generateSelectiveDocument_some project files documentType outputDir w w' d :
  generateSelectiveDocument options project files documentType outputDir w =
    (Ok (Some d), w') ->
  In documentType supportedTypes /\
  gd_type d = documentType /\ gd_classification d = documentType.
Proof.
  intros H.
  destruct (in_dec (list_eq_dec N.eq_dec) documentType supportedTypes) as [Hin|Hnot].
  - split; [exact Hin|].
    pose proof (generateSelectiveDocument_spec options project files outputDir w Hin) as S.
    cbv zeta in S. rewrite H in S. cbn [fst snd] in S. destruct S as [S1 S2].
    match type of S1 with
    | mdxIssues ?c = [] -> _ => destruct (mdxIssues c) eqn:E
    end.
    + destruct (S1 eq_refl) as [S _].
      destruct (if opt_dryRun options then _ else _); [|discriminate].
      inversion S; subst. split; reflexivity.
    + destruct S2 as [S _]; [discriminate|discriminate].
  - pose proof (generateSelectiveDocument_unsupported options project files outputDir w Hnot)
      as S.
    cbv zeta in S. rewrite H in S. destruct S as [S _]. discriminate.
Qed.

Lemma generateOne_spec project files outputDir documentType processedFiles w :
  match generateOne options project files outputDir documentType processedFiles w with
  | (Ok r, _) => r = processedFiles \/ exists d, r = processedFiles ++ [d] /\ fresh documentType d
  | (Err _, _) => False
  end.
Proof.
  unfold generateOne, try_catch. unfold bind at 1.
  destruct (generateSelectiveDocument options project files documentType outputDir w)
    as [[[d|]|e] w1] eqn:E.
  - right. exists d. split; [reflexivity|].
    apply generateSelectiveDocument_some in E. unfold fresh. tauto.
  - left. reflexivity.
  - unfold error. rewrite (bind_ok _ (log_fst _ _ _ _)). left. reflexivity.
Qed.

Lemma generateAll_spec project files outputDir (types : list jstring) :
  forall processedFiles w,
    match foldM types (generateOne options project files outputDir) processedFiles w with
    | (Ok r, _) =>
        exists added,
          r = processedFiles ++ added /\
          subsequence (map gd_type added) types /\
          Forall (fun d => gd_classification d = gd_type d /\ In (gd_type d) supportedTypes)
                 added
    | (Err _, _) => False
    end.
Proof.
  induction types as [|t types IH]; intros processedFiles w; cbn [foldM].
  - exists []. rewrite app_nil_r. repeat split; constructor.
  - unfold bind.
    pose proof (generateOne_spec project files outputDir t processedFiles w) as H1.
    destruct (generateOne options project files outputDir t processedFiles w)
      as [[r1|e] w1]; [|contradiction].
    specialize (IH r1 w1).
    destruct (foldM types (generateOne options project files outputDir) r1 w1)
      as [[r|e] w2]; [|contradiction].
    destruct IH as (added & -> & Hsub & Hall).
    destruct H1 as [->|(d & -> & Ht & Hc & Hin)].
    + exists added. repeat split; [apply sub_skip; exact Hsub|exact Hall].
    + exists (d :: added). rewrite <- app_assoc. repeat split.
      * cbn [map]. rewrite Ht. apply sub_take. exact Hsub.
      * constructor; [|exact Hall]. rewrite Ht, Hc. auto.
Qed.

Lemma processSelectiveProject_spec project w docs w' :
  processSelectiveProject options project w = (Ok docs, w') ->
  subsequence (map gd_type docs) (p_documentTypes project) /\
  Forall (fun d => gd_classification d = gd_type d /\ In (gd_type d) supportedTypes) docs /\
  exists w3,
    w_navigation w' =
      assign (p_name project)
             (map entryOf (sort_files (filter kept (map nav_file_of_doc docs))))
             (w_navigation w3).
Proof.
  unfold processSelectiveProject. intros H.
  apply bind_inv in H. destruct H as (u1 & w1 & _ & H).
  apply bind_inv in H. destruct H as (u2 & w2 & _ & H).
  apply bind_inv in H. destruct H as (files & w3 & _ & H).
  apply bind_inv in H. destruct H as (processed & w4 & Hgen & H).
  apply bind_inv in H. destruct H as (u3 & w5 & Hadd & H).
  unfold ret in H. inversion H; subst; clear H.
  pose proof (generateAll_spec project files (p_outputPath project)
                (p_documentTypes project) [] w3) as G.
  rewrite Hgen in G. destruct G as (added & E & Hsub & Hall). cbn [app] in E. subst added.
  split; [exact Hsub|]. split; [exact Hall|].
  exists w4. rewrite addProject_eq in Hadd. inversion Hadd; subst. reflexivity.
Qed.




(** ** A whole run *)

Lemma selectAll_spec (projects : list ProjectConfig) :
  forall selectedProjects w,
    match foldM projects (selectProject options) selectedProjects w with
    | (r, w') =>
        r = Ok (selectedProjects ++
                map projectOf
                    (filter (fun c => fs_access (w_fs w) (cfg_sourcePath c)) projects)) /\
        w_fs w' = w_fs w
    end.
Proof.
  induction projects as [|c projects IH]; intros selectedProjects w; cbn [foldM].
  - rewrite app_nil_r. split; reflexivity.
  - unfold bind at 1. unfold selectProject at 1. unfold bind at 1.
    rewrite AnalysisFacts.pathExists_eq. cbn [filter].
    destruct (fs_access (w_fs w) (cfg_sourcePath c)).
    + unfold info. rewrite (bind_ok _ (log_fst _ _ _ _)). unfold ret at 1.
      match goal with
      | |- context [foldM projects _ ?acc ?w1] =>
          specialize (IH acc w1); destruct (foldM projects _ acc w1) as [r w2]
      end.
      destruct IH as [-> Hfs]. destruct (quiet_log (opt_verbose options)
        (js "Processing configured project: " ++ cfg_displayName c) Info w) as [Q _].
      rewrite Q in *. split; [|exact Hfs]. cbn [map]. rewrite <- app_assoc. reflexivity.
    + unfold error. rewrite (bind_ok _ (log_fst _ _ _ _)). unfold ret at 1.
      match goal with
      | |- context [foldM projects _ ?acc ?w1] =>
          specialize (IH acc w1); destruct (foldM projects _ acc w1) as [r w2]
      end.
      destruct IH as [-> Hfs]. destruct (quiet_log (opt_verbose options)
        (js "Project path not found: " ++ cfg_sourcePath c) Error w) as [Q _].
      rewrite Q in *. split; [reflexivity|exact Hfs].
Qed.

Lemma succeeds_scanSelectiveProjectFiles project :
  succeeds (scanSelectiveProjectFiles options project).
Proof.
  unfold scanSelectiveProjectFiles, debug.
  apply succeeds_bind; [apply succeeds_log|intros _].
  apply succeeds_bind.
  - apply succeeds_foldM. intros pattern files. unfold scanPattern. cbv zeta.
    apply succeeds_bind.
    + intros w. rewrite glob_literal. eexists. reflexivity.
    + intros matched. apply succeeds_bind; [apply succeeds_loopTry|].
      intros r. destruct (snd r); [|apply succeeds_ret].
      unfold debug. apply succeeds_bind; [apply succeeds_log|intros _; apply succeeds_ret].
  - intros files. apply succeeds_bind; [apply succeeds_log|intros _; apply succeeds_ret].
Qed.

Lemma succeeds_generateOne project files outputDir documentType processedFiles :
  succeeds (generateOne options project files outputDir documentType processedFiles).
Proof.
  unfold generateOne. apply succeeds_try_catch. intros e. unfold error.
  apply succeeds_bind; [apply succeeds_log|intros _; apply succeeds_ret].
Qed.

Lemma succeeds_processSelectiveProject project :
  opt_dryRun options = true -> succeeds (processSelectiveProject options project).
Proof.
  intros Hdry. unfold processSelectiveProject, info.
  apply succeeds_bind; [apply succeeds_log|intros _].
  apply succeeds_bind.
  { apply succeeds_when. rewrite Hdry. discriminate. }
  intros _. apply succeeds_bind; [apply succeeds_scanSelectiveProjectFiles|intros files].
  apply succeeds_bind.
  { apply succeeds_foldM. intros t acc. apply succeeds_generateOne. }
  intros processed. apply succeeds_bind; [|intros _; apply succeeds_ret].
  intros w. rewrite addProject_eq. eexists. reflexivity.
Qed.

Lemma succeeds_printStats : succeeds printStats.
Proof.
  unfold printStats.
  repeat (apply succeeds_bind; [intros w; eexists; reflexivity|intros ?]).
  intros w; eexists; reflexivity.
Qed.

Lemma then_value (A B : Type) (m : M A) (k : M B) (b : B) :
  succeeds m -> (forall w, fst (k w) = Ok b) -> forall w, fst ((m ;;; k) w) = Ok b.
Proof.
  intros Hm Hk w. destruct (Hm w) as (a & Ha). rewrite (bind_ok _ Ha). apply Hk.
Qed.

Lemma dry_scan_value (projects : list ProjectConfig) (w : World) :
  opt_dryRun options = true ->
  fst (scan options projects w) =
  Ok (map projectOf (filter (fun c => fs_access (w_fs w) (cfg_sourcePath c)) projects)).
Proof.
  intros Hdry. unfold scan, info.
  rewrite (bind_ok _ (log_fst _ _ _ _)).
  set (w1 := snd (log _ _ _ w)).
  assert (Hfs : w_fs w1 = w_fs w) by apply quiet_log.
  pose proof (selectAll_spec projects [] w1) as S.
  unfold bind at 1.
  destruct (foldM projects (selectProject options) [] w1) as [r w2].
  destruct S as [-> _]. cbn [app]. rewrite Hfs.
  apply then_value; [apply succeeds_log|].
  apply then_value; [intros w0; eexists; reflexivity|].
  apply then_value.
  { apply succeeds_forEach. intros project.
    apply succeeds_bind; [now apply succeeds_processSelectiveProject|].
    intros _. apply succeeds_ret. }
  rewrite Hdry. cbn [negb when].
  apply then_value; [apply succeeds_ret|].
  apply then_value; [apply succeeds_ret|].
  apply then_value; [apply succeeds_printStats|].
  reflexivity.
Qed.

End PipelineFacts.
End PipelineFacts.

(** * The selective scan of one project *)

Module ScanFacts.
Import RegexFacts StringFacts Shapes.
Import FileClassifier Scanner Selective Frames MonadFacts SelectiveFacts PipelineFacts.

Section ScanFacts.
Context {P : platform}.
Variable options : Options.

Lemma scanMatchedFile_spec project pattern files w :
  fs_access (w_fs w) (path_join (p_path project) pattern) = true ->
  match scanMatchedFile project (path_join (p_path project) pattern) files w with
  | (Ok files', w') =>
      w' = w /\
      (files' = files \/ exists f, files' = files ++ [f] /\ scanned project (w_fs w) pattern f)
  | (Err _, w') => w' = w
  end.
Proof.
  intros Hacc. unfold scanMatchedFile.
  destruct (existsb _ (p_skipPatterns project)) eqn:Hskip.
  { split; [reflexivity|left; reflexivity]. }
  unfold bind at 1. unfold stat.
  destruct (fs_stat (w_fs w) (path_join (p_path project) pattern)) as [st|e] eqn:Hst;
    [|reflexivity].
  destruct (st_isFile st) eqn:Hfile; [|split; [reflexivity|left; reflexivity]].
  unfold bind, readFile, ret.
  destruct (fs_readFile (w_fs w) (path_join (p_path project) pattern)) as [c|e] eqn:Hread;
    [|reflexivity].
  split; [reflexivity|]. right. eexists. split; [reflexivity|].
  unfold scanned. cbn [sf_path sf_content sf_size sf_modified sf_relativePath
                       sf_classification].
  repeat split; try assumption. exists st. repeat split; assumption.
Qed.

Lemma scanPattern_spec project pattern files w :
  match scanPattern options project pattern files w with
  | (Ok files', w') =>
      w_fs w' = w_fs w /\
      (files' = files \/ exists f, files' = files ++ [f] /\ scanned project (w_fs w) pattern f)
  | (Err _, _) => False
  end.
Proof.
  unfold scanPattern. cbv zeta. unfold bind at 1. rewrite glob_literal.
  destruct (fs_access (w_fs w) (path_join (p_path project) pattern)) eqn:Hacc.
  - unfold bind at 1. cbn [loopTry].
    pose proof (scanMatchedFile_spec project pattern files w Hacc) as S.
    destruct (scanMatchedFile project (path_join (p_path project) pattern) files w)
      as [[files'|e] w1].
    + destruct S as [-> S]. cbn [ret snd fst]. split; [reflexivity|exact S].
    + subst w1. cbn [snd fst]. unfold debug.
      rewrite (bind_ok _ (log_fst _ _ _ _)). cbn [ret].
      split; [apply quiet_log|left; reflexivity].
  - cbn [loopTry]. unfold bind, ret. cbn [snd fst].
    split; [reflexivity|left; reflexivity].
Qed.

Lemma scanAll_spec project (patterns : list jstring) :
  forall files w,
    match foldM patterns (scanPattern options project) files w with
    | (Ok files', w') =>
        w_fs w' = w_fs w /\
        exists added,
          files' = files ++ added /\
          Forall (fun f => exists pattern, In pattern patterns /\
                                           scanned project (w_fs w) pattern f) added
    | (Err _, _) => False
    end.
Proof.
  induction patterns as [|pattern patterns IH]; intros files w; cbn [foldM].
  - split; [reflexivity|]. exists []. rewrite app_nil_r. split; constructor.
  - unfold bind.
    pose proof (scanPattern_spec project pattern files w) as S.
    destruct (scanPattern options project pattern files w) as [[files1|e] w1];
      [|contradiction].
    destruct S as [Hfs S]. specialize (IH files1 w1).
    destruct (foldM patterns (scanPattern options project) files1 w1) as [[files2|e] w2];
      [|contradiction].
    destruct IH as [Hfs2 (added & -> & Hall)]. rewrite Hfs in *.
    split; [exact Hfs2|].
    assert (Hall' : Forall (fun f => exists p0, In p0 (pattern :: patterns) /\
                                               scanned project (w_fs w) p0 f) added).
    { rewrite Forall_forall in *. intros f Hf. destruct (Hall f Hf) as (p0 & Hp & Hs).
      exists p0. split; [now right|exact Hs]. }
    destruct S as [->|(f & -> & Hs)].
    + exists added. split; [reflexivity|exact Hall'].
    + exists (f :: added). rewrite <- app_assoc. split; [reflexivity|].
      constructor; [|exact Hall']. exists pattern. split; [now left|exact Hs].
Qed.

Lemma scanSelectiveProjectFiles_spec project w :
  exists files,
    fst (scanSelectiveProjectFiles options project w) = Ok files /\
    Forall (fun f => exists pattern, In pattern (p_primaryFiles project) /\
                                     scanned project (w_fs w) pattern f) files.
Proof.
  unfold scanSelectiveProjectFiles, debug.
  rewrite (bind_ok _ (log_fst _ _ _ _)).
  set (w1 := snd (log _ _ _ w)).
  assert (Hfs : w_fs w1 = w_fs w) by apply quiet_log.
  unfold bind at 1.
  pose proof (scanAll_spec project (p_primaryFiles project) [] w1) as S.
  destruct (foldM (p_primaryFiles project) (scanPattern options project) [] w1)
    as [[files|e] w2]; [|contradiction].
  destruct S as [_ (added & -> & Hall)]. cbn [app]. rewrite Hfs in Hall.
  rewrite (bind_ok _ (log_fst _ _ _ _)). exists added. split; [reflexivity|exact Hall].
Qed.

End ScanFacts.
End ScanFacts.

(** * The changes [processProject] makes *)

Module LegacyFacts.
Import RegexFacts StringFacts Shapes.
Import FileClassifier Scanner Extractor Discovery Frames MonadFacts SelectiveFacts.
Import ClassifierFacts PipelineFacts ConversionFacts.

Section LegacyFacts.
Context {P : platform}.
Variable options : Options.
Variable path_resolve : jstring -> jstring -> jstring.

Let convert := processDocumentationFile options path_resolve.

Lemma convert_targets file project outputDir w :
  map target (w_writes (snd (convert file project outputDir w))) =
  map target (w_writes w) ++
  (if convertible file then [path_join outputDir (generateOutputFilename file)] else []).
Proof.
  unfold convert, convertible.
  destruct (Legacy.f_content file) as [|c s] eqn:Hc.
  { rewrite processDocumentationFile_skip by (left; exact Hc).
    cbn. rewrite app_nil_r. reflexivity. }
  destruct (str_eqb (Legacy.f_classification file) (js "code")) eqn:Hk.
  { apply str_eqb_eq in Hk.
    rewrite processDocumentationFile_skip by (right; exact Hk).
    cbn. rewrite app_nil_r. reflexivity. }
  assert (H1 : Legacy.f_content file <> []) by (rewrite Hc; discriminate).
  assert (H2 : Legacy.f_classification file <> js "code").
  { intros E. rewrite E in Hk. discriminate. }
  pose proof (processDocumentationFile_spec options path_resolve file project outputDir w
                H1 H2) as S.
  cbv zeta in S.
  destruct (processDocumentationFile options path_resolve file project outputDir w)
    as [r w'].
  destruct S as [S _]. cbn [snd nonEmpty negb andb]. rewrite S, map_app. reflexivity.
Qed.

Lemma processOne_targets project outputDir file processedFiles w :
  succeeds (Legacy.processOne options convert project outputDir file processedFiles) /\
  map target
      (w_writes (snd (Legacy.processOne options convert project outputDir file
                        processedFiles w))) =
  map target (w_writes w) ++
  (if convertible file then [path_join outputDir (generateOutputFilename file)] else []).
Proof.
  split.
  - unfold Legacy.processOne. apply succeeds_try_catch. intros e. unfold error.
    apply succeeds_bind; [apply succeeds_log|intros _; apply succeeds_ret].
  - rewrite <- convert_targets with (project := project).
    unfold Legacy.processOne, try_catch. unfold bind at 1.
    destruct (convert file project outputDir w) as [[[f|]|e] w1]; cbn [snd ret];
      reflexivity.
Qed.

Lemma processAll_targets project outputDir (files : list Legacy.File) :
  forall processedFiles w,
    exists r,
      fst (foldM files (Legacy.processOne options convert project outputDir)
                 processedFiles w) = Ok r /\
      map target
          (w_writes (snd (foldM files (Legacy.processOne options convert project outputDir)
                                processedFiles w))) =
      map target (w_writes w) ++
      map (fun f => path_join outputDir (generateOutputFilename f))
          (filter convertible files).
Proof.
  induction files as [|f files IH]; intros processedFiles w; cbn [foldM filter map].
  - exists processedFiles. rewrite app_nil_r. split; reflexivity.
  - destruct (processOne_targets project outputDir f processedFiles w) as [Hs Ht].
    destruct (Hs w) as (r1 & Hr1). unfold bind.
    destruct (Legacy.processOne options convert project outputDir f processedFiles w)
      as [x w1]. cbn [fst snd] in *. subst x.
    destruct (IH r1 w1) as (r & Hr & Hw). exists r. split; [exact Hr|].
    rewrite Hw, Ht. rewrite <- app_assoc. f_equal.
    destruct (convertible f); reflexivity.
Qed.

Lemma convertible_kept (files : list Legacy.File) :
  filter convertible
         (filter (fun f => negb (str_eqb (Legacy.f_classification f) (js "code"))) files) =
  filter convertible files.
Proof.
  induction files as [|f l IH]; [reflexivity|].
  cbn [filter]. unfold convertible at 2 3.
  destruct (str_eqb (Legacy.f_classification f) (js "code")) eqn:E; cbn [negb].
  - rewrite andb_false_r. exact IH.
  - cbn [filter]. unfold convertible at 1. rewrite E. cbn [negb]. rewrite IH.
    reflexivity.
Qed.

Lemma processProject_targets (project : Legacy.Project) (w : World) :
  fst (fs_mkdir (w_fs w) (path_join (opt_outputDir options) (Legacy.name project))) = Ok tt ->
  let outputDir := path_join (opt_outputDir options) (Legacy.name project) in
  map target (w_writes (snd (Legacy.processProject options convert project w))) =
  map target (w_writes w) ++ [outputDir] ++
  map (fun f => path_join outputDir (generateOutputFilename f))
      (filter convertible (Legacy.files project)) ++
  [path_join outputDir (js "index.mdx")].
Proof.
  intros Hmk outputDir. unfold Legacy.processProject. fold outputDir. unfold info.
  rewrite (bind_ok _ (log_fst _ _ _ _)).
  set (w1 := snd (log _ _ _ w)).
  assert (Hw1 : w_writes w1 = w_writes w) by apply quiet_log.
  assert (Hf1 : w_fs w1 = w_fs w) by apply quiet_log.
  unfold bind at 1. unfold mkdir at 1. rewrite Hf1.
  destruct (fs_mkdir (w_fs w) outputDir) as [rm fs'] eqn:Em. unfold outputDir in Em. rewrite Em in Hmk. cbn [fst] in Hmk. subst rm. fold outputDir in Em.
  set (w2 := MkWorld _ _ _ _ _ _ _).
  assert (Hw2 : w_writes w2 = w_writes w ++ [OpMkdir outputDir]).
  { unfold w2. cbn [w_writes]. rewrite Hw1. reflexivity. }
  unfold bind at 1.
  set (kept := filter (fun f => negb (str_eqb (Legacy.f_classification f) (js "code")))
                      (Legacy.files project)).
  destruct (processAll_targets project outputDir kept [] w2) as (r & Hr & Ht).
  destruct (foldM kept (Legacy.processOne options convert project outputDir) [] w2)
    as [x w3]. cbn [fst snd] in *. subst x.
  pose proof (convertible_kept (Legacy.files project)) as Hk. fold kept in Hk.
  rewrite Hk, Hw2, map_app in Ht. cbn [map target] in Ht.
  assert (Hidx : map target
                   (w_writes (snd (Legacy.generateProjectIndex project r outputDir w3))) =
                 map target (w_writes w3) ++ [path_join outputDir (js "index.mdx")]).
  { unfold Legacy.generateProjectIndex, today, bind, now, ret, writeFile. cbn [fst snd].
    destruct (fs_writeFile _ _ _) as [rw fs'']. cbn [w_writes snd].
    rewrite map_app. reflexivity. }
  unfold bind.
  destruct (Legacy.generateProjectIndex project r outputDir w3) as [[u|e] w4];
    cbn [snd] in *.
  - rewrite NavigationFacts.addProject_eq. cbn [snd w_writes].
    rewrite Hidx, Ht. repeat rewrite <- app_assoc. reflexivity.
  - rewrite Hidx, Ht. repeat rewrite <- app_assoc. reflexivity.
Qed.

End LegacyFacts.
End LegacyFacts.

(** * The syntax pass of the validator *)

Module SyntaxFacts.
Import RegexFacts StringFacts Shapes.
Import Scanner Extractor.
Import SyntaxCheck.

Lemma numbered_in (lines : list jstring) :
  forall start n line,
    In (n, line) (combine (seq start (List.length lines)) lines) ->
    start <= n /\ nth_error lines (n - start) = Some line.
Proof.
  induction lines as [|l lines IH]; intros start n line H; cbn in H; [contradiction|].
  destruct H as [H|H].
  - inversion H; subst. rewrite Nat.sub_diag. split; [lia|reflexivity].
  - apply IH in H. destruct H as [H1 H2]. split; [lia|].
    replace (n - start) with (S (n - S start)) by lia. exact H2.
Qed.

Lemma numbered_nth (lines : list jstring) :
  forall start i line,
    nth_error lines i = Some line ->
    In (start + i, line) (combine (seq start (List.length lines)) lines).
Proof.
  induction lines as [|l lines IH]; intros start i line H; [destruct i; discriminate|].
  cbn [List.length seq combine]. destruct i as [|i]; cbn in H.
  - inversion H; subst. left. f_equal. lia.
  - right. replace (start + S i) with (S start + i) by lia. apply IH. exact H.
Qed.

Lemma startsWith_app (a b : jstring) : startsWith (a ++ b) a = true.
Proof. apply startsWith_iff. eauto. Qed.

Lemma lineErrors_place (filePath : jstring) (n : nat) (line issue : jstring) :
  In issue (lineErrors filePath n line) -> startsWith issue (place filePath n) = true.
Proof.
  unfold lineErrors. cbv zeta. rewrite in_app_iff, in_flat_map.
  intros [H|(cs & _ & H)].
  - destruct (rtest _ _); [|contradiction]. destruct H as [<-|[]].
    apply startsWith_iff. unfold place. eexists.
    change (js " - Heading starts with number: ")
      with (js " - " ++ js "Heading starts with number: ").
    repeat rewrite <- app_assoc. reflexivity.
  - destruct (isBlank _); [|contradiction]. destruct H as [<-|[]].
    apply startsWith_iff. unfold place. eexists.
    change (js " - Empty link URL: ") with (js " - " ++ js "Empty link URL: ").
    repeat rewrite <- app_assoc. reflexivity.
Qed.

Lemma lineWarnings_place (filePath : jstring) (n : nat) (line issue : jstring) :
  In issue (lineWarnings filePath n line) -> startsWith issue (place filePath n) = true.
Proof.
  unfold lineWarnings. cbv zeta. rewrite in_app_iff, in_flat_map.
  intros [H|(cs & _ & H)].
  - destruct (_ && _); [|contradiction]. destruct H as [<-|[]].
    apply startsWith_iff. unfold place. eexists.
    change (js " - Potential invalid JSX expression: ")
      with (js " - " ++ js "Potential invalid JSX expression: ").
    repeat rewrite <- app_assoc. reflexivity.
  - destruct (isBlank _); [|contradiction]. destruct H as [<-|[]].
    apply startsWith_iff. unfold place. eexists.
    change (js " - Empty link text: ") with (js " - " ++ js "Empty link text: ").
    repeat rewrite <- app_assoc. reflexivity.
Qed.

Lemma checkMDXSyntax_places (content filePath issue : jstring) :
  In issue (fst (checkMDXSyntax content filePath) ++ snd (checkMDXSyntax content filePath)) ->
  exists n line,
    1 <= n /\ nth_error (split nl content) (n - 1) = Some line /\
    startsWith issue (place filePath n) = true.
Proof.
  unfold checkMDXSyntax. cbn [fst snd]. rewrite in_app_iff, !in_flat_map.
  intros [([n line] & Hin & H)|([n line] & Hin & H)]; cbn [fst snd] in H;
    apply numbered_in in Hin; destruct Hin as [H1 H2]; exists n, line;
    (split; [exact H1|split; [exact H2|]]).
  - eapply lineErrors_place; eauto.
  - eapply lineWarnings_place; eauto.
Qed.

(** ** Numbered headings *)

Lemma star_greedy_exact (p : char -> bool) (k : cont) (a b : jstring)
    (cs : list (nat * jstring)) :
  forallb p a = true ->
  (forall pv, exists r, k (MState pv b cs) = Some r) ->
  match b with c :: _ => p c = false | [] => True end ->
  forall pv, exists r, star_greedy p k pv (a ++ b) cs = Some r.
Proof.
  intros Ha Hk Hb. induction a as [|c a IH]; intros pv.
  - cbn [app]. destruct b as [|c b]; cbn [star_greedy]; [apply Hk|].
    rewrite Hb. apply Hk.
  - cbn [forallb] in Ha. apply andb_true_iff in Ha. destruct Ha as [Hc Ha].
    cbn [app star_greedy]. rewrite Hc.
    destruct (IH Ha (Some c)) as (r & ->). eauto.
Qed.

Lemma not_hash_space (c : char) : isSpace c = true -> only "#"%char c = false.
Proof.
  intros H. destruct (only "#"%char c) eqn:E; [|reflexivity]. exfalso.
  unfold only in E. apply ch_eqb_eq in E. subst c. discriminate H.
Qed.

Lemma not_hash_digit (c : char) : isDigit c = true -> only "#"%char c = false.
Proof.
  intros H. destruct (only "#"%char c) eqn:E; [|reflexivity]. exfalso.
  unfold only in E. apply ch_eqb_eq in E. subst c. discriminate H.
Qed.

Lemma not_space_digit (c : char) : isDigit c = true -> isSpace c = false.
Proof.
  intros H. destruct (isSpace c) eqn:E; [|reflexivity]. exfalso.
  unfold isDigit, isSpace, isLineTerminator in *.
  rewrite ?orb_true_iff, ?andb_true_iff, ?N.eqb_eq, ?N.leb_le in *. lia.
Qed.

Lemma numberedHeading_test (marks spaces : jstring) (d : char) (text : jstring) :
  marks <> [] ->
  forallb (only "#"%char) marks = true ->
  forallb isSpace spaces = true ->
  isDigit d = true ->
  rtest re_numberedHeading (marks ++ spaces ++ d :: text) = true.
Proof.
  intros Hm Hmarks Hspaces Hd. unfold rtest, rsearch.
  assert (E : exists st, rmatch re_numberedHeading Some
                           (MState None (marks ++ spaces ++ d :: text) []) = Some st).
  { unfold re_numberedHeading, RPlus. cbn [rmatch at_bol prev rest caps].
    destruct marks as [|m marks]; [congruence|].
    cbn [forallb] in Hmarks. apply andb_true_iff in Hmarks. destruct Hmarks as [Hm0 Hmarks].
    cbn [app]. rewrite Hm0. cbn [prev rest caps].
    apply star_greedy_exact; [exact Hmarks| |].
    - intros pv. cbn [rmatch prev rest caps].
      apply star_greedy_exact; [exact Hspaces| |].
      + intros pv'. cbn [rmatch rest]. rewrite Hd. eauto.
      + apply not_space_digit, Hd.
    - destruct spaces as [|s spaces]; cbn [app].
      + apply not_hash_digit, Hd.
      + cbn [forallb] in Hspaces. apply andb_true_iff in Hspaces.
        apply not_hash_space, Hspaces. }
  destruct E as (st & E).
  destruct (marks ++ spaces ++ d :: text) as [|c s] eqn:Es; cbn [search_from];
    unfold rexec; rewrite E; reflexivity.
Qed.

End SyntaxFacts.

(** * The syntax pass over the files *)

Module PassFacts.
Import RegexFacts StringFacts Shapes.
Import FileClassifier Scanner Frames MonadFacts Validator SyntaxCheck.

Section PassFacts.
Context {P : platform}.
Variable options : Validator.Options.
Variable glob : FS -> jstring -> jstring -> result (list jstring).

Lemma syntaxStep_eq (file : jstring) (st : State) (w : World) :
  syntaxStep file st w =
  (Ok (MkState (errors st ++ fst (syntaxIssues (w_fs w) file))
               (warnings st ++ snd (syntaxIssues (w_fs w) file))), w).
Proof.
  unfold syntaxStep, try_catch, bind, readFile, ret, syntaxIssues.
  destruct (fs_readFile (w_fs w) file) as [content|message]; cbn [fst snd].
  - reflexivity.
  - rewrite app_nil_r. reflexivity.
Qed.

Lemma syntaxLoop_eq (files : list jstring) :
  forall st w,
    foldM files syntaxStep st w =
    (Ok (MkState (errors st ++ flat_map (fun f => fst (syntaxIssues (w_fs w) f)) files)
                 (warnings st ++ flat_map (fun f => snd (syntaxIssues (w_fs w) f)) files)),
     w).
Proof.
  induction files as [|f files IH]; intros st w; cbn [foldM flat_map].
  - rewrite !app_nil_r. destruct st; reflexivity.
  - unfold bind. rewrite syntaxStep_eq. rewrite IH. cbn [errors warnings].
    rewrite <- !app_assoc. reflexivity.
Qed.

Lemma validateMDXSyntax_spec (files : list jstring) (st : State) (w : World) :
  glob (w_fs w) (js "**/*.mdx") (docsDir options) = Ok files ->
  let paths := map (fun file => path_join (docsDir options) file) files in
  let r := validateMDXSyntax options glob st w in
  fst r =
    Ok (MkState (errors st ++ flat_map (fun f => fst (syntaxIssues (w_fs w) f)) paths)
                (warnings st ++ flat_map (fun f => snd (syntaxIssues (w_fs w) f)) paths)) /\
  w_fs (snd r) = w_fs w /\ w_writes (snd r) = w_writes w.
Proof.
  intros Hg paths r. subst r. unfold validateMDXSyntax, bind, console_log, findFiles.
  cbn [fst snd w_fs]. rewrite Hg. rewrite syntaxLoop_eq. cbn [fst snd w_fs w_writes].
  repeat split; reflexivity.
Qed.

End PassFacts.
End PassFacts.

(** * The sanitizer on plain text *)

Module PlainTextFacts.
Import RegexFacts StringFacts Shapes.

Import Sanitizer SanitizerFacts.

Lemma rexec_den (r : regex) (pv : option char) (s : jstring) n cs :
  rexec r pv s = Some (n, cs) -> exists st', den r (MState pv s []) st'.
Proof.
  unfold rexec. destruct (rmatch r Some (MState pv s [])) as [st|] eqn:E; [|discriminate].
  intros _. apply rmatch_sound in E. destruct E as (st' & Hd & _). eauto.
Qed.

Lemma replace_from_id (r : regex) (f : replacer) (l : jstring) :
  opens_with l r ->
  forall s pv, includes s l = false -> replace_from r f pv s 0 = s.
Proof.
  intros Hr. induction s as [|c s IH]; intros pv Hs; cbn [replace_from].
  - destruct (rexec r pv []) as [[n cs]|] eqn:E; [|reflexivity].
    apply Hr in E. cbn [includes] in Hs. rewrite E in Hs. discriminate.
  - destruct (rexec r pv (c :: s)) as [[n cs]|] eqn:E.
    + apply Hr in E. apply includes_false_startsWith in Hs. congruence.
    + f_equal. apply IH. eapply includes_false_tl. exact Hs.
Qed.

Lemma replace_first_from_id (r : regex) (f : replacer) (l : jstring) :
  opens_with l r ->
  forall s pv, includes s l = false -> replace_first_from r f pv s = s.
Proof.
  intros Hr. induction s as [|c s IH]; intros pv Hs; cbn [replace_first_from].
  - destruct (rexec r pv []) as [[n cs]|] eqn:E; [|reflexivity].
    apply Hr in E. cbn [includes] in Hs. rewrite E in Hs. discriminate.
  - destruct (rexec r pv (c :: s)) as [[n cs]|] eqn:E.
    + apply Hr in E. apply includes_false_startsWith in Hs. congruence.
    + f_equal. apply IH. eapply includes_false_tl. exact Hs.
Qed.

Lemma opens_lit (l l' : jstring) (r : regex) : opens_with l (RLit (l ++ l') >> r).
Proof.
  intros pv suf n cs H. apply rexec_den in H. destruct H as (st' & mid & Hl & _).
  apply den_RLit in Hl. destruct Hl as [Hl _]. cbn [rest] in Hl.
  apply startsWith_iff. rewrite Hl, <- app_assoc. eauto.
Qed.

Lemma opens_char (a : ascii) (r : regex) : opens_with [ch a] (RChar (only a) >> r).
Proof.
  intros pv suf n cs H. apply rexec_den in H.
  destruct H as (st' & mid & (c & Hc & Hp & _) & _). cbn [rest] in Hc.
  unfold only in Hp. apply ch_eqb_eq in Hp. subst c.
  apply startsWith_iff. rewrite Hc. exists (rest mid). reflexivity.
Qed.

Lemma opens_bol (m : bool) (l : jstring) (r : regex) :
  opens_with l r -> opens_with l (RBol m >> r).
Proof.
  intros Hr pv suf n cs H. apply (Hr pv suf n cs).
  unfold rexec in *. cbn [rmatch] in H. destruct (at_bol m _); [exact H|discriminate].
Qed.

Lemma sanitize_plain (content : jstring) :
  includes content (js "<") = false ->
  includes content (js "{") = false ->
  includes content (js "---") = false ->
  sanitizeMDXContent content = trim content.
Proof.
  intros Hlt Hbrace Hfence. unfold sanitizeMDXContent.
  destruct content as [|c content]; [reflexivity|].
  set (s := c :: content) in *.
  assert (E1 : stripDoctype s = s).
  { apply replace_from_id with (l := js "<"); [|exact Hlt].
    apply (opens_lit (js "<") (js "!DOCTYPE")). }
  rewrite E1.
  assert (E2 : normalizeBr s = s).
  { apply replace_from_id with (l := js "<"); [|exact Hlt].
    apply (opens_lit (js "<") (js "br")). }
  rewrite E2.
  assert (E3 : closeTags s = s).
  { apply replace_from_id with (l := js "<"); [|exact Hlt]. apply opens_char. }
  rewrite E3.
  assert (E4 : commentNumbered s = s).
  { apply replace_from_id with (l := js "{"); [|exact Hbrace]. apply opens_char. }
  rewrite E4.
  assert (E5 : dropUnclosed s = s).
  { apply replace_from_id with (l := js "{"); [|exact Hbrace]. apply opens_char. }
  rewrite E5.
  assert (E6 : cleanFrontmatter s = s).
  { apply replace_first_from_id with (l := js "---"); [|exact Hfence].
    apply opens_bol. apply (opens_lit (js "---") []). }
  rewrite E6. reflexivity.
Qed.

End PlainTextFacts.

(** * Two runs of the selective generator *)

Module RegenerationFacts.
Import FileClassifier Sanitizer Scanner Selective Frames.
Import ClassifierFacts MonadFacts SelectiveFacts Regeneration.

Section RegenerationFacts.
Context {P : platform}.
Variable options : Options.
Variable project : Project.

#[local] Abbreviation regen := (regenerates project).

Lemma alike_refl (fs : FS) : alike project fs fs.
Proof.
  intros ops _. revert fs. induction ops as [|op ops IH]; intros fs; cbn.
  - auto.
  - auto.
Qed.

Lemma alike_source (fs1 fs2 : FS) (pattern : jstring) :
  alike project fs1 fs2 ->
  In pattern (p_primaryFiles project) ->
  let filePath := path_join (p_path project) pattern in
  fs_access fs1 filePath = fs_access fs2 filePath /\
  fs_stat fs1 filePath = fs_stat fs2 filePath /\
  fs_readFile fs1 filePath = fs_readFile fs2 filePath.
Proof.
  intros H Hin filePath. specialize (H [] (Forall_nil _)). destruct H as [H _].
  unfold sourceView in H. subst filePath.
  induction (p_primaryFiles project) as [|p l IH]; [contradiction|].
  cbn [map] in H. inversion H. destruct Hin as [->|Hin]; auto.
Qed.

Lemma alike_step (fs1 fs2 : FS) (op : fsop) :
  alike project fs1 fs2 ->
  outputOp project op ->
  fst (perform op fs1) = fst (perform op fs2) /\
  alike project (snd (perform op fs1)) (snd (perform op fs2)).
Proof.
  intros H Hop. split.
  - destruct (H [op]) as (_ & Hr & _); [repeat constructor; exact Hop|exact Hr].
  - intros ops Hops. destruct (H (op :: ops)) as (_ & _ & Hrest); [|exact Hrest].
    constructor; assumption.
Qed.

Ltac quiet_prim :=
  intros w1 w2 [Hfs Hclock]; cbn;
  split; [reflexivity|]; split; [split; assumption|];
  exists []; rewrite !app_nil_r; split; reflexivity.

Lemma regen_ret (A : Type) (a : A) : regen (ret a).
Proof. quiet_prim. Qed.

Lemma regen_throw (A : Type) (e : jstring) : regen (throw (A := A) e).
Proof. quiet_prim. Qed.

Lemma regen_lift (A : Type) (r : result A) : regen (lift r).
Proof. quiet_prim. Qed.

Lemma regen_bind (A B : Type) (m : M A) (k : A -> M B) :
  regen m -> (forall a, regen (k a)) -> regen (bind m k).
Proof.
  intros Hm Hk w1 w2 H. unfold bind. specialize (Hm w1 w2 H).
  destruct (m w1) as [[a1|e1] w1'], (m w2) as [[a2|e2] w2']; cbn [fst snd] in *;
    destruct Hm as (Hr & Hw & written & H1 & H2); inversion Hr; subst.
  - destruct (Hk a2 w1' w2' Hw) as (Hr' & Hw' & written' & H1' & H2').
    split; [exact Hr'|]. split; [exact Hw'|].
    exists (written ++ written'). rewrite H1', H2', H1, H2, <- !app_assoc.
    split; reflexivity.
  - split; [reflexivity|]. split; [exact Hw|]. exists written. split; assumption.
Qed.

Lemma regen_try_catch (A : Type) (m : M A) (h : jstring -> M A) :
  regen m -> (forall e, regen (h e)) -> regen (try_catch m h).
Proof.
  intros Hm Hh w1 w2 H. unfold try_catch. specialize (Hm w1 w2 H).
  destruct (m w1) as [[a1|e1] w1'], (m w2) as [[a2|e2] w2']; cbn [fst snd] in *;
    destruct Hm as (Hr & Hw & written & H1 & H2); inversion Hr; subst.
  - split; [reflexivity|]. split; [exact Hw|]. exists written. split; assumption.
  - destruct (Hh e2 w1' w2' Hw) as (Hr' & Hw' & written' & H1' & H2').
    split; [exact Hr'|]. split; [exact Hw'|].
    exists (written ++ written'). rewrite H1', H2', H1, H2, <- !app_assoc.
    split; reflexivity.
Qed.

Lemma regen_when (b : bool) (m : M unit) : (b = true -> regen m) -> regen (when b m).
Proof. destruct b; cbn; [auto|intros _; apply regen_ret]. Qed.

Lemma regen_foldM (A S : Type) (xs : list A) (body : A -> S -> M S) (s : S) :
  (forall x s, In x xs -> regen (body x s)) -> regen (foldM xs body s).
Proof.
  revert s. induction xs as [|x xs IH]; intros s Hb; cbn [foldM].
  - apply regen_ret.
  - apply regen_bind; [apply Hb; now left|].
    intros a. apply IH. intros y s' Hy. apply Hb. now right.
Qed.

Lemma regen_log (verbose : bool) (message : jstring) (l : level) :
  regen (log verbose message l).
Proof.
  intros w1 w2 [Hfs Hclock].
  unfold log, bind, now, when, console_log, get_stats, set_stats, ret.
  destruct l, verbose; cbn; (split; [reflexivity|]); (split; [split; assumption|]);
    exists []; rewrite !app_nil_r; split; reflexivity.
Qed.

Lemma regen_today : regen today.
Proof.
  intros w1 w2 [Hfs Hclock]. unfold today, bind, now, ret. cbn.
  split; [f_equal; apply Hclock|]. split; [split; assumption|].
  exists []. rewrite !app_nil_r. split; reflexivity.
Qed.

Lemma regen_addProject (projectName : jstring) (files : list nav_file) :
  regen (addProject projectName files).
Proof.
  intros w1 w2 [Hfs Hclock]. unfold addProject, bind, get_navigation, set_navigation. cbn.
  split; [reflexivity|]. split; [split; assumption|].
  exists []. rewrite !app_nil_r. split; reflexivity.
Qed.

Lemma regen_mkdir : regen (mkdir (p_outputPath project)).
Proof.
  intros w1 w2 [Hfs Hclock]. unfold mkdir.
  destruct (@alike_step (w_fs w1) (w_fs w2) (OpMkdir (p_outputPath project)) Hfs)
    as [Hr Ha]; [reflexivity|].
  cbn [perform] in Hr, Ha.
  destruct (fs_mkdir (w_fs w1) (p_outputPath project)) as [r1 fs1'],
           (fs_mkdir (w_fs w2) (p_outputPath project)) as [r2 fs2'].
  cbn [fst snd] in *. split; [exact Hr|]. split; [split; assumption|].
  eexists. split; reflexivity.
Qed.

Lemma regen_writeFile (documentType content : jstring) :
  In documentType (p_documentTypes project) ->
  regen (writeFile (path_join (p_outputPath project) (documentType ++ js ".mdx")) content).
Proof.
  intros Hin w1 w2 [Hfs Hclock]. unfold writeFile.
  set (p := path_join (p_outputPath project) (documentType ++ js ".mdx")).
  destruct (@alike_step (w_fs w1) (w_fs w2) (OpWriteFile p content) Hfs)
    as [Hr Ha]; [exists documentType; split; [exact Hin|reflexivity]|].
  cbn [perform] in Hr, Ha.
  destruct (fs_writeFile (w_fs w1) p content) as [r1 fs1'],
           (fs_writeFile (w_fs w2) p content) as [r2 fs2'].
  cbn [fst snd] in *. split; [exact Hr|]. split; [split; assumption|].
  eexists. split; reflexivity.
Qed.

Lemma regen_bind_post (A B : Type) (m : M A) (k : A -> M B) (Q : A -> Prop) :
  regen m ->
  (forall w a, fst (m w) = Ok a -> Q a) ->
  (forall a, Q a -> regen (k a)) ->
  regen (bind m k).
Proof.
  intros Hm HQ Hk w1 w2 H. unfold bind. specialize (Hm w1 w2 H).
  pose proof (HQ w2) as HQ2.
  destruct (m w1) as [[a1|e1] w1'], (m w2) as [[a2|e2] w2']; cbn [fst snd] in *;
    destruct Hm as (Hr & Hw & written & H1 & H2); inversion Hr; subst.
  - destruct (Hk a2 (HQ2 a2 eq_refl) w1' w2' Hw) as (Hr' & Hw' & written' & H1' & H2').
    split; [exact Hr'|]. split; [exact Hw'|].
    exists (written ++ written'). rewrite H1', H2', H1, H2, <- !app_assoc.
    split; reflexivity.
  - split; [reflexivity|]. split; [exact Hw|]. exists written. split; assumption.
Qed.

Lemma regen_loopTry (A S : Type) (xs : list A) (body : A -> S -> M S) (s : S) :
  (forall x s, In x xs -> regen (body x s)) -> regen (loopTry xs body s).
Proof.
  revert s. induction xs as [|x xs IH]; intros s Hb w1 w2 H; cbn [loopTry].
  - now apply regen_ret.
  - specialize (Hb x s (or_introl eq_refl) w1 w2 H) as Hx.
    destruct (body x s w1) as [[a1|e1] w1'], (body x s w2) as [[a2|e2] w2']; cbn [fst snd] in *;
      destruct Hx as (Hr & Hw & written & H1 & H2); inversion Hr; subst.
    + destruct (IH a2 (fun y s' Hy => Hb y s' (or_intror Hy)) w1' w2' Hw)
        as (Hr' & Hw' & written' & H1' & H2').
      split; [exact Hr'|]. split; [exact Hw'|].
      exists (written ++ written'). rewrite H1', H2', H1, H2, <- !app_assoc.
      split; reflexivity.
    + split; [reflexivity|]. split; [exact Hw|]. exists written. split; assumption.
Qed.

(** ** Reading a primary file *)

Section Source.
Variable pattern : jstring.
Hypothesis declared : In pattern (p_primaryFiles project).

Let filePath := path_join (p_path project) pattern.

Ltac source_prim :=
  intros w1 w2 H; pose proof H as [Hfs Hclock];
  destruct (alike_source pattern Hfs declared) as (Ha & Hs & Hr); cbv zeta in Ha, Hs, Hr;
  unfold filePath; cbn [fst snd]; rewrite ?Ha, ?Hs, ?Hr;
  split; [reflexivity|]; split; [exact H|];
  exists []; rewrite !app_nil_r; split; reflexivity.

Lemma regen_access : regen (access filePath).
Proof. unfold access. source_prim. Qed.

Lemma regen_stat : regen (stat filePath).
Proof. unfold stat. source_prim. Qed.

Lemma regen_readFile : regen (readFile filePath).
Proof. unfold readFile. source_prim. Qed.

Lemma regen_glob : regen (glob filePath).
Proof.
  unfold glob, pathExists.
  apply regen_try_catch; [|intros; apply regen_ret].
  apply regen_bind.
  - apply regen_try_catch; [|intros; apply regen_ret].
    apply regen_bind; [apply regen_access|intros; apply regen_ret].
  - intros []; apply regen_ret.
Qed.

Lemma regen_scanMatchedFile (files : list SourceFile) :
  regen (scanMatchedFile project filePath files).
Proof.
  unfold scanMatchedFile. destruct (existsb _ _); [apply regen_ret|].
  apply regen_bind; [apply regen_stat|]. intros st.
  destruct (st_isFile st); [|apply regen_ret].
  apply regen_bind; [apply regen_readFile|intros; apply regen_ret].
Qed.

Lemma regen_scanPattern (files : list SourceFile) :
  regen (scanPattern options project pattern files).
Proof.
  unfold scanPattern. cbv zeta. fold filePath.
  apply regen_bind_post with (Q := fun matched => forall x, In x matched -> x = filePath).
  - apply regen_glob.
  - intros w a Hg. rewrite glob_literal in Hg. cbn [fst] in Hg. inversion Hg.
    destruct (fs_access (w_fs w) filePath); intros x Hx;
      [destruct Hx as [<-|[]]; reflexivity|destruct Hx].
  - intros matched Hm. apply regen_bind.
    + apply regen_loopTry. intros x s Hx. rewrite (Hm x Hx). apply regen_scanMatchedFile.
    + intros [s [message|]]; cbn [snd fst]; [|apply regen_ret].
      apply regen_bind; [apply regen_log|intros; apply regen_ret].
Qed.

End Source.

Lemma regen_scanSelectiveProjectFiles :
  regen (scanSelectiveProjectFiles options project).
Proof.
  unfold scanSelectiveProjectFiles.
  apply regen_bind; [apply regen_log|intros _].
  apply regen_bind.
  - apply regen_foldM. intros pattern files Hin. now apply regen_scanPattern.
  - intros files. apply regen_bind; [apply regen_log|intros; apply regen_ret].
Qed.

(** ** Writing a document *)

Create HintDb regen.
#[local] Hint Resolve regen_ret regen_throw regen_lift regen_bind regen_try_catch
  regen_log regen_today regen_addProject : regen.
#[local] Hint Extern 3 (regenerates _ (when _ _)) => apply regen_when; intros : regen.
#[local] Hint Extern 3 (regenerates _ (if ?b then _ else _)) => destruct b : regen.
#[local] Hint Extern 3 (regenerates _ (match ?x with _ => _ end)) => destruct x : regen.
#[local] Hint Extern 1 (regenerates _ (debug _ _)) => unfold debug : regen.
#[local] Hint Extern 1 (regenerates _ (info _ _)) => unfold info : regen.
#[local] Hint Extern 1 (regenerates _ (error _ _)) => unfold error : regen.

Lemma regen_generateCleanFrontmatter documentType source :
  regen (generateCleanFrontmatter project documentType source).
Proof. unfold generateCleanFrontmatter. auto with regen. Qed.

Lemma regen_generateIntroductionContent files :
  regen (generateIntroductionContent project files).
Proof. unfold generateIntroductionContent. auto with regen. Qed.

Lemma regen_validateMDXSyntax content : regen (validateMDXSyntax options content).
Proof. unfold validateMDXSyntax. auto 10 with regen. Qed.

Lemma regen_selectContent files documentType :
  regen (selectContent project files documentType).
Proof.
  unfold selectContent. pose proof regen_generateIntroductionContent.
  auto 10 with regen.
Qed.

Lemma regen_generateSelectiveDocument files documentType :
  In documentType (p_documentTypes project) ->
  regen (generateSelectiveDocument options project files documentType
           (p_outputPath project)).
Proof.
  intros Hin. unfold generateSelectiveDocument.
  pose proof regen_selectContent. pose proof regen_generateCleanFrontmatter.
  pose proof regen_validateMDXSyntax. pose proof (regen_writeFile documentType).
  auto 20 with regen.
Qed.

Lemma regen_generateOne files documentType processedFiles :
  In documentType (p_documentTypes project) ->
  regen (generateOne options project files (p_outputPath project) documentType
           processedFiles).
Proof.
  intros Hin. unfold generateOne.
  pose proof (regen_generateSelectiveDocument files documentType Hin).
  auto 10 with regen.
Qed.

Lemma regen_processSelectiveProject : regen (processSelectiveProject options project).
Proof.
  unfold processSelectiveProject. cbv zeta.
  apply regen_bind; [auto with regen|intros _].
  apply regen_bind; [apply regen_when; intros; apply regen_mkdir|intros _].
  apply regen_bind; [apply regen_scanSelectiveProjectFiles|intros files].
  apply regen_bind.
  - apply regen_foldM. intros documentType processedFiles Hin.
    now apply regen_generateOne.
  - intros processedFiles. auto with regen.
Qed.

End RegenerationFacts.
End RegenerationFacts.

(** ** On the concrete platform *)

Module PosixFacts.
Import FileClassifier Scanner Selective Frames ClassifierFacts.
Import Regeneration Posix PosixDisk.

Lemma fs_get_put (fs : fsmap) (p q : jstring) (n : node) :
  fs_get (fs_put fs p n) q =
  if str_eqb (resolve q) (resolve p) then Some n else fs_get fs q.
Proof.
  unfold fs_get, fs_put. destruct (str_eqb (resolve q) (resolve p)) eqn:E.
  - apply str_eqb_eq in E. rewrite E. apply ExtractorFacts.lookup_assign.
  - now apply ExtractorFacts.lookup_assign_other.
Qed.

Section PosixFacts.
Variable project : Project.
Hypothesis Hapart : apart project.

Lemma sameSources_put (fs1 fs2 : fsmap) (p : jstring) (n : node) :
  (n = Dir -> Forall (fun documentType =>
                        str_eqb (resolve (documentPath project documentType)) (resolve p)
                        = false) (p_documentTypes project)) ->
  sameSources project fs1 fs2 ->
  sameSources project (fs_put fs1 p n) (fs_put fs2 p n).
Proof.
  intros Hn [Hs Hd]. split.
  - rewrite Forall_forall in *. intros pattern Hin. rewrite !fs_get_put.
    destruct (str_eqb _ _); [reflexivity|now apply Hs].
  - rewrite Forall_forall in *. intros documentType Hin. rewrite !fs_get_put.
    destruct (str_eqb _ (resolve p)) eqn:E.
    + destruct n; [split; discriminate|].
      rewrite (Hn eq_refl documentType Hin) in E. discriminate.
    + now apply Hd.
Qed.

Lemma sameSources_view (fs1 fs2 : fsmap) :
  sameSources project fs1 fs2 ->
  sourceView (P := posix) project fs1 = sourceView (P := posix) project fs2.
Proof.
  intros [Hs _]. unfold sourceView. apply map_ext_in. intros pattern Hin.
  rewrite Forall_forall in Hs. specialize (Hs pattern Hin).
  cbn [fs_access fs_stat fs_readFile path_join posix]. rewrite Hs. reflexivity.
Qed.

Lemma sameSources_alike (fs1 fs2 : fsmap) :
  sameSources project fs1 fs2 -> alike (P := posix) project fs1 fs2.
Proof.
  intros H ops Hops. revert fs1 fs2 H.
  induction Hops as [|op ops Hop Hops IH]; intros fs1 fs2 H; cbn [alikeThrough].
  - split; [now apply sameSources_view|exact I].
  - split; [now apply sameSources_view|].
    destruct op as [p|p content]; cbn [outputOp] in Hop; cbn [perform].
    + subst p. cbn [fs_mkdir posix fst snd]. split; [reflexivity|].
      apply IH. apply sameSources_put; [|exact H]. intros _. exact Hapart.
    + destruct Hop as (documentType & Hin & ->).
      destruct H as [Hs Hd]. pose proof Hd as Hd'. rewrite Forall_forall in Hd'.
      destruct (Hd' documentType Hin) as [H1 H2].
      unfold documentPath in H1, H2.
      cbn [fs_writeFile posix path_join].
      destruct (fs_get fs1 _) as [[c1|]|] eqn:E1; try (now elim H1);
        destruct (fs_get fs2 _) as [[c2|]|] eqn:E2; try (now elim H2);
        cbn [fst snd]; (split; [reflexivity|]);
        apply IH; apply sameSources_put; try discriminate; split; assumption.
Qed.

End PosixFacts.
End PosixFacts.

(** * The report of the validator and the types the generator does not know *)

Module VerdictFacts.
Import Scanner Validator ValidatorFacts Passes.

Section VerdictFacts.
Context {P : platform}.
Variable options : Validator.Options.
Variable glob : FS -> jstring -> jstring -> result (list jstring).
Variables v1 v2 v3 v4 : State -> M State.

Lemma validate_collect (st : State) (w : World) :
  match collect options glob v1 v2 v3 v4 st w with
  | (Ok collected, w') =>
      validate options glob v1 v2 v3 v4 st w =
      (Ok (MkReport (Nat.eqb (List.length (errors collected)) 0)
                    (errors collected) (warnings collected)),
       snd (printReport collected w'))
  | (Err e, w') => validate options glob v1 v2 v3 v4 st w = (Err e, w')
  end.
Proof.
  unfold validate, collect, bind, console_log.
  destruct (v1 st _) as [[st1|e] w1]; [|reflexivity].
  destruct (v2 st1 w1) as [[st2|e] w2]; [|reflexivity].
  destruct (v3 st2 w2) as [[st3|e] w3]; [|reflexivity].
  destruct (validateFrontmatter options glob st3 w3) as [[st4|e] w4]; [|reflexivity].
  destruct (v4 st4 w4) as [[st5|e] w5]; [|reflexivity].
  pose proof (returns_printReport st5 w5) as Hp.
  destruct (printReport st5 w5) as [r w6]. cbn [fst snd] in *. subst r. reflexivity.
Qed.

End VerdictFacts.
End VerdictFacts.

Module UnknownTypeFacts.
Import FileClassifier Sanitizer Scanner Selective Frames MonadFacts SelectiveFacts.

Section UnknownTypeFacts.
Context {P : platform}.
Variable options : Options.

Lemma generateOne_unsupported project files outputDir documentType processedFiles w :
  ~ In documentType supportedTypes ->
  let r := generateOne options project files outputDir documentType processedFiles w in
  fst r = Ok processedFiles /\ w_writes (snd r) = w_writes w.
Proof.
  intros Hnot r. subst r.
  destruct (@generateSelectiveDocument_unsupported P options project files documentType
              outputDir w Hnot) as [Hr Hw].
  unfold generateOne, try_catch, bind.
  destruct (generateSelectiveDocument options project files documentType outputDir w)
    as [r w1]. cbn [fst snd] in Hr, Hw. subst r.
  unfold error. rewrite log_eq. cbn [ret fst snd].
  split; [reflexivity|]. rewrite <- Hw. apply quiet_log.
Qed.

End UnknownTypeFacts.
End UnknownTypeFacts.

(** * The claims of the specification *)

Import RegexFacts Sanitizer Braces SanitizerFacts.

(** C1, as stated, fails: the sanitizer does not balance the delimiters.
    The text [{{a}] has no digit between braces, no open brace without a
    closing brace on its line and no frontmatter, so it comes back
    unchanged, with two opening braces and one closing brace. *)
Lemma sanitize_keeps_unbalanced :
  sanitizeMDXContent (js "{{a}") = js "{{a}" /\
  count_occ N.eq_dec (sanitizeMDXContent (js "{{a}")) lbrace = 2 /\
  count_occ N.eq_dec (sanitizeMDXContent (js "{{a}")) rbrace = 1 /\
  balanced (sanitizeMDXContent (js "{{a}")) = false.
Proof. repeat split; vm_compute; reflexivity. Qed.

(** C1, amended: in the body returned by [sanitizeMDXContent] every opening
    brace is followed by a closing brace later on the same line (no line
    terminator in between).  Whether the braces are balanced is not
    promised. *)
Theorem sanitize_open_has_close :
  forall (content : jstring) (i : nat),
    nth_error (sanitizeMDXContent content) i = Some lbrace ->
    exists j, i < j /\
      nth_error (sanitizeMDXContent content) j = Some rbrace /\
      forall k c, i < k < j ->
        nth_error (sanitizeMDXContent content) k = Some c ->
        isLineTerminator c = false.
Proof.
  intros content i. apply opens_closed_index, sanitize_opens_closed.
Qed.

Lemma sanitize_open_has_close_witness :
  nth_error (sanitizeMDXContent (js "a {x} b")) 2 = Some lbrace /\
  exists j, 2 < j /\
    nth_error (sanitizeMDXContent (js "a {x} b")) j = Some rbrace /\
    forall k c, 2 < k < j ->
      nth_error (sanitizeMDXContent (js "a {x} b")) k = Some c ->
      isLineTerminator c = false.
Proof.
  split; [vm_compute; reflexivity|].
  apply (sanitize_open_has_close (js "a {x} b") 2). vm_compute. reflexivity.
Defined.

Import FileClassifier ClassifierFacts Scanner Examples.

#[local] Existing Instance Posix.posix.

(** C8: the classifier is a function of its two arguments alone; more
    precisely the label is determined by the lower-cased base name and
    extension of the path and the lower-cased content, so two evaluations on
    identical inputs return the same label, whatever the state of the
    scanner, and the label is one of the closed set. *)
Theorem classify_pure :
  forall (P : platform) (path content path' content' : jstring),
    toLowerCase (path_basename path) = toLowerCase (path_basename path') ->
    toLowerCase (path_extname path) = toLowerCase (path_extname path') ->
    toLowerCase content = toLowerCase content' ->
    classify path content = classify path' content' /\
    In (classify path content) labels.
Proof.
  intros P path content path' content' Hb He Hc. split.
  - unfold classify. rewrite Hb, He, Hc. reflexivity.
  - apply classify_in_labels.
Qed.

Lemma classify_pure_witness :
  (toLowerCase (path_basename (js "docs/README.md")) =
   toLowerCase (path_basename (js "src/readme.MD")) /\
   toLowerCase (path_extname (js "docs/README.md")) =
   toLowerCase (path_extname (js "src/readme.MD")) /\
   toLowerCase (js "Hello") = toLowerCase (js "HELLO")) /\
  classify (js "docs/README.md") (js "Hello") =
  classify (js "src/readme.MD") (js "HELLO") /\
  In (classify (js "docs/README.md") (js "Hello")) labels.
Proof.
  split; [repeat split; vm_compute; reflexivity|].
  apply (classify_pure Posix.posix (js "docs/README.md") (js "Hello")
           (js "src/readme.MD") (js "HELLO")); vm_compute; reflexivity.
Defined.




Import Selective SelectiveFacts Frames MonadFacts.

(** C10: the glob helper never expands a pattern.  It returns the pattern
    itself when that exists literally as a path and the empty list
    otherwise; so a pattern that does not exist literally contributes no
    file, and a file found through a pattern has the pattern itself as its
    path. *)
Theorem glob_never_expands :
  forall (P : platform) (options : Options) (project : Project)
         (pattern : jstring) (files : list SourceFile) (w : World),
    let globPattern := path_join (p_path project) pattern in
    glob globPattern w =
      (Ok (if fs_access (w_fs w) globPattern then [globPattern] else []), w) /\
    (fs_access (w_fs w) globPattern = false ->
     scanPattern options project pattern files w = (Ok files, w)) /\
    (forall files' w',
       scanPattern options project pattern files w = (Ok files', w') ->
       files' = files \/
       exists f, files' = files ++ [f] /\ sf_path f = globPattern).
Proof.
  intros P options project pattern files w globPattern. split; [|split].
  - apply glob_literal.
  - apply scanPattern_missing.
  - intros files' w'. apply scanPattern_literal.
Qed.

(** C3 fails on the code: the project object that [scan] builds from a
    descriptor keeps the descriptor's id under [name] and has no [id]
    property, so the [project] field of every generated frontmatter is the
    text [undefined]. *)
Theorem frontmatter_project_is_undefined :
  forall (P : platform) (projectConfig : ProjectConfig) (documentType : jstring)
         (source : option SourceFile) (w : World),
    property (projectOf projectConfig) (js "name") = VStr (cfg_id projectConfig) /\
    property (projectOf projectConfig) (js "id") = VUndefined /\
    exists lastUpdated before after,
      fst (generateCleanFrontmatter (projectOf projectConfig) documentType source w) =
        Ok (before ++ [nl] ++ js "lastUpdated: " ++ dquote ++ lastUpdated ++ dquote ++
            [nl] ++ js "project: " ++ dquote ++ js "undefined" ++ dquote ++
            [nl] ++ after).
Proof.
  intros P projectConfig documentType source w.
  split; [reflexivity|]. split; [reflexivity|].
  exists (beforeT (w_clock w (w_tick w))).
  exists (js "---" ++ [nl] ++
          js "title: " ++ dquote ++
            (cfg_displayName projectConfig ++ js " - " ++
             toUpperCase (charAt0 documentType) ++ slice1 documentType) ++ dquote ++
          [nl] ++
          js "description: " ++ dquote ++
            (documentType ++ js " documentation for " ++ cfg_displayName projectConfig) ++
            dquote ++ [nl] ++
          js "category: " ++ dquote ++ cfg_category projectConfig ++ dquote).
  exists (match source with
          | Some s => js "sourceFile: " ++ dquote ++ sf_relativePath s ++ dquote ++
                      [nl] ++ js "---"
          | None => js "---"
          end).
  unfold generateCleanFrontmatter, today, bind, now, ret, frontmatterText.
  cbn [fst]. f_equal.
  destruct source; cbn [app map join fst snd toStr property projectOf];
    repeat (rewrite <- app_assoc; cbn [app]); reflexivity.
Qed.

(** The first project of the repository's own configuration, on the
    concrete platform: its readme frontmatter. *)
Example frontmatter_of_first_project :
  frontmatterText (P := Posix.posix)
    (projectOf (hd (MkConfig [] [] [] [] [] 0 [] [] [] []) SelectiveConfig.PROJECT_CONFIG))
    (js "readme") None (js "2025-06-01") =
  js "---
title: " ++ dquote ++ js "LostMind AI - SaaS Platform Development - Readme" ++ dquote ++ js "
description: " ++ dquote ++
  js "readme documentation for LostMind AI - SaaS Platform Development" ++ dquote ++ js "
category: " ++ dquote ++ js "core-platforms" ++ dquote ++ js "
lastUpdated: " ++ dquote ++ js "2025-06-01" ++ dquote ++ js "
project: " ++ dquote ++ js "undefined" ++ dquote ++ js "
---".
Proof. vm_compute. reflexivity. Qed.

(** C6 fails on the directory-walking scanner: its [scan] never reads the
    dry-run option, so a dry run does exactly what a normal run does, and
    even with no project found it writes the navigation file.  (The
    selective scanner honours the flag: see [selective_dry_run_is_quiet].) *)
Theorem legacy_scan_ignores_dry_run :
  forall (P : platform) (verbose : bool) (outputDir : jstring)
         (scanBasePath : jstring -> M (list Legacy.Project))
         (processDocumentationFile :
            Legacy.File -> Legacy.Project -> jstring -> M (option Legacy.Processed))
         (basePaths : list jstring) (w : World),
    Legacy.scan (MkOptions verbose true outputDir)
                scanBasePath processDocumentationFile basePaths w =
    Legacy.scan (MkOptions verbose false outputDir)
                scanBasePath processDocumentationFile basePaths w /\
    forall (fs : FS) (clock : nat -> jstring),
    exists rest,
      w_writes (snd (Legacy.scan (MkOptions verbose true outputDir)
                       scanBasePath processDocumentationFile [] (initial fs clock))) =
      OpWriteFile (path_join outputDir (js "../navigation.json"))
                  (JSON_stringify (JObj [(js "navigation", JArr [])])) :: rest.
Proof.
  intros P verbose outputDir scanBasePath processDocumentationFile basePaths w.
  split; [reflexivity|].
  intros fs clock.
  unfold Legacy.scan, info, log, set_projectsFound, save, generateSummary, printStats,
    bind, now, when, console_log, get_stats, set_stats, get_navigation, lift, ret,
    writeFile, initial.
  cbn [foldM forEach opt_verbose opt_outputDir ret w_navigation w_fs w_writes w_console
       w_stats w_clock w_tick fst snd generateMintlifyConfig collect app].
  destruct verbose;
    cbn [foldM forEach opt_verbose opt_outputDir ret w_navigation w_fs w_writes w_console
         w_stats w_clock w_tick fst snd generateMintlifyConfig collect app];
    unfold ret;
    match goal with
    | |- context [fs_writeFile ?f ?p ?c] => destruct (fs_writeFile f p c) as [[[]|e] fs']
    end;
    cbn [fst snd w_writes w_fs w_stats w_tick w_clock w_console w_navigation collect app];
    try (match goal with
         | |- context [fs_writeFile ?f ?p ?c] => destruct (fs_writeFile f p c) as [[[]|e'] fs'']
         end);
    cbn [fst snd w_writes w_fs w_stats w_tick w_clock w_console w_navigation collect app];
    eexists; reflexivity.
Qed.

(** A dry run of the selective scanner makes no call that changes the file
    system and leaves the file system as it found it. *)
Lemma selective_dry_run_is_quiet :
  forall (P : platform) (options : Options) (projects : list ProjectConfig) (w : World),
    opt_dryRun options = true ->
    w_fs (snd (scan options projects w)) = w_fs w /\
    w_writes (snd (scan options projects w)) = w_writes w.
Proof.
  intros P options projects w dry. now apply quiet_scan.
Qed.

#[local] Existing Instance Posix.posix.

(** C7, as stated, fails: the project index of the directory-walking
    scanner embeds the full timestamp, so two runs on the same calendar
    date, one second apart, write different [index.mdx] files. *)
Lemma project_index_varies_within_a_day :
  let run t :=
    w_writes (snd (Legacy.generateProjectIndex (P := Posix.posix) legacy_p1 []
                     (js "apps/docs/projects/p1") (Posix.world [] t))) in
  beforeT (js "2025-06-01T10:00:00.000Z") = beforeT (js "2025-06-01T10:00:01.000Z") /\
  exists c1 c2,
    run (js "2025-06-01T10:00:00.000Z") =
      [OpWriteFile (js "apps/docs/projects/p1/index.mdx") c1] /\
    run (js "2025-06-01T10:00:01.000Z") =
      [OpWriteFile (js "apps/docs/projects/p1/index.mdx") c2] /\
    str_eqb c1 c2 = false.
Proof.
  split; [vm_compute; reflexivity|].
  eexists. eexists. split; [vm_compute; reflexivity|].
  split; [vm_compute; reflexivity|]. vm_compute. reflexivity.
Qed.

(** C7, amended: what the selective scanner generates for a project
    depends on the clock through the calendar date only.  Take two runs,
    such as a run and a regeneration on the disk the first run left, whose
    clocks show one calendar date at every reading and whose disks the
    generator cannot tell apart: they hold the same primary files of the
    project, and the creation of the output directory and the writes of the
    documents succeed or fail on both alike.  The two runs return the same
    documents and make the same changes, with the same paths and the same
    contents in the same order, and leave disks that are alike again. *)
Theorem selective_generation_same_day :
  forall (P : platform) (options : Options) (project : Project) (w1 w2 : World),
    Regeneration.alike project (w_fs w1) (w_fs w2) ->
    (forall n m, beforeT (w_clock w1 n) = beforeT (w_clock w2 m)) ->
    let r1 := processSelectiveProject options project w1 in
    let r2 := processSelectiveProject options project w2 in
    fst r1 = fst r2 /\
    (exists written,
       w_writes (snd r1) = w_writes w1 ++ written /\
       w_writes (snd r2) = w_writes w2 ++ written) /\
    Regeneration.alike project (w_fs (snd r1)) (w_fs (snd r2)).
Proof.
  intros P options project w1 w2 Hfs Hclock r1 r2.
  destruct (@RegenerationFacts.regen_processSelectiveProject P options project w1 w2
              (conj Hfs Hclock)) as (Hr & [Ha _] & Hw).
  split; [exact Hr|]. split; [exact Hw|exact Ha].
Qed.

(** A run at midnight and a regeneration, by a new process at the end of
    the same day, on the disk the run left. *)
Lemma selective_generation_same_day_witness :
  let options := MkOptions false false SelectiveConfig.outputDir in
  let w1 := Posix.world p1_files (js "2025-06-01T00:00:00.000Z") in
  let r1 := processSelectiveProject (P := Posix.posix) options (projectOf p1) w1 in
  let w2 := Posix.world (w_fs (snd r1)) (js "2025-06-01T23:59:59.999Z") in
  let r2 := processSelectiveProject (P := Posix.posix) options (projectOf p1) w2 in
  (Regeneration.alike (projectOf p1) (w_fs w1) (w_fs w2) /\
   (forall n m, beforeT (w_clock w1 n) = beforeT (w_clock w2 m))) /\
  fst r1 = fst r2 /\
  (exists written,
     w_writes (snd r1) = w_writes w1 ++ written /\
     w_writes (snd r2) = w_writes w2 ++ written) /\
  Regeneration.alike (projectOf p1) (w_fs (snd r1)) (w_fs (snd r2)).
Proof.
  intros options w1 r1 w2 r2.
  assert (Ha : Regeneration.alike (P := Posix.posix) (projectOf p1) (w_fs w1) (w_fs w2)).
  { apply PosixFacts.sameSources_alike.
    - repeat constructor.
    - split; repeat constructor; vm_compute; try reflexivity; discriminate. }
  assert (Hd : forall n m, beforeT (w_clock w1 n) = beforeT (w_clock w2 m)).
  { intros n m. vm_compute. reflexivity. }
  split; [split; assumption|].
  exact (@selective_generation_same_day Posix.posix options (projectOf p1) w1 w2 Ha Hd).
Defined.

Import Validator ValidatorFacts.

(** C5: the result of a validation run is a pass exactly when the passes
    have collected no error, whatever the warnings.  When the five passes
    return, [validate] returns a report that carries the errors and the
    warnings they collected, with [success] set exactly when there is no
    error, and [main] ends the process with status 0 when there is no error
    and 1 otherwise.  (When a pass throws, which in the passes modelled only
    [findFiles] can cause, [validate] throws the same, there is no result
    and the process ends with status 0.) *)
Theorem validation_passes_iff_no_errors :
  forall (P : platform) (options : Validator.Options)
         (glob : FS -> jstring -> jstring -> result (list jstring))
         (validateMDXSyntax validateLinks validateImages validateNavigation :
            State -> M State)
         (st : State) (w : World),
    match Passes.collect options glob validateMDXSyntax validateLinks validateImages
            validateNavigation st w with
    | (Ok collected, _) =>
        exists report,
          fst (Validator.validate options glob validateMDXSyntax validateLinks
                 validateImages validateNavigation st w) = Ok report /\
          report_errors report = errors collected /\
          report_warnings report = warnings collected /\
          (success report = true <-> errors collected = [])
    | (Err e, _) =>
        fst (Validator.validate options glob validateMDXSyntax validateLinks
               validateImages validateNavigation st w) = Err e
    end /\
    match Passes.collect options glob validateMDXSyntax validateLinks validateImages
            validateNavigation (MkState [] []) w with
    | (Ok collected, _) =>
        fst (Validator.main options glob validateMDXSyntax validateLinks
               validateImages validateNavigation w) =
        match errors collected with [] => 0%Z | _ :: _ => 1%Z end
    | (Err _, _) =>
        fst (Validator.main options glob validateMDXSyntax validateLinks
               validateImages validateNavigation w) = 0%Z
    end.
Proof.
  intros P options glob v1 v2 v3 v4 st w. split.
  - pose proof (VerdictFacts.validate_collect options glob v1 v2 v3 v4 st w) as H.
    destruct (Passes.collect options glob v1 v2 v3 v4 st w) as [[collected|e] w'];
      rewrite H; [|reflexivity].
    eexists. split; [reflexivity|]. cbn [report_errors report_warnings success].
    split; [reflexivity|]. split; [reflexivity|]. apply length_zero_iff.
  - pose proof (VerdictFacts.validate_collect options glob v1 v2 v3 v4 (MkState [] []) w)
      as H.
    unfold Validator.main.
    destruct (Passes.collect options glob v1 v2 v3 v4 (MkState [] []) w)
      as [[collected|e] w']; rewrite H; [|reflexivity].
    cbn [fst success]. destruct (errors collected); reflexivity.
Qed.

(** C2, as stated, fails: for a document without title and description the
    frontmatter pass reports four warnings and no error. *)
Lemma missing_title_is_no_error :
  fst (validateFrontmatter (P := Posix.posix)
         (Validator.MkOptions false (js "/docs"))
         (fun _ _ _ => Ok [js "a.mdx"])
         (MkState [] [])
         (Posix.world docs_files (js "2025-06-01T10:00:00.000Z"))) =
  Ok (MkState []
        [ js "/docs/a.mdx - Missing required frontmatter field: title";
          js "/docs/a.mdx - Missing required frontmatter field: description";
          js "/docs/a.mdx - Missing recommended frontmatter field: tags";
          js "/docs/a.mdx - Missing recommended frontmatter field: lastUpdated" ]).
Proof. vm_compute. reflexivity. Qed.

(** C2, amended: for a document that can be read and has a frontmatter
    block, a missing field (one whose name followed by a colon does not
    occur in the block) adds a warning and never an error: "Missing
    required frontmatter field" for title and description, "Missing
    recommended frontmatter field" for category, tags and lastUpdated. *)
Theorem missing_frontmatter_field_warns :
  forall (P : platform) (file content field : jstring) (cs : list (nat * jstring))
         (st : State) (w : World),
    fs_readFile (w_fs w) file = Ok content ->
    rsearch frontmatterRegex content = Some cs ->
    includes (cap 1 cs) (field ++ js ":") = false ->
    exists st',
      fst (frontmatterStep file st w) = Ok st' /\
      errors st' = errors st /\
      (In field requiredFields ->
       In (file ++ js " - Missing required frontmatter field: " ++ field)
          (warnings st')) /\
      (In field recommendedFields ->
       In (file ++ js " - Missing recommended frontmatter field: " ++ field)
          (warnings st')).
Proof.
  intros P file content field cs st w Hread Hfm Hmissing.
  exists (MkState (errors st) (warnings st ++ checkFrontmatter content file)).
  split; [|split; [reflexivity|]].
  - unfold frontmatterStep, try_catch, bind, readFile, ret. now rewrite Hread.
  - cbn [warnings]. unfold checkFrontmatter. rewrite Hfm. cbn zeta.
    split; intros Hin; apply in_or_app; right; apply in_or_app; [left|right];
      apply in_flat_map; exists field; (split; [exact Hin|]);
      rewrite Hmissing; left; reflexivity.
Qed.

Lemma missing_frontmatter_field_warns_witness :
  let w := Posix.world docs_files (js "2025-06-01T10:00:00.000Z") in
  let cs := [(1%nat, js "category: guide")] in
  (fs_readFile (w_fs w) (js "/docs/a.mdx") = Ok untitled /\
   rsearch frontmatterRegex untitled = Some cs /\
   includes (cap 1 cs) (js "title" ++ js ":") = false) /\
  exists st',
    fst (frontmatterStep (js "/docs/a.mdx") (MkState [] []) w) = Ok st' /\
    errors st' = [] /\
    (In (js "title") requiredFields ->
     In (js "/docs/a.mdx" ++ js " - Missing required frontmatter field: " ++ js "title")
        (warnings st')) /\
    (In (js "title") recommendedFields ->
     In (js "/docs/a.mdx" ++ js " - Missing recommended frontmatter field: " ++ js "title")
        (warnings st')).
Proof.
  intros w cs.
  split; [repeat split; vm_compute; reflexivity|].
  apply (@missing_frontmatter_field_warns Posix.posix (js "/docs/a.mdx") untitled
           (js "title") cs (MkState [] []) w);
    vm_compute; reflexivity.
Defined.

(** C4, as stated, fails: the project declares the type [readme] and has a
    README, but the sanitizer keeps the unterminated declaration, the
    structural pre-check rejects the assembled document, and the generator
    yields no document for the type: nothing is written but the output
    directory. *)
Lemma rejected_type_yields_no_document :
  let options := Scanner.MkOptions false false SelectiveConfig.outputDir in
  let run := processSelectiveProject (P := Posix.posix) options (projectOf p2)
               (Posix.world p2_files (js "2025-06-01T10:00:00.000Z")) in
  p_documentTypes (projectOf p2) = [js "readme"] /\
  fst run = Ok [] /\
  w_writes (snd run) = [OpMkdir (js "./apps/docs/projects/p2")].
Proof. vm_compute. repeat split; reflexivity. Qed.

(** C4, amended: for a declared type among introduction, readme,
    architecture and development the generator assembles one document,
    whose body is the sanitized content of the matching source file when
    there is one and the templated synthetic document otherwise.  When the
    assembled document passes the structural pre-check it is the one output
    of the type: it is returned, and written unless the run is a dry run (a
    failing write throws instead).  When it fails the pre-check the type
    yields no document and nothing is written.  Any other declared type
    yields no document either and nothing is written for it: the round of
    the loop over the declared types leaves the list of documents as it
    was. *)
Theorem declared_type_yields_checked_document :
  forall (P : platform) (options : Scanner.Options) (project : Project)
         (files : list SourceFile) (documentType outputDir : jstring) (w : World),
    let r := generateSelectiveDocument options project files documentType outputDir w in
    (In documentType supportedTypes ->
     let source := matchingSource documentType files in
     let date n := beforeT (w_clock w (n + w_tick w)) in
     let finalContent :=
       frontmatterText project documentType source (date (readingsBefore documentType)) ++
       [nl; nl] ++ documentBody project documentType files (date 1) in
     let filePath := path_join outputDir (documentType ++ js ".mdx") in
     let document :=
       MkDoc documentType documentType
             (path_relative (js "./apps/docs") filePath)
             (path_relative (opt_outputDir options) filePath) in
     (mdxIssues finalContent = [] ->
      fst r = match (if opt_dryRun options then Ok tt
                     else fst (fs_writeFile (w_fs w) filePath finalContent)) with
              | Ok _ => Ok (Some document)
              | Err e => Err e
              end /\
      w_writes (snd r) =
        w_writes w ++ (if opt_dryRun options then []
                       else [OpWriteFile filePath finalContent])) /\
     (mdxIssues finalContent <> [] ->
      fst r = Ok None /\ w_writes (snd r) = w_writes w)) /\
    (~ In documentType supportedTypes ->
     (forall document, fst r <> Ok (Some document)) /\
     w_writes (snd r) = w_writes w /\
     forall processedFiles,
       let round := generateOne options project files outputDir documentType
                      processedFiles w in
       fst round = Ok processedFiles /\ w_writes (snd round) = w_writes w).
Proof.
  intros P options project files documentType outputDir w r. split.
  - intros Hin. now apply generateSelectiveDocument_spec.
  - intros Hnot.
    destruct (@generateSelectiveDocument_unsupported P options project files documentType
                outputDir w Hnot) as [Hr Hw].
    split; [|split; [exact Hw|]].
    + intros document. subst r. rewrite Hr. discriminate.
    + intros processedFiles. now apply UnknownTypeFacts.generateOne_unsupported.
Qed.

Lemma declared_type_yields_checked_document_witness :
  let options := Scanner.MkOptions false false SelectiveConfig.outputDir in
  let w := Posix.world p1_files (js "2025-06-01T10:00:00.000Z") in
  let finalContent :=
    frontmatterText (projectOf p1) (js "readme") (Some p1_readme) (js "2025-06-01") ++
    [nl; nl] ++ sanitizeMDXContent (sf_content p1_readme) in
  let r := generateSelectiveDocument options (projectOf p1) [p1_readme] (js "readme")
             (js "./apps/docs/projects/p1") w in
  In (js "readme") supportedTypes /\
  mdxIssues finalContent = [] /\
  fst r = Ok (Some (MkDoc (js "readme") (js "readme")
                          (js "projects/p1/readme.mdx") (js "p1/readme.mdx"))) /\
  w_writes (snd r) = [OpWriteFile (js "apps/docs/projects/p1/readme.mdx") finalContent].
Proof.
  intros options w finalContent r.
  assert (In (js "readme") supportedTypes) as Hin by (right; left; reflexivity).
  assert (mdxIssues finalContent = []) as Hvalid by (vm_compute; reflexivity).
  split; [exact Hin|]. split; [exact Hvalid|].
  destruct (@declared_type_yields_checked_document Posix.posix options (projectOf p1)
              [p1_readme] (js "readme") (js "./apps/docs/projects/p1") w) as [Hsup _].
  destruct (Hsup Hin) as [Hok _].
  exact (Hok Hvalid).
Defined.

(** The directory-walking scanner started with [--dry-run] on an empty
    disk: it announces that no file will be written, then writes the
    navigation and the summary files and ends with status 0. *)
Example legacy_main_dry_run_writes :
  let run := Legacy.main (P := Posix.posix)
               (fun _ => ret []) (fun _ _ _ => ret None) None
               [js "--dry-run"; js "--base-path=/nowhere"]
               (Posix.world [] (js "2025-06-01T10:00:00.000Z")) in
  fst run = 0%Z /\
  nth_error (w_console (snd run)) 2 =
    Some ([55357; 56589]%N ++ js " DRY RUN MODE - No files will be written" ++ [nl]) /\
  map (fun op => match op with OpMkdir p => p | OpWriteFile p _ => p end)
      (w_writes (snd run)) =
    [js "apps/docs/navigation.json"; js "apps/docs/project-summary.json"].
Proof. vm_compute. repeat split; reflexivity. Qed.

(** The selective scanner started with [--dry-run] changes nothing on
    disk, whatever the configured projects hold. *)
Lemma selective_main_dry_run_is_quiet :
  forall (P : platform) (args : list jstring) (w : World),
    oneOf (js "--dry-run") args = true ->
    w_fs (snd (Selective.main args w)) = w_fs w /\
    w_writes (snd (Selective.main args w)) = w_writes w.
Proof.
  intros P args w Hflag. unfold Selective.main. cbv zeta.
  match goal with
  | |- context [match ?m w with _ => _ end] =>
      assert (quiet m) as Hq
        by (pose proof (quiet_scan (Selective.optionsOf args) Hflag);
            auto 10 with quiet);
      specialize (Hq w); destruct (m w) as [[r|e] w1]
  end; cbn [fst snd] in *.
  - match goal with
    | |- context [snd (?tail w1)] =>
        assert (quiet tail) as Ht by auto 10 with quiet;
        destruct (Ht w1) as [H1 H2]; rewrite H1, H2
    end.
    exact Hq.
  - exact Hq.
Qed.

(** * Further properties of the code *)

Import StringFacts Shapes Extractor.

(** ** File names, descriptions, priorities and slugs *)

(** X1: the name [generateOutputFilename] gives a converted file ends in
    [.mdx], and what stands before the extension is made of ASCII letters,
    digits, hyphens and underscores only, whatever the name of the source
    file. *)
Theorem output_filename_is_safe :
  forall (P : platform) (file : Legacy.File),
    exists stem,
      Discovery.generateOutputFilename file = stem ++ js ".mdx" /\
      forallb Discovery.isSafe stem = true.
Proof. intros P file. apply DiscoveryFacts.generateOutputFilename_safe. Qed.

(** X2: the description [extractDescription] takes from a text is empty, or
    it has more than 50 and at most 203 code units, opens neither a code
    fence nor a table row, and, when longer than 200, is the first 200 code
    units of the paragraph followed by three dots. *)
Theorem description_is_bounded :
  forall content : jstring,
    let d := Discovery.extractDescription content in
    d = [] \/
    (50 < List.length d <= 203 /\
     startsWith d (js "```") = false /\ startsWith d (js "|") = false /\
     (200 < List.length d -> exists t, d = t ++ js "..." /\ List.length t = 200)).
Proof. intros content. apply DiscoveryFacts.firstParagraph_shape. Qed.

(** X3: [calculatePriority] of the directory-walking scanner never throws,
    returns a priority between 50 and 100 and leaves the file system alone,
    whatever the name, the files and the clock. *)
Theorem priority_is_between_50_and_100 :
  forall (P : platform) (timeValue : jstring -> Z) (name : jstring)
         (files : list Legacy.File) (w : World),
    exists priority,
      fst (Discovery.calculatePriority timeValue name files w) = Ok priority /\
      (50 <= priority <= 100)%Z /\
      w_fs (snd (Discovery.calculatePriority timeValue name files w)) = w_fs w /\
      w_writes (snd (Discovery.calculatePriority timeValue name files w)) = w_writes w.
Proof. intros P timeValue name files w. apply PriorityFacts.calculatePriority_bounds. Qed.

(** X4: the discovery script ranks by category first.  The priority it
    gives a project lies between 0 and 170; for a project of the category
    [main-platform] it is at least 100, and for a project of one of the
    categories without a bonus ([documentation], [development-tools],
    [other]) at most 70, so a main platform always comes before them. *)
Theorem platforms_rank_first :
  forall (P : platform) (timeValue : jstring -> Z) (project : ProjectScanner.Project)
         (w : World),
    let category := ProjectScanner.categorizeProject (ProjectScanner.name project) in
    exists priority,
      fst (ProjectScanner.rank timeValue project w) = Ok (category, priority) /\
      (0 <= priority <= 170)%Z /\
      (category = js "main-platform" -> 100 <= priority)%Z /\
      (In category [js "documentation"; js "development-tools"; js "other"] ->
       priority <= 70)%Z.
Proof.
  intros P timeValue project w category.
  unfold ProjectScanner.rank, ProjectScanner.calculatePriority, bind, now, ret.
  cbn [fst snd]. eexists. split; [reflexivity|].
  apply (PriorityFacts.priorityAt_bounds timeValue (timeValue (w_clock w (w_tick w)))
           (ProjectScanner.MkProject (ProjectScanner.name project)
              (ProjectScanner.indicators project) (ProjectScanner.lastModified project)
              (ProjectScanner.framework project) category)).
Qed.

(** X5: a slug made by [createSlug] holds lower-case ASCII letters, digits
    and hyphens only, and never two hyphens in a row.  (A hyphen may open or
    close it: the [trim] of the last step removes white space, not
    hyphens.) *)
Theorem slug_is_clean :
  forall (P : platform) (projectName : jstring),
    forallb isSlugOut (ProjectScanner.createSlug projectName) = true /\
    includes (ProjectScanner.createSlug projectName) (js "--") = false.
Proof.
  intros P projectName. destruct (SlugFacts.createSlug_eq projectName) as [E H].
  split; [exact H|]. rewrite E. apply SlugFacts.squeeze_hyphens.
Qed.

(** ** Frontmatter and docstrings *)

(** X6: [extractFrontmatter] returns a text without an opening fence as it
    is, with no frontmatter.  When it does find frontmatter, the text is an
    opening fence line, a block, a closing fence line and a body; the
    frontmatter is read from the block and the content returned is exactly
    the body. *)
Theorem frontmatter_is_split_at_the_fences :
  forall content : jstring,
    (startsWith content (js "---") = false ->
     extractFrontmatter content = ([], content)) /\
    (extractFrontmatter content = ([], content) \/
     exists ws block ws' body,
       content = js "---" ++ ws ++ nl :: block ++ nl :: js "---" ++ ws' ++ nl :: body /\
       forallb isSpace ws = true /\ forallb isSpace ws' = true /\
       extractFrontmatter content = (parseFrontmatter block, body)).
Proof.
  intros content. split.
  - apply ExtractorFacts.extractFrontmatter_unfenced.
  - apply ExtractorFacts.extractFrontmatter_shape.
Qed.

(** X7: a frontmatter line is cut at its first colon.  For a line made of a
    non-empty key without a colon, a colon and any text, the frontmatter
    afterwards holds, under the trimmed key, the trimmed text without an
    outer quote: colons in the value are kept.  (The key [__proto__] is the
    one that cannot be set.) *)
Theorem frontmatter_line_keeps_colons :
  forall (key value : jstring) (frontmatter : list (jstring * jstring)),
    key <> [] ->
    forallb (fun c => negb (ch_eqb c (ch ":"))) key = true ->
    trim key <> js "__proto__" ->
    FileClassifier.lookup (trim key) (parseLine (key ++ js ":" ++ value) frontmatter) =
    Some (unquote (trim value)).
Proof.
  intros key value frontmatter Hkey Hcolon Hproto.
  rewrite ExtractorFacts.parseLine_entry by assumption.
  unfold setProperty. destruct (str_eqb (trim key) (js "__proto__")) eqn:E.
  - apply ClassifierFacts.str_eqb_eq in E. contradiction.
  - apply ExtractorFacts.lookup_assign.
Qed.

Lemma frontmatter_line_keeps_colons_witness :
  (js "title" <> [] /\
   forallb (fun c => negb (ch_eqb c (ch ":"))) (js "title") = true /\
   trim (js "title") <> js "__proto__") /\
  FileClassifier.lookup (trim (js "title"))
    (parseLine (js "title" ++ js ":" ++ js " 'Hello: World'") []) =
  Some (unquote (trim (js " 'Hello: World'"))).
Proof.
  assert (H1 : js "title" <> []) by (apply RelevanceFacts.str_neq; reflexivity).
  assert (H2 : forallb (fun c => negb (ch_eqb c (ch ":"))) (js "title") = true)
    by reflexivity.
  assert (H3 : trim (js "title") <> js "__proto__")
    by (apply RelevanceFacts.str_neq; reflexivity).
  split; [repeat split; assumption|].
  exact (@frontmatter_line_keeps_colons (js "title") (js " 'Hello: World'") [] H1 H2 H3).
Defined.



(** ** Discovery of projects and files *)

(** X9: [isProject] answers [true] exactly when one of the eleven
    indicators exists under the path; it never throws and leaves the world
    as it found it. *)
Theorem project_has_an_indicator :
  forall (P : platform) (projectPath : jstring) (w : World),
    Discovery.isProject projectPath w =
    (Ok (existsb (fun indicator => fs_access (w_fs w) (path_join projectPath indicator))
                 Discovery.projectIndicators), w) /\
    List.length Discovery.projectIndicators = 11.
Proof.
  intros P projectPath w. split; [|reflexivity].
  apply AnalysisFacts.anyIndicator_eq.
Qed.

(** X10: [analyzeFile] never throws and never writes.  When it keeps a
    file, the file is relevant, its size is at most [maxFileSize], the
    record carries the path and the size, its content preview has at most
    5000 code units and the counter of processed files goes up by one; when
    it returns nothing the counter stays. *)
Theorem analyzed_file_is_relevant_and_bounded :
  forall (P : platform) (options : Scanner.Options) (filePath projectRoot : jstring) (w : World),
    match Discovery.analyzeFile options filePath projectRoot w with
    | (Ok None, w') => uncounted w w'
    | (Ok (Some file), w') =>
        counted w w' /\
        Discovery.isFileRelevant filePath = true /\
        (exists stats,
           fs_stat (w_fs w) filePath = Ok stats /\
           (st_size stats <= Discovery.maxFileSize)%N /\
           Legacy.f_size file = st_size stats) /\
        Legacy.f_path file = filePath /\
        (exists content,
           Legacy.f_classification file = FileClassifier.classify filePath content) /\
        List.length (Legacy.f_content file) <= 5000
    | (Err _, _) => False
    end.
Proof. intros P options filePath projectRoot w. apply AnalysisFacts.analyzeFile_spec. Qed.

(** X11: a file that [analyzeFile] keeps and classifies as [code] has
    [index] or [swagger] in its lower-cased name, so docstrings are only
    ever extracted from such files.  (The extension of a path is the end of
    its base name.) *)
Theorem kept_code_is_index_or_swagger :
  forall (P : platform) (options : Scanner.Options) (filePath projectRoot : jstring)
         (w w' : World) (file : Legacy.File),
    Discovery.analyzeFile options filePath projectRoot w = (Ok (Some file), w') ->
    Legacy.f_classification file = js "code" ->
    (exists stem, toLowerCase (path_basename filePath) =
                  stem ++ toLowerCase (path_extname filePath)) ->
    includes (toLowerCase (path_basename filePath)) (js "index") = true \/
    includes (toLowerCase (path_basename filePath)) (js "swagger") = true.
Proof.
  intros P options filePath projectRoot w w' file Hrun Hcode Hext.
  pose proof (AnalysisFacts.analyzeFile_spec options filePath projectRoot w) as S.
  rewrite Hrun in S. destruct S as (_ & Hrel & _ & _ & (content & Hc) & _).
  apply (RelevanceFacts.relevant_code filePath content Hrel); [congruence|exact Hext].
Qed.

Lemma kept_code_is_index_or_swagger_witness :
  let options := Scanner.MkOptions false false (js "./apps/docs/projects") in
  let fs : Posix.fsmap :=
    [ (js "/p", Posix.Dir); (js "/p/index.js", Posix.File (js "export default 1;")) ] in
  let w := Posix.world fs (js "2025-06-01T10:00:00.000Z") in
  let run := Discovery.analyzeFile (P := Posix.posix) options (js "/p/index.js") (js "/p") w in
  (exists file w',
     run = (Ok (Some file), w') /\ Legacy.f_classification file = js "code") /\
  (exists stem, toLowerCase (path_basename (js "/p/index.js")) =
                stem ++ toLowerCase (path_extname (js "/p/index.js"))) /\
  (includes (toLowerCase (path_basename (js "/p/index.js"))) (js "index") = true \/
   includes (toLowerCase (path_basename (js "/p/index.js"))) (js "swagger") = true).
Proof.
  intros options fs w run.
  assert (Hrun : exists file w',
             run = (Ok (Some file), w') /\ Legacy.f_classification file = js "code").
  { eexists. eexists. split; [vm_compute; reflexivity|vm_compute; reflexivity]. }
  assert (Hext : exists stem, toLowerCase (path_basename (js "/p/index.js")) =
                              stem ++ toLowerCase (path_extname (js "/p/index.js"))).
  { exists (js "index"). vm_compute. reflexivity. }
  split; [exact Hrun|]. split; [exact Hext|].
  destruct Hrun as (file & w' & Hr & Hc).
  exact (@kept_code_is_index_or_swagger Posix.posix options (js "/p/index.js") (js "/p")
           w w' file Hr Hc Hext).
Defined.

(** ** Conversion of one file *)

(** X12: [processDocumentationFile] on a file with content that is not
    code makes one write, to the output directory under the name
    [generateOutputFilename] gives.  The text written is the frontmatter
    between two fences, an empty line, the content of the file as it is and
    the attribution; and every field of the source's own frontmatter is in
    it with the source's value: what the file says wins over what the
    scanner would generate. *)
Theorem converted_file_carries_its_source :
  forall (P : platform) (options : Scanner.Options)
         (path_resolve : jstring -> jstring -> jstring)
         (file : Legacy.File) (project : Legacy.Project) (outputDir : jstring)
         (w : World),
    Legacy.f_content file <> [] ->
    Legacy.f_classification file <> js "code" ->
    NoDup (map fst (Legacy.f_frontmatter file)) ->
    let r := Discovery.processDocumentationFile options path_resolve file project
               outputDir w in
    exists lines,
      w_writes (snd r) =
        w_writes w ++
        [OpWriteFile (path_join outputDir (Discovery.generateOutputFilename file))
           (js "---" ++ [nl] ++ join [nl] lines ++ [nl] ++ js "---" ++ [nl; nl] ++
            Legacy.f_content file ++ Discovery.attribution project)] /\
      (forall k v, In (k, v) (Legacy.f_frontmatter file) ->
                   In (k ++ js ": " ++ dquote ++ v ++ dquote) lines).
Proof.
  intros P options path_resolve file project outputDir w Hc Hk Hnd r.
  pose proof (ConversionFacts.processDocumentationFile_spec options path_resolve
                file project outputDir w Hc Hk) as S.
  cbv zeta in S. subst r.
  destruct (Discovery.processDocumentationFile options path_resolve file project
              outputDir w) as [r w'].
  destruct S as [Hw _]. cbn [snd].
  eexists. split; [exact Hw|].
  intros k v Hin.
  pose proof (@ConversionFacts.enhanced_keeps P (Legacy.f_path file)
                (Legacy.f_frontmatter file) project
                (Scanner.beforeT (w_clock w (w_tick w))) k v Hnd Hin) as Hkept.
  apply (in_map (fun kv => fst kv ++ js ": " ++ dquote ++ toStr (snd kv) ++ dquote))
    in Hkept.
  exact Hkept.
Qed.

Lemma converted_file_carries_its_source_witness :
  let options := Scanner.MkOptions false false (js "./apps/docs/projects") in
  let file :=
    Legacy.MkFile (js "/tmp/p1/docs/setup guide.md") (js "docs/setup guide.md")
                  (js "setup guide.md") (js "guide") 40
                  (js "2025-01-01T00:00:00.000Z") (js "Run the installer.")
                  [(js "title", js "Setting up"); (js "project", js "other")] []
                  (js "Setting up") in
  let w := Posix.world Examples.p1_files (js "2025-06-01T10:00:00.000Z") in
  let r := Discovery.processDocumentationFile (P := Posix.posix) options
             Posix.posix_join file Examples.legacy_p1 (js "./apps/docs/projects/p1") w in
  (Legacy.f_content file <> [] /\
   Legacy.f_classification file <> js "code" /\
   NoDup (map fst (Legacy.f_frontmatter file))) /\
  exists lines,
    w_writes (snd r) =
      w_writes w ++
      [OpWriteFile (path_join (js "./apps/docs/projects/p1")
                              (Discovery.generateOutputFilename file))
         (js "---" ++ [nl] ++ join [nl] lines ++ [nl] ++ js "---" ++ [nl; nl] ++
          Legacy.f_content file ++ Discovery.attribution Examples.legacy_p1)] /\
    (forall k v, In (k, v) (Legacy.f_frontmatter file) ->
                 In (k ++ js ": " ++ dquote ++ v ++ dquote) lines).
Proof.
  intros options file w r.
  assert (H1 : Legacy.f_content file <> [])
    by (apply RelevanceFacts.str_neq; reflexivity).
  assert (H2 : Legacy.f_classification file <> js "code")
    by (apply RelevanceFacts.str_neq; reflexivity).
  assert (H3 : NoDup (map fst (Legacy.f_frontmatter file))).
  { cbn [map fst Legacy.f_frontmatter file].
    constructor.
    - intros [H|[]]. revert H. apply RelevanceFacts.str_neq. reflexivity.
    - constructor; [intros []|constructor]. }
  split; [repeat split; assumption|].
  exact (@converted_file_carries_its_source Posix.posix options Posix.posix_join file
           Examples.legacy_p1 (js "./apps/docs/projects/p1") w H1 H2 H3).
Defined.

(** ** Navigation and categories *)





(** X15: [getCategoryBreakdown] counts.  Under each category it holds the
    number of projects of that category, and it has no entry for a category
    without a project.  (The categories are not names of members that every
    object inherits.) *)
Theorem categories_are_counted :
  forall (A : Type) (category : A -> jstring) (projects : list A) (c : jstring),
    (forall p, In p projects ->
               FileClassifier.oneOf (category p) FileClassifier.inherited = false) ->
    FileClassifier.lookup c (getCategoryBreakdown category projects) =
    let n := Z.of_nat (List.length (filter (fun p => str_eqb (category p) c) projects)) in
    if (n =? 0)%Z then None else Some n.
Proof.
  intros A category projects c _. unfold getCategoryBreakdown.
  rewrite NavigationFacts.breakdown_lookup. reflexivity.
Qed.

Lemma categories_are_counted_witness :
  let projects := [js "ai-services"; js "websites"; js "ai-services"] in
  (forall p, In p projects ->
             FileClassifier.oneOf p FileClassifier.inherited = false) /\
  FileClassifier.lookup (js "ai-services") (getCategoryBreakdown (fun p => p) projects) =
  Some 2%Z.
Proof.
  intros projects.
  assert (H : forall p, In p projects ->
                        FileClassifier.oneOf p FileClassifier.inherited = false).
  { intros p [<-|[<-|[<-|[]]]]; reflexivity. }
  split; [exact H|].
  exact (@categories_are_counted jstring (fun p => p) projects (js "ai-services") H).
Defined.

(** ** The syntax pass of the validator *)

(** X16: every error and every warning of [checkMDXSyntax] opens with the
    path of the file, a colon and the number of a line of the content,
    counted from 1. *)
Theorem syntax_issues_name_their_line :
  forall content filePath issue : jstring,
    In issue (fst (SyntaxCheck.checkMDXSyntax content filePath) ++
              snd (SyntaxCheck.checkMDXSyntax content filePath)) ->
    exists n line,
      1 <= n /\ nth_error (split nl content) (n - 1) = Some line /\
      startsWith issue (place filePath n) = true.
Proof. intros content filePath issue. apply SyntaxFacts.checkMDXSyntax_places. Qed.

Lemma syntax_issues_name_their_line_witness :
  let content := js "# Intro
[](target)" in
  let issue := js "a.mdx:2 - Empty link text: [](target)" in
  In issue (fst (SyntaxCheck.checkMDXSyntax content (js "a.mdx")) ++
            snd (SyntaxCheck.checkMDXSyntax content (js "a.mdx"))) /\
  exists n line,
    1 <= n /\ nth_error (split nl content) (n - 1) = Some line /\
    startsWith issue (place (js "a.mdx") n) = true.
Proof.
  intros content issue.
  assert (H : In issue (fst (SyntaxCheck.checkMDXSyntax content (js "a.mdx")) ++
                        snd (SyntaxCheck.checkMDXSyntax content (js "a.mdx"))))
    by (left; vm_compute; reflexivity).
  split; [exact H|].
  exact (@syntax_issues_name_their_line content (js "a.mdx") issue H).
Defined.

(** X17: a heading whose text starts with a digit is an error.  For a line
    made of one or more hash signs, white space or none, and a digit first
    in what follows, [checkMDXSyntax] reports [Heading starts with number]
    with the number of the line and the trimmed line. *)
Theorem numbered_heading_is_an_error :
  forall (content filePath : jstring) (i : nat) (marks spaces : jstring) (d : char)
         (text : jstring),
    nth_error (split nl content) i = Some (marks ++ spaces ++ d :: text) ->
    marks <> [] ->
    forallb (only "#"%char) marks = true ->
    forallb isSpace spaces = true ->
    isDigit d = true ->
    In (filePath ++ js ":" ++ decimal (Z.of_nat (1 + i)) ++
        js " - Heading starts with number: " ++ dquote ++
        trim (marks ++ spaces ++ d :: text) ++ dquote)
       (fst (SyntaxCheck.checkMDXSyntax content filePath)).
Proof.
  intros content filePath i marks spaces d text Hline Hm Hmarks Hspaces Hd.
  unfold SyntaxCheck.checkMDXSyntax. cbn [fst]. apply in_flat_map.
  exists (1 + i, marks ++ spaces ++ d :: text). split.
  - unfold SyntaxCheck.numbered. apply SyntaxFacts.numbered_nth. exact Hline.
  - cbn [fst snd]. unfold SyntaxCheck.lineErrors. cbv zeta.
    rewrite (@SyntaxFacts.numberedHeading_test marks spaces d text Hm Hmarks Hspaces Hd).
    apply in_or_app. left. left. repeat rewrite <- app_assoc. reflexivity.
Qed.

Lemma numbered_heading_is_an_error_witness :
  let content := js "Title
## 2. Setup" in
  (nth_error (split nl content) 1 = Some (js "##" ++ js " " ++ ch "2" :: js ". Setup") /\
   js "##" <> [] /\
   forallb (only "#"%char) (js "##") = true /\
   forallb isSpace (js " ") = true /\
   isDigit (ch "2") = true) /\
  In (js "a.mdx" ++ js ":" ++ decimal (Z.of_nat (1 + 1)) ++
      js " - Heading starts with number: " ++ dquote ++
      trim (js "##" ++ js " " ++ ch "2" :: js ". Setup") ++ dquote)
     (fst (SyntaxCheck.checkMDXSyntax content (js "a.mdx"))).
Proof.
  intros content.
  assert (H1 : nth_error (split nl content) 1 =
               Some (js "##" ++ js " " ++ ch "2" :: js ". Setup")) by reflexivity.
  assert (H2 : js "##" <> []) by (apply RelevanceFacts.str_neq; reflexivity).
  assert (H3 : forallb (only "#"%char) (js "##") = true) by reflexivity.
  assert (H4 : forallb isSpace (js " ") = true) by reflexivity.
  assert (H5 : isDigit (ch "2") = true) by reflexivity.
  split; [repeat split; assumption|].
  exact (@numbered_heading_is_an_error content (js "a.mdx") 1 (js "##") (js " ") (ch "2")
           (js ". Setup") H1 H2 H3 H4 H5).
Defined.

(** ** The sanitizer and the selective pipeline *)

(** X18: the sanitizer leaves plain prose alone.  A text with no [<], no
    opening brace and no run of three hyphens comes back trimmed and
    otherwise unchanged. *)
Theorem plain_text_is_only_trimmed :
  forall content : jstring,
    includes content (js "<") = false ->
    includes content (js "{") = false ->
    includes content (js "---") = false ->
    Sanitizer.sanitizeMDXContent content = trim content.
Proof. intros content. apply PlainTextFacts.sanitize_plain. Qed.

Lemma plain_text_is_only_trimmed_witness :
  let content := js "  A well-known tool: it works. " in
  (includes content (js "<") = false /\
   includes content (js "{") = false /\
   includes content (js "---") = false) /\
  Sanitizer.sanitizeMDXContent content = trim content.
Proof.
  intros content.
  assert (H1 : includes content (js "<") = false) by reflexivity.
  assert (H2 : includes content (js "{") = false) by reflexivity.
  assert (H3 : includes content (js "---") = false) by reflexivity.
  split; [repeat split; assumption|].
  exact (@plain_text_is_only_trimmed content H1 H2 H3).
Defined.

(** X19: the documents [processSelectiveProject] returns follow the
    declaration: their types are the declared types in the declared order
    with some left out, each document is classified by its type, and each
    type is one of the four that the generator supports. *)
Theorem documents_follow_the_declared_types :
  forall (P : platform) (options : Scanner.Options) (project : Project)
         (docs : list GeneratedDoc) (w w' : World),
    processSelectiveProject options project w = (Ok docs, w') ->
    subsequence (map gd_type docs) (p_documentTypes project) /\
    Forall (fun d => gd_classification d = gd_type d /\ In (gd_type d) supportedTypes) docs.
Proof.
  intros P options project docs w w' Hrun.
  apply PipelineFacts.processSelectiveProject_spec in Hrun. tauto.
Qed.

Lemma documents_follow_the_declared_types_witness :
  let options := Scanner.MkOptions false true SelectiveConfig.outputDir in
  let w := Posix.world p1_files (js "2025-06-01T10:00:00.000Z") in
  let run := processSelectiveProject (P := Posix.posix) options (projectOf p1) w in
  exists docs,
    run = (Ok docs, snd run) /\
    subsequence (map gd_type docs) (p_documentTypes (projectOf p1)) /\
    Forall (fun d => gd_classification d = gd_type d /\ In (gd_type d) supportedTypes) docs.
Proof.
  intros options w run.
  assert (Hrun : exists docs, run = (Ok docs, snd run)).
  { eexists. vm_compute. reflexivity. }
  destruct Hrun as (docs & Hr). exists docs. split; [exact Hr|].
  exact (@documents_follow_the_declared_types Posix.posix options (projectOf p1) docs
           w (snd run) Hr).
Defined.

(** X20: a dry run of the selective scanner always completes, and it
    returns the configured projects whose source path exists, in the order
    of the configuration, each as the project object built from its
    descriptor. *)
Theorem dry_run_returns_the_existing_projects :
  forall (P : platform) (options : Scanner.Options) (projects : list ProjectConfig) (w : World),
    opt_dryRun options = true ->
    fst (scan options projects w) =
    Ok (map projectOf
            (filter (fun c => fs_access (w_fs w) (cfg_sourcePath c)) projects)).
Proof.
  intros P options projects w Hdry. now apply PipelineFacts.dry_scan_value.
Qed.

Lemma dry_run_returns_the_existing_projects_witness :
  let options := Scanner.MkOptions false true SelectiveConfig.outputDir in
  let w := Posix.world p1_files (js "2025-06-01T10:00:00.000Z") in
  opt_dryRun options = true /\
  fst (scan (P := Posix.posix) options [p1; p2] w) =
  Ok (map projectOf
          (filter (fun c => fs_access (w_fs w) (cfg_sourcePath c)) [p1; p2])).
Proof.
  intros options w.
  assert (H : opt_dryRun options = true) by reflexivity.
  split; [exact H|].
  exact (@dry_run_returns_the_existing_projects Posix.posix options [p1; p2] w H).
Defined.

(** ** What the scanners read and write *)

(** X21: [scanSelectiveProjectFiles] never throws, and every file it
    returns comes from one of the declared primary files of the project: its
    path is the project's path joined with that pattern, it exists, it is a
    regular file whose path includes no skip pattern, and it carries the
    size, the modification time, the content and the classification read
    from it. *)
Theorem scanned_files_are_declared_and_kept :
  forall (P : platform) (options : Scanner.Options) (project : Project) (w : World),
    exists files,
      fst (scanSelectiveProjectFiles options project w) = Ok files /\
      Forall (fun f => exists pattern,
                         In pattern (p_primaryFiles project) /\
                         scanned project (w_fs w) pattern f) files.
Proof.
  intros P options project w. apply ScanFacts.scanSelectiveProjectFiles_spec.
Qed.

(** X22: once the output directory of a project could be created,
    [processProject] attempts these changes of the file system and no
    others, in this order: the directory; one write for each file of the
    project that has content and is not code, in the order of the files, at
    the name [generateOutputFilename] gives it under the directory; and the
    write of [index.mdx].  A write that fails does not stop the ones after
    it. *)
Theorem project_writes_its_files_then_its_index :
  forall (P : platform) (options : Scanner.Options)
         (path_resolve : jstring -> jstring -> jstring)
         (project : Legacy.Project) (w : World),
    fst (fs_mkdir (w_fs w) (path_join (opt_outputDir options) (Legacy.name project)))
      = Ok tt ->
    let outputDir := path_join (opt_outputDir options) (Legacy.name project) in
    map target
        (w_writes
           (snd (Legacy.processProject options
                   (Discovery.processDocumentationFile options path_resolve) project w))) =
    map target (w_writes w) ++ [outputDir] ++
    map (fun f => path_join outputDir (Discovery.generateOutputFilename f))
        (filter convertible (Legacy.files project)) ++
    [path_join outputDir (js "index.mdx")].
Proof.
  intros P options path_resolve project w Hmk.
  now apply LegacyFacts.processProject_targets.
Qed.

Lemma project_writes_its_files_then_its_index_witness :
  let options := Scanner.MkOptions false false (js "./apps/docs/projects") in
  let guide :=
    Legacy.MkFile (js "/tmp/p1/docs/setup guide.md") (js "docs/setup guide.md")
                  (js "setup guide.md") (js "guide") 40
                  (js "2025-01-01T00:00:00.000Z") (js "Run the installer.")
                  [(js "title", js "Setting up")] [] (js "Setting up") in
  let code :=
    Legacy.MkFile (js "/tmp/p1/src/index.js") (js "src/index.js")
                  (js "index.js") (js "code") 12
                  (js "2025-01-01T00:00:00.000Z") (js "main();") [] [] (js "index") in
  let empty :=
    Legacy.MkFile (js "/tmp/p1/README.md") (js "README.md")
                  (js "README.md") (js "readme") 0
                  (js "2025-01-01T00:00:00.000Z") [] [] [] (js "README") in
  let project :=
    Legacy.MkProject (js "p1") (js "/tmp/p1") (js "P1") (js "A sample project.")
                     (js "1.0.0") (js "miscellaneous") 55 [guide; code; empty] [] in
  let w := Posix.world Examples.p1_files (js "2025-06-01T10:00:00.000Z") in
  let outputDir := path_join (opt_outputDir options) (Legacy.name project) in
  fst (fs_mkdir (w_fs w) outputDir) = Ok tt /\
  map target
      (w_writes
         (snd (Legacy.processProject (P := Posix.posix) options
                 (Discovery.processDocumentationFile options Posix.posix_join) project w))) =
  map target (w_writes w) ++ [outputDir] ++
  map (fun f => path_join outputDir (Discovery.generateOutputFilename f))
      (filter convertible (Legacy.files project)) ++
  [path_join outputDir (js "index.mdx")].
Proof.
  intros options guide code empty project w outputDir.
  assert (H : fst (fs_mkdir (w_fs w) outputDir) = Ok tt) by (vm_compute; reflexivity).
  split; [exact H|].
  exact (@project_writes_its_files_then_its_index Posix.posix options Posix.posix_join
           project w H).
Defined.

(** ** The syntax pass of the validator *)

(** X23: when the files can be listed, [validateMDXSyntax] never throws and
    changes nothing on disk.  It appends to the errors and to the warnings,
    file by file in the order of the listing, what [checkMDXSyntax] finds in
    the content of the file; a file that cannot be read adds the one error
    [Failed to read <file>: <message>] and the pass goes on. *)
Theorem syntax_pass_reports_every_file :
  forall (P : platform) (options : Validator.Options)
         (glob : FS -> jstring -> jstring -> result (list jstring))
         (files : list jstring) (st : Validator.State) (w : World),
    glob (w_fs w) (js "**/*.mdx") (Validator.docsDir options) = Ok files ->
    let paths := map (fun file => path_join (Validator.docsDir options) file) files in
    let r := SyntaxCheck.validateMDXSyntax options glob st w in
    fst r =
      Ok (Validator.MkState
            (Validator.errors st ++
             flat_map (fun f => fst (syntaxIssues (w_fs w) f)) paths)
            (Validator.warnings st ++
             flat_map (fun f => snd (syntaxIssues (w_fs w) f)) paths)) /\
    w_fs (snd r) = w_fs w /\ w_writes (snd r) = w_writes w.
Proof.
  intros P options glob files st w Hg. now apply PassFacts.validateMDXSyntax_spec.
Qed.

Lemma syntax_pass_reports_every_file_witness :
  let options := Validator.MkOptions false (js "/docs") in
  let glob := fun (_ : FS) (_ _ : jstring) => Ok [js "a.mdx"; js "missing.mdx"] in
  let st := Validator.MkState [] [] in
  let w := Posix.world Examples.docs_files (js "2025-06-01T10:00:00.000Z") in
  let paths := map (fun file => path_join (Validator.docsDir options) file)
                   [js "a.mdx"; js "missing.mdx"] in
  let r := SyntaxCheck.validateMDXSyntax (P := Posix.posix) options glob st w in
  glob (w_fs w) (js "**/*.mdx") (Validator.docsDir options)
    = Ok [js "a.mdx"; js "missing.mdx"] /\
  (fst r =
     Ok (Validator.MkState
           (Validator.errors st ++
            flat_map (fun f => fst (syntaxIssues (w_fs w) f)) paths)
           (Validator.warnings st ++
            flat_map (fun f => snd (syntaxIssues (w_fs w) f)) paths)) /\
   w_fs (snd r) = w_fs w /\ w_writes (snd r) = w_writes w).
Proof.
  intros options glob st w paths r.
  assert (H : glob (w_fs w) (js "**/*.mdx") (Validator.docsDir options)
              = Ok [js "a.mdx"; js "missing.mdx"]) by reflexivity.
  split; [exact H|].
  exact (@syntax_pass_reports_every_file Posix.posix options glob
           [js "a.mdx"; js "missing.mdx"] st w H).
Defined.

(** ** Link validation *)

(** X24: [AssetManager.validateLinks] only reports.  Whatever the links of
    the content and whatever exists on disk, it never throws, returns the
    content it was given unchanged and changes nothing on disk: a broken
    link is logged, not repaired. *)
Theorem link_validation_returns_the_content :
  forall (P : platform) (options : Scanner.Options)
         (path_resolve : jstring -> jstring -> jstring)
         (content basePath : jstring) (w : World),
    let r := Discovery.validateLinks options path_resolve content basePath w in
    fst r = Ok content /\ w_fs (snd r) = w_fs w /\ w_writes (snd r) = w_writes w.
Proof.
  intros P options path_resolve content basePath w r. subst r.
  apply ConversionFacts.validateLinks_eq.
Qed.
